(** * RentHabit admin router: session gate, key derivation, content lifecycle

    A shallow embedding of the admin router of the RentHabit backend
    (the Express router with [getAdminCredentials], [requireAuth],
    [generateS3Key] and the [/api/admin/...] handlers), followed by the
    properties of it that the design document states.

    Conventions of the embedding.
    - A JavaScript string is a sequence of UTF-16 code units.  The model
      holds the strings whose code units are below 256, one [ascii] per
      code unit.  The regular expression of [generateS3Key] has no [u]
      flag, so it works code unit by code unit as well.
    - A [Date] is its time value: milliseconds since the epoch, in [Z].
      A session field that holds a date is [option Z], [None] being
      [undefined].
    - [async]/[await] code of one request runs sequentially; it is
      written in a state-and-exception monad over the [World] a request
      handler can touch. *)

From Stdlib Require Import ZArith String Ascii List Lia DecimalString Sorted.
From stdpp Require Import base option gmap strings list fin_maps.

Local Open Scope string_scope.
Local Open Scope Z_scope.

(* Concatenations with a literal in front are computed by [simpl]. *)
#[local] Arguments String.append !s1 s2 : simpl nomatch.

(** ** JavaScript strings *)

Module JsString.

(** Code unit of a one-character literal, as a number. *)
Definition code (c : ascii) : N := N_of_ascii c.

Definition in_range (lo hi c : ascii) : bool :=
  ((code lo <=? code c) && (code c <=? code hi))%N.

(** The character class [[a-zA-Z0-9.-]] of [generateS3Key]. *)
Definition in_class (c : ascii) : bool :=
  in_range "a" "z" c || in_range "A" "Z" c || in_range "0" "9" c
  || Ascii.eqb c "." || Ascii.eqb c "-".

(** [s.replace(/[^a-zA-Z0-9.-]/g, '_')]: the [g] flag replaces every
    code unit that the negated class matches. *)
Fixpoint replace_outside_class (s : string) : string :=
  match s with
  | EmptyString => EmptyString
  | String c s' =>
      String (if in_class c then c else "_"%char) (replace_outside_class s')
  end.

(** [s.replace(p, r)] for a one-character string pattern [p] and a
    replacement without [$]: only the first occurrence is replaced. *)
Fixpoint replace_first (p : ascii) (r s : string) : string :=
  match s with
  | EmptyString => EmptyString
  | String c s' =>
      if Ascii.eqb c p then r ++ s' else String c (replace_first p r s')
  end.

(** [s.split(sep)] for a one-character separator; never empty. *)
Fixpoint split (sep : ascii) (s : string) : list string :=
  match s with
  | EmptyString => [EmptyString]
  | String c s' =>
      if Ascii.eqb c sep then EmptyString :: split sep s'
      else match split sep s' with
           | h :: t => String c h :: t
           | [] => [String c EmptyString]
           end
  end.

(** [arr.pop()] on the result of [split], which is never empty. *)
Definition pop (l : list string) : string := List.last l EmptyString.

(** [arr[0]] on the result of [split]. *)
Definition first (l : list string) : string := List.hd EmptyString l.

(** [s.toLowerCase()] on code units below 256: the ASCII capitals and
    the Latin-1 capitals U+00C0..U+00DE except the sign U+00D7. *)
Definition lower_char (c : ascii) : ascii :=
  let n := code c in
  if ((65 <=? n) && (n <=? 90)
      || (192 <=? n) && (n <=? 222) && negb (n =? 215))%N
  then ascii_of_N (n + 32) else c.

Fixpoint toLowerCase (s : string) : string :=
  match s with
  | EmptyString => EmptyString
  | String c s' => String (lower_char c) (toLowerCase s')
  end.

(** White space and line terminators below 256: TAB, LF, VT, FF, CR,
    SP and NBSP. *)
Definition is_space (c : ascii) : bool :=
  let n := code c in
  ((9 <=? n) && (n <=? 13) || (n =? 32) || (n =? 160))%N.

Fixpoint trimStart (s : string) : string :=
  match s with
  | EmptyString => EmptyString
  | String c s' => if is_space c then trimStart s' else s
  end.

(** Drops the trailing white space: a code unit is kept when it is not
    a space or something is kept after it. *)
Fixpoint trimEnd (s : string) : string :=
  match s with
  | EmptyString => EmptyString
  | String c s' =>
      match trimEnd s' with
      | EmptyString => if is_space c then EmptyString else String c EmptyString
      | t => String c t
      end
  end.

(** [s.trim()] *)
Definition trim (s : string) : string := trimEnd (trimStart s).

(** Every code unit of [s] satisfies [p]. *)
Fixpoint all_chars (p : ascii -> bool) (s : string) : bool :=
  match s with
  | EmptyString => true
  | String c s' => p c && all_chars p s'
  end.

(** [s.includes(c)] for a one-character [c]. *)
Fixpoint includes (c : ascii) (s : string) : bool :=
  match s with
  | EmptyString => false
  | String x s' => Ascii.eqb x c || includes c s'
  end.

End JsString.

(** ** [Date.prototype.toISOString] *)

Module JsDate.

Definition msPerDay : Z := 86400000.

(** Year, month (1..12) and day of month of a day number counted from
    1970-01-01, in the proleptic Gregorian calendar. *)
Definition civil_from_days (days : Z) : Z * Z * Z :=
  let z := days + 719468 in
  let era := z / 146097 in
  let doe := z - era * 146097 in
  let yoe := (doe - doe / 1460 + doe / 36524 - doe / 146096) / 365 in
  let doy := doe - (365 * yoe + yoe / 4 - yoe / 100) in
  let mp := (5 * doy + 2) / 153 in
  let d := doy - (153 * mp + 2) / 5 + 1 in
  let m := if mp <? 10 then mp + 3 else mp - 9 in
  let y := yoe + era * 400 + (if m <=? 2 then 1 else 0) in
  (y, m, d).

(** The calendar as ECMAScript words it: the day number of the first
    day of a year, leap years, the days of a year in front of a month,
    and the day number of a date. *)
Definition DayFromYear (y : Z) : Z :=
  365 * (y - 1970) + (y - 1969) / 4 - (y - 1901) / 100 + (y - 1601) / 400.

Definition InLeapYear (y : Z) : bool :=
  (y mod 4 =? 0) && (negb (y mod 100 =? 0) || (y mod 400 =? 0)).

Definition days_before_month (y m : Z) : Z :=
  let l := if InLeapYear y then 1 else 0 in
  match m with
  | 1 => 0 | 2 => 31 | 3 => 59 + l | 4 => 90 + l | 5 => 120 + l | 6 => 151 + l
  | 7 => 181 + l | 8 => 212 + l | 9 => 243 + l | 10 => 273 + l | 11 => 304 + l
  | _ => 334 + l
  end.

Definition month_length (y m : Z) : Z :=
  match m with
  | 2 => if InLeapYear y then 29 else 28
  | 4 | 6 | 9 | 11 => 30
  | _ => 31
  end.

Definition day_number (y m d : Z) : Z :=
  DayFromYear y + days_before_month y m + d - 1.

Definition digit (n : Z) : ascii :=
  match n mod 10 with
  | 0 => "0" | 1 => "1" | 2 => "2" | 3 => "3" | 4 => "4"
  | 5 => "5" | 6 => "6" | 7 => "7" | 8 => "8" | _ => "9"
  end%char.

(** The [k] low decimal digits of [n], zero padded. *)
Fixpoint digits (k : nat) (n : Z) : string :=
  match k with
  | O => EmptyString
  | S k' => digits k' (n / 10) ++ String (digit n) EmptyString
  end.

(** Four digits for the years 0..9999, a sign and six digits otherwise. *)
Definition year_string (y : Z) : string :=
  if (0 <=? y) && (y <=? 9999) then digits 4 y
  else (if y <? 0 then "-" else "+") ++ digits 6 (Z.abs y).

(** The part [YYYY-MM-DD] of the ISO string. *)
Definition date_string (t : Z) : string :=
  let '(y, m, d) := civil_from_days (t / msPerDay) in
  year_string y ++ "-" ++ digits 2 m ++ "-" ++ digits 2 d.

(** The part [HH:mm:ss.sssZ] of the ISO string. *)
Definition time_string (t : Z) : string :=
  let r := t mod msPerDay in
  digits 2 (r / 3600000) ++ ":" ++ digits 2 (r / 60000 mod 60) ++ ":"
  ++ digits 2 (r / 1000 mod 60) ++ "." ++ digits 3 (r mod 1000) ++ "Z".

Definition toISOString (t : Z) : string :=
  date_string t ++ "T" ++ time_string t.

End JsDate.

(** ** JavaScript values *)

(** The values a JSON request body or the parsed secret can hold.
    Numbers are the integral ones that print in plain decimal (below
    10^21 in magnitude); arrays are not modelled. *)
#[warnings="-register-all"]
Inductive JsVal : Type :=
| JUndefined
| JNull
| JBool (b : bool)
| JNum (n : Z)
| JStr (s : string)
| JObj (fields : list (string * JsVal)).

Inductive Exn : Type :=
| TypeError
| SyntaxError
| Error (message : string)
| ServiceError (name : string).

(** Result of an expression that can throw. *)
Inductive Res (A : Type) : Type :=
| Ok (a : A)
| Throw (e : Exn).
Arguments Ok {A} a.
Arguments Throw {A} e.

Module Js.

(** ToBoolean *)
Definition truthy (v : JsVal) : bool :=
  match v with
  | JUndefined | JNull => false
  | JBool b => b
  | JNum n => negb (n =? 0)
  | JStr s => negb (String.eqb s "")
  | JObj _ => true
  end.

(** [a || b] *)
Definition or (a b : JsVal) : JsVal := if truthy a then a else b.

(** ToString, as a template literal applies it to a value that it can
    print in plain decimal or by [Object.prototype.toString]: see
    [printable] below for the values this leaves out. *)
Definition to_string (v : JsVal) : string :=
  match v with
  | JUndefined => "undefined"
  | JNull => "null"
  | JBool true => "true"
  | JBool false => "false"
  | JNum n => NilZero.string_of_int (Z.to_int n)
  | JStr s => s
  | JObj _ => "[object Object]"
  end.

Fixpoint assoc (k : string) (fields : list (string * JsVal)) : JsVal :=
  match fields with
  | [] => JUndefined
  | (k', v) :: rest => if String.eqb k k' then v else assoc k rest
  end.

(** The object has a property [k] of its own. *)
Fixpoint has_own (k : string) (fields : list (string * JsVal)) : bool :=
  match fields with
  | [] => false
  | (k', _) :: rest => String.eqb k k' || has_own k rest
  end.

(** An object with a property [toString] of its own hides
    [Object.prototype.toString], and nothing a JSON text holds can be
    called: [v.toString()] and the conversion of [v] to a string both
    throw a TypeError on it. *)
Definition hides_toString (v : JsVal) : bool :=
  match v with
  | JObj fields => has_own "toString" fields
  | _ => false
  end.

(** The values a template literal prints as [to_string] has it: not an
    object that hides [toString] (the template throws), and not a number
    from 10^21 on (JavaScript writes it with an exponent). *)
Definition printable (v : JsVal) : bool :=
  negb (hides_toString v)
  && match v with
     | JNum n => Z.abs n <? 10 ^ 21
     | _ => true
     end.

(** [o.k] for one of the data property names the router reads: it
    throws on [undefined] and [null], and is [undefined] on a primitive
    and on an object without the field. *)
Definition get (o : JsVal) (k : string) : Res JsVal :=
  match o with
  | JUndefined | JNull => Throw TypeError
  | JObj fields => Ok (assoc k fields)
  | _ => Ok JUndefined
  end.

(** [v.split(sep)], [v.toLowerCase()]: a method of strings only; on
    any other value the call throws a TypeError. *)
Definition as_string (v : JsVal) : Res string :=
  match v with
  | JStr s => Ok s
  | _ => Throw TypeError
  end.

(** [v.toString()]: there is no such property on [undefined] and
    [null], and none that can be called on an object that hides it. *)
Definition toString (v : JsVal) : Res string :=
  match v with
  | JUndefined | JNull => Throw TypeError
  | _ => if hides_toString v then Throw TypeError else Ok (to_string v)
  end.

(** A destructuring default [{ k = d } = o]. *)
Definition default_to (d v : JsVal) : JsVal :=
  match v with
  | JUndefined => d
  | _ => v
  end.

End Js.

(** ** The world of a request *)

Record Session : Type := mkSession {
  adminAuthenticated : bool;
  adminUsername : JsVal;
  adminEmail : JsVal;
  loginTime : option Z;
  lastActivity : option Z
}.

(** The session [express-session] creates for a client without one. *)
Definition fresh_session : Session :=
  mkSession false JUndefined JUndefined None None.

Record S3Object : Type := mkObject {
  obj_body : string;
  obj_metadata : list (string * string)
}.

Record CopyObjectInput : Type := mkCopy {
  copy_Bucket : string;
  copy_CopySource : string;
  copy_Key : string;
  copy_Metadata : list (string * JsVal)
}.

Record PutObjectInput : Type := mkPut {
  put_Bucket : string;
  put_Key : string;
  put_Body : string;
  put_Metadata : list (string * JsVal)
}.

Record ListObjectsV2Input : Type := mkList {
  list_Bucket : string;
  list_Prefix : string;
  list_MaxKeys : Z
}.

Inductive S3Command : Type :=
| CopyObjectCommand (i : CopyObjectInput)
| PutObjectCommand (i : PutObjectInput)
| ListObjectsV2Command (i : ListObjectsV2Input).

Inductive LogEntry : Type :=
| ConsoleError (label : string) (e : Exn)
| ConsoleLog (text : string) (subject : JsVal) (at_time : Z).

Record HttpResponse : Type := mkResponse {
  status : Z;
  json : list (string * JsVal)
}.

(** What the secrets client answers to [GetSecretValueCommand]. *)
Record SecretValue : Type := mkSecret {
  SecretString : option string
}.

Record World : Type := mkWorld {
  clock : nat -> Z;            (* the successive readings of [new Date()] *)
  ticks : nat;                 (* how many readings were taken *)
  env : gmap string string;            (* [process.env] *)
  secrets : gmap string SecretValue;   (* the secret store, by secret id *)
  secrets_down : bool;         (* the secret store cannot be reached *)
  buckets : gmap string (gmap string S3Object);
  faults : nat -> bool;        (* the n-th object-store call is lost in transport *)
  s3_calls : list S3Command;   (* the calls sent so far, oldest first *)
  console : list LogEntry;     (* oldest first *)
  session : option Session     (* [req.session]; [None] without one and once destroyed *)
}.

Definition set_ticks (n : nat) (w : World) : World :=
  mkWorld (clock w) n (env w) (secrets w) (secrets_down w) (buckets w) (faults w)
          (s3_calls w) (console w) (session w).

Definition set_buckets (b : gmap string (gmap string S3Object)) (w : World) : World :=
  mkWorld (clock w) (ticks w) (env w) (secrets w) (secrets_down w) b (faults w)
          (s3_calls w) (console w) (session w).

Definition set_s3_calls (l : list S3Command) (w : World) : World :=
  mkWorld (clock w) (ticks w) (env w) (secrets w) (secrets_down w) (buckets w) (faults w)
          l (console w) (session w).

Definition set_console (l : list LogEntry) (w : World) : World :=
  mkWorld (clock w) (ticks w) (env w) (secrets w) (secrets_down w) (buckets w) (faults w)
          (s3_calls w) l (session w).

Definition set_session (s : option Session) (w : World) : World :=
  mkWorld (clock w) (ticks w) (env w) (secrets w) (secrets_down w) (buckets w) (faults w)
          (s3_calls w) (console w) s.

(** State and exceptions. *)
Definition M (A : Type) : Type := World -> Res A * World.

#[global] Instance M_ret : MRet M := fun A a w => (Ok a, w).

#[global] Instance M_bind : MBind M := fun A B f m w =>
  match m w with
  | (Ok a, w') => f a w'
  | (Throw e, w') => (Throw e, w')
  end.

Definition throw {A : Type} (e : Exn) : M A := fun w => (Throw e, w).

Definition lift {A : Type} (r : Res A) : M A := fun w => (r, w).

(** [try { body } catch (e) { handler }] *)
Definition try_catch {A : Type} (body : M A) (handler : Exn -> M A) : M A :=
  fun w =>
    match body w with
    | (Ok a, w') => (Ok a, w')
    | (Throw e, w') => handler e w'
    end.

(** [new Date()] *)
Definition new_Date : M Z :=
  fun w => (Ok (clock w (ticks w)), set_ticks (S (ticks w)) w).

Definition console_error (label : string) (e : Exn) : M unit :=
  fun w => (Ok tt, set_console (console w ++ [ConsoleError label e]) w).

Definition console_log (text : string) (subject : JsVal) (t : Z) : M unit :=
  fun w => (Ok tt, set_console (console w ++ [ConsoleLog text subject t]) w).

(** [process.env.NAME || fallback]: an unset or empty variable is falsy. *)
Definition env_value (e : gmap string string) (name fallback : string) : string :=
  match e !! name with
  | Some v => if String.eqb v "" then fallback else v
  | None => fallback
  end.

Definition env_or (name fallback : string) : M string :=
  fun w => (Ok (env_value (env w) name fallback), w).

(** Reading [req.session]. *)
Definition get_session : M Session :=
  fun w =>
    match session w with
    | Some s => (Ok s, w)
    | None => (Throw TypeError, w)
    end.

Definition put_session (s : Session) : M unit :=
  fun w => (Ok tt, set_session (Some s) w).

(** [req.session.destroy()] *)
Definition destroy_session : M unit :=
  fun w => (Ok tt, set_session None w).

(** ** The two external services *)

Module Secrets.

(** [secretsClient.send(new GetSecretValueCommand({ SecretId }))] *)
Definition send (SecretId : string) : M SecretValue :=
  fun w =>
    if secrets_down w then (Throw (ServiceError "NetworkingError"), w)
    else match secrets w !! SecretId with
         | Some v => (Ok v, w)
         | None => (Throw (ServiceError "ResourceNotFoundException"), w)
         end.

End Secrets.

Module S3.

Inductive Output : Type :=
| CopyObjectOutput
| PutObjectOutput
| ListObjectsV2Output (KeyCount : Z) (Contents : list string).

(** [CopySource] names the source as [bucket/key]: the bucket is what
    comes before the first slash. *)
Fixpoint parse_CopySource (src : string) : option (string * string) :=
  match src with
  | EmptyString => None
  | String c rest =>
      if Ascii.eqb c "/" then Some (EmptyString, rest)
      else match parse_CopySource rest with
           | Some (b, k) => Some (String c b, k)
           | None => None
           end
  end.

Definition get_object (b : gmap string (gmap string S3Object))
    (bucket key : string) : option S3Object :=
  match b !! bucket with
  | Some objects => objects !! key
  | None => None
  end.

Definition metadata_strings (m : list (string * JsVal)) : list (string * string) :=
  List.map (fun kv => (fst kv, Js.to_string (snd kv))) m.

(** A listing enumerates the keys in the binary order of their UTF-8
    bytes, which for code units below 256 is the lexicographic order of
    the code units. *)
Fixpoint insert_key (k : string) (l : list string) : list string :=
  match l with
  | [] => [k]
  | k' :: rest =>
      if String.leb k k' then k :: l else k' :: insert_key k rest
  end.

Definition sort_keys (l : list string) : list string :=
  List.fold_right insert_key [] l.

(** The service itself.  A copy without a metadata directive keeps the
    metadata of the source object, and a copy of an object onto itself
    is refused then.  A listing gives the keys under the prefix in
    their order, at most [MaxKeys] of them from the first on. *)
Definition exec (c : S3Command) (b : gmap string (gmap string S3Object))
    : Res Output * gmap string (gmap string S3Object) :=
  match c with
  | CopyObjectCommand i =>
      match parse_CopySource (copy_CopySource i) with
      | None => (Throw (ServiceError "InvalidArgument"), b)
      | Some (src_bucket, src_key) =>
          match b !! copy_Bucket i with
          | None => (Throw (ServiceError "NoSuchBucket"), b)
          | Some dest =>
              match get_object b src_bucket src_key with
              | None => (Throw (ServiceError "NoSuchKey"), b)
              | Some o =>
                  if String.eqb src_bucket (copy_Bucket i)
                     && String.eqb src_key (copy_Key i)
                  then (Throw (ServiceError "InvalidRequest"), b)
                  else (Ok CopyObjectOutput,
                        <[copy_Bucket i := <[copy_Key i := o]> dest]> b)
              end
          end
      end
  | PutObjectCommand i =>
      match b !! put_Bucket i with
      | None => (Throw (ServiceError "NoSuchBucket"), b)
      | Some dest =>
          (Ok PutObjectOutput,
           <[put_Bucket i :=
               <[put_Key i := mkObject (put_Body i)
                                (metadata_strings (put_Metadata i))]> dest]> b)
      end
  | ListObjectsV2Command i =>
      match b !! list_Bucket i with
      | None => (Throw (ServiceError "NoSuchBucket"), b)
      | Some objects =>
          let keys :=
            List.filter (String.prefix (list_Prefix i))
                        (sort_keys (List.map fst (map_to_list objects))) in
          let page := List.firstn (Z.to_nat (list_MaxKeys i)) keys in
          (Ok (ListObjectsV2Output (Z.of_nat (List.length page)) page), b)
      end
  end.

(** [s3Client.send(command)]: the call is recorded; it is lost when
    the transport fails, and reaches the service otherwise. *)
Definition send (c : S3Command) : M Output :=
  fun w =>
    let w1 := set_s3_calls (s3_calls w ++ [c]) w in
    if faults w (List.length (s3_calls w))
    then (Throw (ServiceError "NetworkingError"), w1)
    else let '(r, b') := exec c (buckets w) in (r, set_buckets b' w1).

End S3.

(** ** The router *)

(** A middleware either answers or calls [next()]. *)
Inductive Flow : Type :=
| Next
| Respond (r : HttpResponse).

(** [res.status(code).json(body)] *)
Definition respond (code : Z) (body : list (string * JsVal)) : HttpResponse :=
  mkResponse code body.

Definition S3_BUCKETS_media : string := "renthabit-media".
Definition S3_BUCKETS_web : string := "renthabit-web-prod".

Definition S3_BUCKETS : JsVal :=
  JObj [("media", JStr S3_BUCKETS_media); ("web", JStr S3_BUCKETS_web)].

(** What [express-session] keeps for a client under [sessionConfig],
    in its default store.  A record holds the session and the expiry of
    its cookie.  Every request that ends with a session touches the
    record: the expiry becomes the time of the touch plus
    [cookie.maxAge].  A record whose expiry has come is dropped when the
    client's next request asks for it. *)
Module SessionStore.

(** [cookie.maxAge] of [sessionConfig]: [2 * 60 * 60 * 1000] *)
Definition maxAge : Z := 2 * 60 * 60 * 1000.

Record Entry : Type := mkEntry {
  data : Session;
  expires : Z
}.

(** The record a request leaves that ends at the time [now]. *)
Definition touch (now : Z) (s : Session) : Entry :=
  mkEntry s (now + maxAge).

(** What the store hands over at the time [now]: [expires <= Date.now()]
    drops the record. *)
Definition get (now : Z) (e : option Entry) : option Session :=
  match e with
  | Some entry => if expires entry <=? now then None else Some (data entry)
  | None => None
  end.

End SessionStore.

(** The world of a request that reaches the router at the time [now]
    with the cookie of the record [e]: [session] is what the store hands
    over for it. *)
Definition arrives (now : Z) (e : option SessionStore.Entry) (w : World) : World :=
  set_session (SessionStore.get now e) w.

(** [router.use(session(sessionConfig))]: [req.session] is the session
    the store hands over for the client, or a new empty one.  At the
    start of a request [session w] is what the store hands over: the
    record of the client as long as the store holds it (see
    [SessionStore] and [arrives]). *)
Definition session_middleware : M Flow :=
  fun w =>
    (Ok Next,
     set_session (Some (match session w with
                        | Some s => s
                        | None => fresh_session
                        end)) w).

(** [2 * 60 * 60 * 1000] *)
Definition sessionTimeout : Z := 2 * 60 * 60 * 1000.

(** [now - lastActivity > sessionTimeout], where [lastActivity] is
    [new Date(v)]: an invalid date for [undefined], the difference is
    NaN then and no comparison with NaN holds. *)
Definition idle_too_long (now : Z) (v : option Z) : bool :=
  match v with
  | Some t => sessionTimeout <? now - t
  | None => false
  end.

(** [a || b] on two session dates. *)
Definition date_or (a b : option Z) : option Z :=
  match a with
  | Some t => Some t
  | None => b
  end.

Definition with_lastActivity (t : Z) (s : Session) : Session :=
  mkSession (adminAuthenticated s) (adminUsername s) (adminEmail s)
            (loginTime s) (Some t).

Definition requireAuth : M Flow :=
  s ← get_session;
  if negb (adminAuthenticated s) then
    mret (Respond (respond 401 [("error", JStr "Authentication required");
                                ("redirectTo", JStr "/admin/login")]))
  else
    now ← new_Date;
    if idle_too_long now (date_or (lastActivity s) (loginTime s)) then
      destroy_session;;
      mret (Respond (respond 401 [("error", JStr "Session expired");
                                  ("redirectTo", JStr "/admin/login")]))
    else
      put_session (with_lastActivity now s);;
      mret Next.

(** [router.use('/api/admin/*', ...)], registered after the three
    [auth] routes and before the others. *)
Definition admin_prefilter : M Flow :=
  s ← get_session;
  if adminAuthenticated s then
    now ← new_Date;
    if idle_too_long now (lastActivity s) then
      destroy_session;;
      mret (Respond (respond 401 [("error", JStr "Session expired");
                                  ("redirectTo", JStr "/admin/login")]))
    else mret Next
  else mret Next.

(** Middlewares in order, then the handler. *)
Fixpoint chain (ms : list (M Flow)) (handler : M HttpResponse) : M HttpResponse :=
  match ms with
  | [] => handler
  | m :: rest =>
      f ← m;
      match f with
      | Next => chain rest handler
      | Respond r => mret r
      end
  end.

(** The object [paths] of [generateS3Key]. *)
Definition paths (timestamp cleanFileName : string) (userId propertyId : JsVal)
    : list (string * string) :=
  [("pending",
    "pending-uploads/" ++ Js.to_string userId ++ "/property-"
    ++ Js.to_string propertyId ++ "/images/" ++ cleanFileName);
   ("approved_original",
    "approved-content/" ++ Js.to_string userId ++ "/property-"
    ++ Js.to_string propertyId ++ "/original/" ++ cleanFileName);
   ("approved_edited",
    "approved-content/" ++ Js.to_string userId ++ "/property-"
    ++ Js.to_string propertyId ++ "/edited/"
    ++ JsString.replace_first "." "_enhanced." cleanFileName);
   ("featured",
    "featured-showcase/curated-properties/" ++ timestamp ++ "_"
    ++ cleanFileName)]%string.

Fixpoint path_of (stage : string) (l : list (string * string)) : option string :=
  match l with
  | [] => None
  | (k, v) :: rest => if String.eqb stage k then Some v else path_of stage rest
  end.

(** [paths[stage] || paths.pending], for a stage that is no name
    inherited from [Object.prototype] (see [inherited_name]) and
    identifiers that the templates print (see [Js.printable]; on an
    identifier that hides [toString] the templates throw). *)
Definition generateS3Key (stage : string) (userId propertyId : JsVal)
    (fileName : string) : M string :=
  now ← new_Date;
  let timestamp := JsString.first (JsString.split "T" (JsDate.toISOString now)) in
  let cleanFileName := JsString.replace_outside_class fileName in
  let paths := paths timestamp cleanFileName userId propertyId in
  let pending := default EmptyString (path_of "pending" paths) in
  mret match path_of stage paths with
       | Some p => if String.eqb p "" then pending else p
       | None => pending
       end.

Section Router.

(** The two library functions the router calls on data: [JSON.parse],
    which throws a SyntaxError on what is no JSON text, and the hash
    verification of [bcrypt.compare] on two strings. *)
Variable JSON_parse : string -> Res JsVal.
Variable bcrypt_verify : string -> string -> bool.

(** [bcrypt.compare(data, hash)]: rejects unless both are strings. *)
Definition bcrypt_compare (data hash : JsVal) : Res bool :=
  match data, hash with
  | JStr d, JStr h => Ok (bcrypt_verify d h)
  | (JUndefined | JNull), _ | _, (JUndefined | JNull) =>
      Throw (Error "data and hash arguments required")
  | _, _ => Throw (Error "data and hash must be strings")
  end.

Definition getAdminCredentials : M JsVal :=
  try_catch
    (SecretId ← env_or "ADMIN_SECRET_ID" "prod/RentHabit/AdminAuth";
     response ← Secrets.send SecretId;
     lift match SecretString response with
          | Some text => JSON_parse text
          | None => Throw SyntaxError
          end)
    (fun error =>
       console_error "Failed to retrieve admin credentials:" error;;
       username ← env_or "ADMIN_USERNAME" "admin";
       passwordHash ← env_or "ADMIN_PASSWORD_HASH"
         "$2b$12$LQv3c1yqBWVHxkd0LHAkCOYz6TtxMQJqhN8/LewdhquMgGFbOvS0a";
       email ← env_or "ADMIN_EMAIL" "admin@renthabit.com";
       mret (JObj [("username", JStr username);
                   ("passwordHash", JStr passwordHash);
                   ("email", JStr email)])).

(** [v.toLowerCase().trim()] *)
Definition lower_trim (v : JsVal) : Res string :=
  match Js.as_string v with
  | Ok s => Ok (JsString.trim (JsString.toLowerCase s))
  | Throw e => Throw e
  end.

(** [POST /api/admin/auth/login], behind [authLimiter]. *)
Definition login (body : list (string * JsVal)) : M HttpResponse :=
  try_catch
    (let username := Js.assoc "username" body in
     let password := Js.assoc "password" body in
     if negb (Js.truthy username) || negb (Js.truthy password) then
       mret (respond 400 [("error", JStr "Username and password required")])
     else
       adminCreds ← getAdminCredentials;
       given ← lift (lower_trim username);
       credsUsername ← lift (Js.get adminCreds "username");
       expected ← lift (lower_trim credsUsername);
       let validUsername := String.eqb given expected in
       passwordHash ← lift (Js.get adminCreds "passwordHash");
       validPassword ← lift (bcrypt_compare password passwordHash);
       if validUsername && validPassword then
         s ← get_session;
         credsEmail ← lift (Js.get adminCreds "email");
         t1 ← new_Date;
         t2 ← new_Date;
         put_session (mkSession true credsUsername credsEmail (Some t1) (Some t2));;
         t3 ← new_Date;
         console_log "Admin login successful: " credsUsername t3;;
         mret (respond 200 [("success", JBool true);
                            ("message", JStr "Authentication successful");
                            ("redirectTo", JStr "/admin/dashboard")])
       else
         t ← new_Date;
         console_log "Admin login failed: " username t;;
         mret (respond 401 [("error", JStr "Invalid credentials")]))
    (fun error =>
       console_error "Authentication error:" error;;
       mret (respond 500 [("error", JStr "Authentication service unavailable")])).

(** What [res.json] sends for a session date. *)
Definition date_json (d : option Z) : JsVal :=
  match d with
  | Some t => JStr (JsDate.toISOString t)
  | None => JUndefined
  end.

(** [GET /api/admin/auth/status] *)
Definition auth_status : M HttpResponse :=
  s ← get_session;
  if adminAuthenticated s then
    mret (respond 200 [("authenticated", JBool true);
                       ("username", adminUsername s);
                       ("email", adminEmail s);
                       ("loginTime", date_json (loginTime s));
                       ("lastActivity", date_json (lastActivity s))])
  else mret (respond 200 [("authenticated", JBool false)]).

(** [POST /api/admin/content/:contentId/approve] *)
Definition approve (contentId : string) (body : list (string * JsVal))
    : M HttpResponse :=
  try_catch
    (let adminNotes := Js.assoc "adminNotes" body in
     let s3Key := Js.assoc "s3Key" body in
     let userId := Js.assoc "userId" body in
     let propertyId := Js.assoc "propertyId" body in
     if negb (Js.truthy s3Key) then
       mret (respond 400 [("error", JStr "S3 key required")])
     else
       key ← lift (Js.as_string s3Key);
       let fileName := JsString.pop (JsString.split "/" key) in
       originalKey ← generateS3Key "approved_original" userId propertyId fileName;
       approvedDate ← new_Date;
       s ← get_session;
       S3.send (CopyObjectCommand
         (mkCopy S3_BUCKETS_media
                 (S3_BUCKETS_media ++ "/" ++ key)%string
                 originalKey
                 [("status", JStr "approved");
                  ("approvedDate", JStr (JsDate.toISOString approvedDate));
                  ("adminNotes", Js.or adminNotes (JStr ""));
                  ("approvedBy", adminUsername s)]));;
       mret (respond 200 [("success", JBool true);
                          ("message", JStr "Content approved successfully");
                          ("originalKey", JStr originalKey);
                          ("approvedBy", adminUsername s);
                          ("s3Bucket", JStr S3_BUCKETS_media)]))
    (fun error =>
       console_error "Content approval error:" error;;
       mret (respond 500 [("error", JStr "Failed to approve content")])).

(** [POST /api/admin/content/:contentId/feature] *)
Definition feature (contentId : string) (body : list (string * JsVal))
    : M HttpResponse :=
  try_catch
    (let s3Key := Js.assoc "s3Key" body in
     let userId := Js.assoc "userId" body in
     let propertyId := Js.assoc "propertyId" body in
     let priority := Js.default_to (JNum 1) (Js.assoc "priority" body) in
     let position := Js.default_to (JStr "gallery") (Js.assoc "position" body) in
     if negb (Js.truthy s3Key) then
       mret (respond 400 [("error", JStr "S3 key required")])
     else
       key ← lift (Js.as_string s3Key);
       let fileName := JsString.pop (JsString.split "/" key) in
       featuredKey ← generateS3Key "featured" userId propertyId fileName;
       featuredDate ← new_Date;
       priorityText ← lift (Js.toString priority);
       s ← get_session;
       S3.send (CopyObjectCommand
         (mkCopy S3_BUCKETS_media
                 (S3_BUCKETS_media ++ "/" ++ key)%string
                 featuredKey
                 [("status", JStr "featured");
                  ("featuredDate", JStr (JsDate.toISOString featuredDate));
                  ("position", position);
                  ("priority", JStr priorityText);
                  ("featuredBy", adminUsername s)]));;
       let publicKey :=
         ("assets/properties/" ++ Js.to_string propertyId ++ "/" ++ fileName)%string in
       publicDate ← new_Date;
       S3.send (CopyObjectCommand
         (mkCopy S3_BUCKETS_web
                 (S3_BUCKETS_media ++ "/" ++ key)%string
                 publicKey
                 [("source", JStr "featured");
                  ("featuredDate", JStr (JsDate.toISOString publicDate))]));;
       s' ← get_session;
       mret (respond 200 [("success", JBool true);
                          ("message", JStr "Content featured successfully");
                          ("featuredKey", JStr featuredKey);
                          ("publicKey", JStr publicKey);
                          ("featuredBy", adminUsername s');
                          ("buckets", S3_BUCKETS)]))
    (fun error =>
       console_error "Content featuring error:" error;;
       mret (respond 500 [("error", JStr "Failed to feature content")])).

(** [POST /api/admin/content/:contentId/reject] *)
Definition reject (contentId : string) (body : list (string * JsVal))
    : M HttpResponse :=
  try_catch
    (let rejectionReason := Js.assoc "rejectionReason" body in
     s ← get_session;
     rejectedAt ← new_Date;
     mret (respond 200 [("success", JBool true);
                        ("message", JStr "Content rejected");
                        ("contentId", JStr contentId);
                        ("rejectedBy", adminUsername s);
                        ("rejectedAt", JStr (JsDate.toISOString rejectedAt));
                        ("reason", rejectionReason)]))
    (fun error =>
       console_error "Content rejection error:" error;;
       mret (respond 500 [("error", JStr "Failed to reject content")])).

(** The routes as the router stacks them.  [authLimiter], which stands
    in front of the login handler and answers 429 itself from the sixth
    request of a client within 15 minutes (outside development), is not
    part of [login_route]. *)
Definition login_route (body : list (string * JsVal)) : M HttpResponse :=
  chain [session_middleware] (login body).

Definition status_route : M HttpResponse :=
  chain [session_middleware] auth_status.

Definition admin_route (handler : M HttpResponse) : M HttpResponse :=
  chain [session_middleware; admin_prefilter; requireAuth] handler.

Definition approve_route (contentId : string) (body : list (string * JsVal)) :=
  admin_route (approve contentId body).

Definition feature_route (contentId : string) (body : list (string * JsVal)) :=
  admin_route (feature contentId body).

Definition reject_route (contentId : string) (body : list (string * JsVal)) :=
  admin_route (reject contentId body).

End Router.

(** ** Runs of the gate *)

(** The world [skip] clock readings later: what other code of the
    process reads in between. *)
Definition later (skip : nat) (w : World) : World :=
  set_ticks (ticks w + skip) w.

(** The values [lastActivity] takes along a sequence of requests that
    the gate allows, one request after each delay of [skips]; the
    sequence ends at the first request the gate refuses. *)
Fixpoint gate_history (skips : list nat) (w : World) : list Z :=
  match skips with
  | [] => []
  | skip :: rest =>
      match requireAuth (later skip w) with
      | (Ok Next, w') =>
          match session w' with
          | Some s' =>
              match lastActivity s' with
              | Some t => t :: gate_history rest w'
              | None => []
              end
          | None => []
          end
      | _ => []
      end
  end.

(** The clock readings at which the requests of such a sequence reach
    the gate, the first one [skip] readings after the [n]-th. *)
Fixpoint gate_times (clock : nat -> Z) (n : nat) (skips : list nat) : list Z :=
  match skips with
  | [] => []
  | skip :: rest => clock (n + skip)%nat :: gate_times clock (S (n + skip)) rest
  end.

(** Non-decreasing lists of times. *)
Fixpoint nondecreasing (l : list Z) : bool :=
  match l with
  | a :: (b :: _) as rest => (a <=? b) && nondecreasing rest
  | _ => true
  end.

(** ** The stages of the key derivation *)

Inductive Stage : Type :=
| pending
| approved_original
| approved_edited
| featured.

(** The string [generateS3Key] gets for a stage. *)
Definition stage_name (st : Stage) : string :=
  match st with
  | pending => "pending"
  | approved_original => "approved_original"
  | approved_edited => "approved_edited"
  | featured => "featured"
  end.

(** The part of the key in front of the file name, for a key derived at
    the time [now]. *)
Definition key_prefix (st : Stage) (userId propertyId : JsVal) (now : Z) : string :=
  match st with
  | pending =>
      "pending-uploads/" ++ Js.to_string userId ++ "/property-"
      ++ Js.to_string propertyId ++ "/images/"
  | approved_original =>
      "approved-content/" ++ Js.to_string userId ++ "/property-"
      ++ Js.to_string propertyId ++ "/original/"
  | approved_edited =>
      "approved-content/" ++ Js.to_string userId ++ "/property-"
      ++ Js.to_string propertyId ++ "/edited/"
  | featured =>
      "featured-showcase/curated-properties/" ++ JsDate.date_string now ++ "_"
  end%string.

(** The file name as the key of a stage embeds it. *)
Definition embedded_name (st : Stage) (fileName : string) : string :=
  match st with
  | approved_edited =>
      JsString.replace_first "." "_enhanced."
        (JsString.replace_outside_class fileName)
  | _ => JsString.replace_outside_class fileName
  end.

(** The class [[A-Za-z0-9._-]]. *)
Definition in_key_class (c : ascii) : bool :=
  JsString.in_class c || Ascii.eqb c "_".

(** A decimal digit. *)
Definition is_digit (c : ascii) : bool := JsString.in_range "0" "9" c.

(** ** Passing the gate of the admin routes *)

(** Both checks in front of an admin handler let the request of the
    stored session through: the filter on [/api/admin/*] at the first
    clock reading and [requireAuth] at the second. *)
Definition gate_passes (w : World) : bool :=
  match session w with
  | Some s =>
      adminAuthenticated s
      && negb (idle_too_long (clock w (ticks w)) (lastActivity s))
      && negb (idle_too_long (clock w (S (ticks w)))
                 (date_or (lastActivity s) (loginTime s)))
  | None => false
  end.

(** The world in which the handler then starts. *)
Definition after_gate (w : World) : World :=
  match session w with
  | Some s =>
      set_session (Some (with_lastActivity (clock w (S (ticks w))) s))
                  (set_ticks (S (S (ticks w))) w)
  | None => w
  end.

(** ** The fallback credentials *)

(** The record the [catch] block of [getAdminCredentials] builds from
    the environment [e]. *)
Definition fallback_credentials (e : gmap string string) : JsVal :=
  JObj [("username", JStr (env_value e "ADMIN_USERNAME" "admin"));
        ("passwordHash",
         JStr (env_value e "ADMIN_PASSWORD_HASH"
                 "$2b$12$LQv3c1yqBWVHxkd0LHAkCOYz6TtxMQJqhN8/LewdhquMgGFbOvS0a"));
        ("email", JStr (env_value e "ADMIN_EMAIL" "admin@renthabit.com"))].

(** The world after [console.error(label, e)]. *)
Definition logged_error (label : string) (e : Exn) (w : World) : World :=
  set_console (console w ++ [ConsoleError label e]) w.

(** A code unit of the date part of an ISO string. *)
Definition is_date_char (c : ascii) : bool :=
  is_digit c || Ascii.eqb c "-" || Ascii.eqb c "+".

(** The shape [YYYY-MM-DD]. *)
Definition is_iso_date (s : string) : bool :=
  match s with
  | String y1 (String y2 (String y3 (String y4 (String h1
      (String m1 (String m2 (String h2 (String d1 (String d2 EmptyString))))))))) =>
      is_digit y1 && is_digit y2 && is_digit y3 && is_digit y4
      && Ascii.eqb h1 "-" && is_digit m1 && is_digit m2
      && Ascii.eqb h2 "-" && is_digit d1 && is_digit d2
  | _ => false
  end.

(** ** Sample data *)

Module Sample.

(** One second between two readings, from 2026-11-02T00:00:00Z on. *)
Definition clock (i : nat) : Z := 1793577600000 + 1000 * Z.of_nat i.

(** Logged in ten minutes before the first reading. *)
Definition admin : Session :=
  mkSession true (JStr "admin") (JStr "admin@renthabit.com")
            (Some 1793577000000) (Some 1793577000000).

(** The same login, without any recorded activity. *)
Definition admin_no_activity : Session :=
  mkSession true (JStr "admin") (JStr "admin@renthabit.com")
            (Some 1793577000000) None.

Definition photo : S3Object :=
  mkObject "JFIF" [("uploadedby", "u1")].

Definition photo_key : string :=
  "pending-uploads/u1/property-42/images/photo.jpg".

Definition store : gmap string (gmap string S3Object) :=
  {[ S3_BUCKETS_media := {[ photo_key := photo ]};
     S3_BUCKETS_web := ∅ ]}.

Definition world (s : option Session) : World :=
  mkWorld clock 0 ∅ ∅ false store (fun _ => false) [] [] s.

(** The second call to the object store is lost in transport. *)
Definition world_second_call_lost (s : option Session) : World :=
  mkWorld clock 0 ∅ ∅ false store (fun n => Nat.eqb n 1) [] [] s.

(** The secret store cannot be reached. *)
Definition world_offline (s : option Session) : World :=
  mkWorld clock 0 ∅ ∅ true store (fun _ => false) [] [] s.

(** Stand-ins for the two library functions: no text parses, and a hash
    is the password behind a marker. *)
Definition no_json (text : string) : Res JsVal := Throw SyntaxError.

Definition toy_verify (data hash : string) : bool :=
  String.eqb hash ("hash:" ++ data).

End Sample.

(** ** The other routes of the router *)

(** A body that holds an array next to plain values: [content] of the
    listing and [folders] of the bucket set-up. *)
Inductive JsonField : Type :=
| Scalar (v : JsVal)
| Array (items : list JsVal).

Record ArrayResponse : Type := mkArrayResponse {
  array_status : Z;
  array_json : list (string * JsonField)
}.

(** An answer of a middleware, as a body without arrays. *)
Definition plain (r : HttpResponse) : ArrayResponse :=
  mkArrayResponse (status r) (List.map (fun kv => (fst kv, Scalar (snd kv))) (json r)).

(** Middlewares in order, then a handler that answers with an array. *)
Fixpoint chain_array (ms : list (M Flow)) (handler : M ArrayResponse)
    : M ArrayResponse :=
  match ms with
  | [] => handler
  | m :: rest =>
      f ← m;
      match f with
      | Next => chain_array rest handler
      | Respond r => mret (plain r)
      end
  end.

(** [v === 'text'] *)
Definition is_text (v : JsVal) (text : string) : bool :=
  match v with
  | JStr s => String.eqb s text
  | _ => false
  end.

(** [list.KeyCount || 0] *)
Definition KeyCount_or_0 (o : S3.Output) : JsVal :=
  match o with
  | S3.ListObjectsV2Output n _ => Js.or (JNum n) (JNum 0)
  | _ => JNum 0
  end.

(** [response.Contents || []]; an entry of [Contents] is shown by its
    key, the one attribute the stored objects of the model have a
    counterpart for. *)
Definition Contents_or_empty (o : S3.Output) : list JsVal :=
  match o with
  | S3.ListObjectsV2Output _ keys => List.map (fun k => JObj [("Key", JStr k)]) keys
  | _ => []
  end.

(** [POST /api/admin/auth/logout].  [err] is what the session store
    hands to the callback of [destroy]: when the store fails, the stored
    session stays. *)
Definition logout (err : option Exn) : M HttpResponse :=
  s ← get_session;
  let username := adminUsername s in
  match err with
  | Some e =>
      console_error "Logout error:" e;;
      mret (respond 500 [("error", JStr "Logout failed")])
  | None =>
      destroy_session;;
      t ← new_Date;
      console_log "Admin logout: " username t;;
      mret (respond 200 [("success", JBool true);
                         ("message", JStr "Logged out successfully")])
  end.

(** [GET /api/admin/dashboard] *)
Definition dashboard : M HttpResponse :=
  try_catch
    (pendingList ← S3.send (ListObjectsV2Command
                              (mkList S3_BUCKETS_media "pending-uploads/" 1000));
     approvedList ← S3.send (ListObjectsV2Command
                               (mkList S3_BUCKETS_media "approved-content/" 1000));
     featuredList ← S3.send (ListObjectsV2Command
                               (mkList S3_BUCKETS_media "featured-showcase/" 1000));
     s ← get_session;
     mret (respond 200
             [("message", JStr "Admin dashboard data");
              ("user", JObj [("username", adminUsername s);
                             ("email", adminEmail s)]);
              ("stats", JObj [("pendingUploads", KeyCount_or_0 pendingList);
                              ("approvedContent", KeyCount_or_0 approvedList);
                              ("featuredContent", KeyCount_or_0 featuredList);
                              ("s3Buckets", S3_BUCKETS)])]))
    (fun error =>
       console_error "Dashboard error:" error;;
       mret (respond 500 [("error", JStr "Failed to load dashboard")])).

(** The [prefix] of [GET /api/admin/content] after its two [if]s. *)
Definition content_prefix (status userId : JsVal) : string :=
  let prefix :=
    if is_text status "pending" then "pending-uploads/"
    else if is_text status "approved" then "approved-content/"
    else if is_text status "featured" then "featured-showcase/"
    else "" in
  if Js.truthy userId && negb (String.eqb prefix "")
  then (prefix ++ Js.to_string userId ++ "/")%string
  else prefix.

(** [GET /api/admin/content] *)
Definition content (query : list (string * JsVal)) : M ArrayResponse :=
  try_catch
    (let status := Js.default_to (JStr "all") (Js.assoc "status" query) in
     let userId := Js.default_to (JStr "") (Js.assoc "userId" query) in
     let contentType := Js.default_to (JStr "all") (Js.assoc "contentType" query) in
     let prefix := content_prefix status userId in
     response ← S3.send (ListObjectsV2Command (mkList S3_BUCKETS_media prefix 100));
     mret (mkArrayResponse 200
             [("content", Array (Contents_or_empty response));
              ("count", Scalar (KeyCount_or_0 response));
              ("bucket", Scalar (JStr S3_BUCKETS_media));
              ("filters", Scalar (JObj [("status", status); ("userId", userId);
                                        ("contentType", contentType)]))]))
    (fun error =>
       console_error "Content fetch error:" error;;
       mret (plain (respond 500 [("error", JStr "Failed to fetch content")]))).

(** [GET /api/admin/health]; [uptime] is what [process.uptime()] gives. *)
Definition health (uptime : JsVal) : M HttpResponse :=
  t ← new_Date;
  mret (respond 200 [("status", JStr "healthy");
                     ("timestamp", JStr (JsDate.toISOString t));
                     ("uptime", uptime);
                     ("s3Buckets", S3_BUCKETS);
                     ("auth", JStr "operational")]).

(** The [folders] of [POST /api/admin/init-s3]. *)
Definition folders : list string :=
  ["pending-uploads/"; "approved-content/"; "featured-showcase/";
   "thumbnails/"; "processed/"].

(** The body of the [for] loop: one marker object, and a console line
    (written with [console.log], kept here with the error it reports)
    when writing it fails. *)
Definition setup_folder (folder : string) : M unit :=
  try_catch
    (s ← get_session;
     createdAt ← new_Date;
     S3.send (PutObjectCommand
                (mkPut S3_BUCKETS_media (folder ++ ".keep")%string ""
                   [("purpose", JStr "folder-structure");
                    ("createdBy", adminUsername s);
                    ("createdAt", JStr (JsDate.toISOString createdAt))]));;
     mret tt)
    (fun err => console_error ("Folder " ++ folder ++ " setup:")%string err).

(** [for (const folder of folders) { ... }] *)
Fixpoint setup_folders (l : list string) : M unit :=
  match l with
  | [] => mret tt
  | folder :: rest => setup_folder folder;; setup_folders rest
  end.

(** [POST /api/admin/init-s3] *)
Definition init_s3 : M ArrayResponse :=
  try_catch
    (setup_folders folders;;
     mret (mkArrayResponse 200
             [("success", Scalar (JBool true));
              ("message", Scalar (JStr "S3 bucket structure initialized"));
              ("bucket", Scalar (JStr S3_BUCKETS_media));
              ("folders", Array (List.map JStr folders))]))
    (fun error =>
       console_error "S3 initialization error:" error;;
       mret (plain (respond 500 [("error", JStr "Failed to initialize S3 structure")]))).

(** These routes as the router stacks them: logout is registered in
    front of the filter on [/api/admin/*], health behind it and without
    [requireAuth], the others behind both. *)
Definition logout_route (err : option Exn) : M HttpResponse :=
  chain [session_middleware] (logout err).

Definition health_route (uptime : JsVal) : M HttpResponse :=
  chain [session_middleware; admin_prefilter] (health uptime).

Definition dashboard_route : M HttpResponse :=
  chain [session_middleware; admin_prefilter; requireAuth] dashboard.

Definition content_route (query : list (string * JsVal)) : M ArrayResponse :=
  chain_array [session_middleware; admin_prefilter; requireAuth] (content query).

Definition init_s3_route : M ArrayResponse :=
  chain_array [session_middleware; admin_prefilter; requireAuth] init_s3.

(** ** What the statements about these routes speak of *)

(** The keys of a bucket under a prefix, as a listing enumerates them. *)
Definition keys_under (b : gmap string (gmap string S3Object))
    (bucket prefix : string) : list string :=
  match b !! bucket with
  | Some objects =>
      List.filter (String.prefix prefix)
                  (S3.sort_keys (List.map fst (map_to_list objects)))
  | None => []
  end.

(** Bucket and key a call writes to; a listing writes to none. *)
Definition written_key (c : S3Command) : option (string * string) :=
  match c with
  | CopyObjectCommand i => Some (copy_Bucket i, copy_Key i)
  | PutObjectCommand i => Some (put_Bucket i, put_Key i)
  | ListObjectsV2Command _ => None
  end.

(** The marker keys of the bucket set-up. *)
Definition marker_keys : list string :=
  List.map (fun folder => (folder ++ ".keep")%string) folders.

(** The stage names [generateS3Key] has a template for. *)
Definition known_stage (stage : string) : bool :=
  String.eqb stage "pending" || String.eqb stage "approved_original"
  || String.eqb stage "approved_edited" || String.eqb stage "featured".

(** The property names every object literal inherits from
    [Object.prototype]: for one of them [paths[stage]] is the inherited
    function or object, which is truthy and no key. *)
Definition Object_prototype_names : list string :=
  ["constructor"; "__defineGetter__"; "__defineSetter__"; "hasOwnProperty";
   "__lookupGetter__"; "__lookupSetter__"; "isPrototypeOf";
   "propertyIsEnumerable"; "toString"; "valueOf"; "__proto__";
   "toLocaleString"].

Definition inherited_name (stage : string) : bool :=
  List.existsb (String.eqb stage) Object_prototype_names.

(** Strictly increasing lists of keys, in the order of a listing. *)
Fixpoint increasing (l : list string) : bool :=
  match l with
  | a :: (b :: _) as rest => String.ltb a b && increasing rest
  | _ => true
  end.

(** More sample data. *)
Module Scenario.

(** Two pending uploads, an approved copy and a note outside the
    lifecycle folders. *)
Definition media : gmap string S3Object :=
  {[ "pending-uploads/u1/property-42/images/photo.jpg" := Sample.photo;
     "pending-uploads/u2/property-7/images/door.png" := mkObject "PNG" [];
     "approved-content/u1/property-42/original/photo.jpg" := Sample.photo;
     "notes.txt" := mkObject "hello" [] ]}.

Definition store : gmap string (gmap string S3Object) :=
  {[ S3_BUCKETS_media := media; S3_BUCKETS_web := ∅ ]}.

Definition world (s : option Session) : World :=
  mkWorld Sample.clock 0 ∅ ∅ false store (fun _ => false) [] [] s.

(** Every call to the object store is lost in transport. *)
Definition world_cut_off (s : option Session) : World :=
  mkWorld Sample.clock 0 ∅ ∅ false store (fun _ => true) [] [] s.

(** A session logged in and last active at the epoch. *)
Definition stale : Session :=
  mkSession true (JStr "admin") (JStr "admin@renthabit.com") (Some 0) (Some 0).

(** A secret store that holds the credentials of [ops]. *)
Definition secret_text : string := "ops-credentials".

Definition parse (text : string) : Res JsVal :=
  if String.eqb text secret_text
  then Ok (JObj [("username", JStr "Ops"); ("passwordHash", JStr "hash:s3cret");
                 ("email", JStr "ops@renthabit.com")])
  else Throw SyntaxError.

Definition world_with_secret (s : option Session) : World :=
  mkWorld Sample.clock 0 ∅
          {[ "prod/RentHabit/AdminAuth" := mkSecret (Some secret_text) ]}
          false store (fun _ => false) [] [] s.

(** A clock that advances by one hour from one reading to the next,
    and a session last active at its first reading. *)
Definition hourly (i : nat) : Z := 3600000 * Z.of_nat i.

Definition world_by_the_hour (s : option Session) : World :=
  mkWorld hourly 0 ∅ ∅ false store (fun _ => false) [] [] s.

(** The secret store cannot be reached and the environment names the
    administrator. *)
Definition world_offline_with_env (s : option Session) : World :=
  mkWorld Sample.clock 0
          {[ "ADMIN_USERNAME" := "root"; "ADMIN_EMAIL" := "" ]}
          ∅ true store (fun _ => false) [] [] s.

(** A secret whose text is the JSON text [null], and [JSON.parse] on the
    three JSON texts of one literal name (a stand-in that knows no other
    text). *)
Definition parse_literal (text : string) : Res JsVal :=
  if String.eqb text "null" then Ok JNull
  else if String.eqb text "true" then Ok (JBool true)
  else if String.eqb text "false" then Ok (JBool false)
  else Throw SyntaxError.

Definition world_with_null_secret (s : option Session) : World :=
  mkWorld Sample.clock 0 ∅
          {[ "prod/RentHabit/AdminAuth" := mkSecret (Some "null") ]}
          false store (fun _ => false) [] [] s.

(** The record of [stale] after a status query that ended three hours
    after the epoch. *)
Definition polled : SessionStore.Entry := SessionStore.touch 10800000 stale.

(** A clock that starts four hours after the epoch. *)
Definition afternoon (i : nat) : Z := 14400000 + 1000 * Z.of_nat i.

Definition world_in_the_afternoon : World :=
  mkWorld afternoon 0 ∅ ∅ false store (fun _ => false) [] [] None.

End Scenario.

(** * Properties *)

Example iso_epoch : JsDate.toISOString 0 = "1970-01-01T00:00:00.000Z".
Proof. reflexivity. Qed.

Example iso_leap : JsDate.toISOString 951825599999 = "2000-02-29T11:59:59.999Z".
Proof. reflexivity. Qed.

Example iso_2026 : JsDate.toISOString 1793577600000 = "2026-11-02T00:00:00.000Z".
Proof. vm_compute. reflexivity. Qed.

Example iso_before_epoch : JsDate.toISOString (-1) = "1969-12-31T23:59:59.999Z".
Proof. reflexivity. Qed.

Example iso_century_not_leap :
  JsDate.toISOString 4107542400000 = "2100-03-01T00:00:00.000Z"
  /\ JsDate.toISOString (4107542400000 - 1) = "2100-02-28T23:59:59.999Z".
Proof. split; vm_compute; reflexivity. Qed.

Example iso_four_digit_years :
  JsDate.toISOString (-62167219200000) = "0000-01-01T00:00:00.000Z"
  /\ JsDate.toISOString 253402300799999 = "9999-12-31T23:59:59.999Z".
Proof. split; vm_compute; reflexivity. Qed.

Example iso_expanded_years :
  JsDate.toISOString (-62167219200001) = "-000001-12-31T23:59:59.999Z"
  /\ JsDate.toISOString 253402300800000 = "+010000-01-01T00:00:00.000Z".
Proof. split; vm_compute; reflexivity. Qed.

Example split_key :
  JsString.split "/" "pending-uploads/u1/property-42/images/photo.jpg"
  = ["pending-uploads"; "u1"; "property-42"; "images"; "photo.jpg"].
Proof. reflexivity. Qed.

Example trim_ex : JsString.trim "  Ad min  " = "Ad min".
Proof. reflexivity. Qed.

(** ** Running the monad *)

Ltac run :=
  unfold mbind, M_bind, mret, M_ret, get_session, put_session,
    destroy_session, new_Date, lift, throw; simpl.

Lemma bind_ok {A B : Type} (m : M A) (f : A -> M B) (w w' : World) (a : A) :
  m w = (Ok a, w') -> (m ≫= f) w = f a w'.
Proof. intros Hm. unfold mbind, M_bind. rewrite Hm. reflexivity. Qed.

Lemma bind_throw {A B : Type} (m : M A) (f : A -> M B) (w w' : World) (e : Exn) :
  m w = (Throw e, w') -> (m ≫= f) w = (Throw e, w').
Proof. intros Hm. unfold mbind, M_bind. rewrite Hm. reflexivity. Qed.

Lemma get_session_ok (w : World) (s : Session) :
  session w = Some s -> get_session w = (Ok s, w).
Proof. intros Hs. unfold get_session. rewrite Hs. reflexivity. Qed.

(** ** The authenticated-request gate *)

Lemma requireAuth_unauthenticated (w : World) (s : Session) :
  session w = Some s ->
  adminAuthenticated s = false ->
  requireAuth w
  = (Ok (Respond (respond 401 [("error", JStr "Authentication required");
                               ("redirectTo", JStr "/admin/login")])), w).
Proof.
  intros Hs Ha. unfold requireAuth. run. rewrite Hs, Ha. reflexivity.
Qed.

Lemma requireAuth_decides (w : World) (s : Session) :
  session w = Some s ->
  adminAuthenticated s = true ->
  requireAuth w
  = if idle_too_long (clock w (ticks w)) (date_or (lastActivity s) (loginTime s))
    then (Ok (Respond (respond 401 [("error", JStr "Session expired");
                                    ("redirectTo", JStr "/admin/login")])),
          set_session None (set_ticks (S (ticks w)) w))
    else (Ok Next,
          set_session (Some (with_lastActivity (clock w (ticks w)) s))
                      (set_ticks (S (ticks w)) w)).
Proof.
  intros Hs Ha. unfold requireAuth. run. rewrite Hs, Ha. simpl.
  destruct (idle_too_long _ _); reflexivity.
Qed.

(** The filter in front of the admin routes takes the same decision on
    the same timeout, measured from [lastActivity] alone, and leaves the
    session as it is when it lets the request through. *)
Lemma admin_prefilter_decides (w : World) (s : Session) :
  session w = Some s ->
  admin_prefilter w
  = if adminAuthenticated s
    then if idle_too_long (clock w (ticks w)) (lastActivity s)
         then (Ok (Respond (respond 401 [("error", JStr "Session expired");
                                         ("redirectTo", JStr "/admin/login")])),
               set_session None (set_ticks (S (ticks w)) w))
         else (Ok Next, set_ticks (S (ticks w)) w)
    else (Ok Next, w).
Proof.
  intros Hs. unfold admin_prefilter. run. rewrite Hs.
  destruct (adminAuthenticated s); [|reflexivity]. simpl.
  destruct (idle_too_long _ _); reflexivity.
Qed.

Lemma idle_too_long_true (now t : Z) :
  idle_too_long now (Some t) = true <-> 7200000 < now - t.
Proof. unfold idle_too_long, sessionTimeout. rewrite Z.ltb_lt. lia. Qed.

Lemma idle_too_long_false (now t : Z) :
  idle_too_long now (Some t) = false <-> now - t <= 7200000.
Proof. unfold idle_too_long, sessionTimeout. rewrite Z.ltb_ge. lia. Qed.

Lemma nondecreasing_cons (a : Z) (l : list Z) :
  nondecreasing (a :: l) = true <->
  match l with
  | [] => True
  | b :: _ => a <= b /\ nondecreasing l = true
  end.
Proof.
  destruct l as [|b l]; simpl; [tauto|].
  rewrite andb_true_iff, Z.leb_le. tauto.
Qed.

Lemma gate_history_nondecreasing (skips : list nat) :
  forall (w : World) (s : Session) (la : Z),
    session w = Some s ->
    lastActivity s = Some la ->
    la <= clock w (ticks w) ->
    (forall i j : nat, (i <= j)%nat -> clock w i <= clock w j) ->
    nondecreasing (la :: gate_history skips w) = true.
Proof.
  induction skips as [|skip rest IH]; intros w s la Hs Hla Hle Hmono; [reflexivity|].
  cbn [gate_history].
  assert (Hnow : la <= clock w (ticks w + skip)).
  { etransitivity; [exact Hle|]. apply Hmono. lia. }
  destruct (adminAuthenticated s) eqn:Ha.
  - rewrite (requireAuth_decides (later skip w) s) by (destruct w; assumption).
    replace (clock (later skip w) (ticks (later skip w)))
      with (clock w (ticks w + skip)) by (destruct w; reflexivity).
    rewrite Hla. cbn [date_or].
    destruct (idle_too_long _ _); [reflexivity|].
    cbn [session set_session lastActivity with_lastActivity].
    apply nondecreasing_cons. split; [exact Hnow|].
    eapply IH.
    + reflexivity.
    + reflexivity.
    + destruct w; cbn. apply Hmono. lia.
    + destruct w; cbn. exact Hmono.
  - rewrite (requireAuth_unauthenticated (later skip w) s)
      by (destruct w; assumption).
    reflexivity.
Qed.

(** What the gate writes is the reading of the clock it took: along a
    sequence of requests the recorded values of [lastActivity] are the
    readings at which the requests reached the gate, one after the
    other, up to the first request that is refused. *)
Lemma gate_history_follows_the_clock (skips : list nat) :
  forall (w : World) (s : Session),
    session w = Some s ->
    exists k : nat,
      gate_history skips w
      = List.firstn k (gate_times (clock w) (ticks w) skips).
Proof.
  induction skips as [|skip rest IH]; intros w s Hs; [exists 0%nat; reflexivity|].
  cbn [gate_history gate_times].
  destruct (adminAuthenticated s) eqn:Ha.
  - rewrite (requireAuth_decides (later skip w) s) by (destruct w; assumption).
    replace (clock (later skip w) (ticks (later skip w)))
      with (clock w (ticks w + skip)) by (destruct w; reflexivity).
    destruct (idle_too_long _ _); [exists 0%nat; reflexivity|].
    cbn [session set_session lastActivity with_lastActivity].
    match goal with
    | |- context [gate_history rest ?w'] =>
        destruct (IH w' _ eq_refl) as [k Hk]; rewrite Hk
    end.
    exists (S k). destruct w; reflexivity.
  - rewrite (requireAuth_unauthenticated (later skip w) s)
      by (destruct w; assumption).
    exists 0%nat. reflexivity.
Qed.

(** C1.  The gate [requireAuth] on a session [s], at the clock reading
    [now]: a session that is not authenticated is answered 401
    "Authentication required" with the redirect hint and nothing
    changes; an authenticated session whose [lastActivity] is more than
    7200000 ms before [now] is destroyed and answered 401 "Session
    expired"; otherwise the session is kept with [lastActivity] set to
    [now], every other field as it was, and the request goes on.  Along
    any sequence of requests the values of [lastActivity] that the
    allowed ones record are the clock readings of these requests, so
    that, when the clock never runs backwards, they never decrease. *)
Theorem C1_requireAuth_gate (w : World) (s : Session) :
  session w = Some s ->
  let now := clock w (ticks w) in
  let w1 := set_ticks (S (ticks w)) w in
  (adminAuthenticated s = false ->
   requireAuth w
   = (Ok (Respond (respond 401 [("error", JStr "Authentication required");
                                ("redirectTo", JStr "/admin/login")])), w))
  /\ (forall la, adminAuthenticated s = true -> lastActivity s = Some la ->
      7200000 < now - la ->
      requireAuth w
      = (Ok (Respond (respond 401 [("error", JStr "Session expired");
                                   ("redirectTo", JStr "/admin/login")])),
         set_session None w1))
  /\ (forall la, adminAuthenticated s = true -> lastActivity s = Some la ->
      now - la <= 7200000 ->
      requireAuth w
      = (Ok Next,
         set_session
           (Some (mkSession true (adminUsername s) (adminEmail s) (loginTime s)
                            (Some now)))
           w1))
  /\ (forall skips : list nat,
        exists k : nat,
          gate_history skips w
          = List.firstn k (gate_times (clock w) (ticks w) skips))
  /\ (forall la skips, lastActivity s = Some la -> la <= now ->
      (forall i j : nat, (i <= j)%nat -> clock w i <= clock w j) ->
      nondecreasing (la :: gate_history skips w) = true).
Proof.
  intros Hs now w1. split; [|split; [|split; [|split]]].
  - intros Ha. exact (requireAuth_unauthenticated w s Hs Ha).
  - intros la Ha Hla Hidle.
    rewrite (requireAuth_decides w s Hs Ha), Hla. cbn [date_or].
    apply idle_too_long_true in Hidle. fold now. rewrite Hidle. reflexivity.
  - intros la Ha Hla Hidle.
    rewrite (requireAuth_decides w s Hs Ha), Hla. cbn [date_or].
    apply idle_too_long_false in Hidle. fold now. rewrite Hidle.
    unfold with_lastActivity. rewrite Ha. reflexivity.
  - intros skips. exact (gate_history_follows_the_clock skips w s Hs).
  - intros la skips Hla Hle Hmono.
    exact (gate_history_nondecreasing skips w s la Hs Hla Hle Hmono).
Qed.

Lemma C1_requireAuth_gate_witness :
  requireAuth (Sample.world (Some Sample.admin))
  = (Ok Next,
     set_session
       (Some (mkSession true (JStr "admin") (JStr "admin@renthabit.com")
                        (Some 1793577000000) (Some 1793577600000)))
       (set_ticks 1 (Sample.world (Some Sample.admin))))
  /\ nondecreasing
       (1793577000000
        :: gate_history [0; 2; 5]%nat (Sample.world (Some Sample.admin))) = true.
Proof.
  pose proof (C1_requireAuth_gate (Sample.world (Some Sample.admin))
                Sample.admin eq_refl) as (_ & _ & Hallowed & _ & Hmono).
  split.
  - apply (Hallowed 1793577000000); [reflexivity | reflexivity |].
    vm_compute. discriminate.
  - apply Hmono; [reflexivity | vm_compute; discriminate |].
    intros i j Hij. unfold Sample.world, Sample.clock. cbn. lia.
Defined.

Example gate_history_sample :
  gate_history [0; 2; 5]%nat (Sample.world (Some Sample.admin))
  = [1793577600000; 1793577603000; 1793577609000].
Proof. vm_compute. reflexivity. Qed.

(** C10.  In [requireAuth], an authenticated session without a
    [lastActivity] is measured from [loginTime]: it goes on, with
    [lastActivity] set to [now], as long as [now] is at most 7200000 ms
    after [loginTime], and is destroyed as expired after that. *)
Theorem C10_requireAuth_falls_back_to_loginTime (w : World) (s : Session) (lt : Z) :
  session w = Some s ->
  adminAuthenticated s = true ->
  lastActivity s = None ->
  loginTime s = Some lt ->
  let now := clock w (ticks w) in
  let w1 := set_ticks (S (ticks w)) w in
  (now - lt <= 7200000 ->
   requireAuth w = (Ok Next, set_session (Some (with_lastActivity now s)) w1))
  /\ (7200000 < now - lt ->
      requireAuth w
      = (Ok (Respond (respond 401 [("error", JStr "Session expired");
                                   ("redirectTo", JStr "/admin/login")])),
         set_session None w1)).
Proof.
  intros Hs Ha Hla Hlt now w1.
  rewrite (requireAuth_decides w s Hs Ha), Hla, Hlt. cbn [date_or]. fold now.
  split; intros Hidle.
  - apply idle_too_long_false in Hidle. rewrite Hidle. reflexivity.
  - apply idle_too_long_true in Hidle. rewrite Hidle. reflexivity.
Qed.

Lemma C10_requireAuth_falls_back_to_loginTime_witness :
  requireAuth (Sample.world (Some Sample.admin_no_activity))
  = (Ok Next,
     set_session (Some (with_lastActivity 1793577600000 Sample.admin_no_activity))
                 (set_ticks 1 (Sample.world (Some Sample.admin_no_activity)))).
Proof.
  apply (C10_requireAuth_falls_back_to_loginTime
           (Sample.world (Some Sample.admin_no_activity))
           Sample.admin_no_activity 1793577000000);
    [reflexivity | reflexivity | reflexivity | reflexivity |].
  vm_compute. discriminate.
Defined.

(** ** Strings *)

Lemma append_assoc (a b c : string) : ((a ++ b) ++ c = a ++ (b ++ c))%string.
Proof. induction a as [|x a IH]; simpl; congruence. Qed.

Lemma length_append (a b : string) :
  String.length (a ++ b) = (String.length a + String.length b)%nat.
Proof. induction a as [|x a IH]; simpl; congruence. Qed.

Lemma all_chars_app (p : ascii -> bool) (a b : string) :
  JsString.all_chars p (a ++ b) = JsString.all_chars p a && JsString.all_chars p b.
Proof.
  induction a as [|c a IH]; simpl; [reflexivity|].
  rewrite IH. apply andb_assoc.
Qed.

Lemma includes_app (c : ascii) (a b : string) :
  JsString.includes c (a ++ b) = JsString.includes c a || JsString.includes c b.
Proof.
  induction a as [|x a IH]; simpl; [reflexivity|].
  rewrite IH. apply orb_assoc.
Qed.

Lemma in_class_in_key_class (c : ascii) :
  JsString.in_class c = true -> in_key_class c = true.
Proof. unfold in_key_class. intros ->. reflexivity. Qed.

Lemma replace_outside_class_clean (s : string) :
  JsString.all_chars in_key_class (JsString.replace_outside_class s) = true.
Proof.
  induction s as [|c s IH]; simpl; [reflexivity|].
  rewrite IH, andb_true_r.
  destruct (JsString.in_class c) eqn:Hc; [|reflexivity].
  apply in_class_in_key_class, Hc.
Qed.

Lemma replace_outside_class_length (s : string) :
  String.length (JsString.replace_outside_class s) = String.length s.
Proof. induction s as [|c s IH]; simpl; congruence. Qed.

Lemma replace_outside_class_get (s : string) (i : nat) :
  String.get i (JsString.replace_outside_class s)
  = (fun c => if JsString.in_class c then c else "_"%char) <$> String.get i s.
Proof.
  revert i. induction s as [|c s IH]; intros i; simpl; [reflexivity|].
  destruct i as [|i]; [reflexivity|]. apply IH.
Qed.

Lemma replace_first_clean (p : ascii) (r s : string) :
  JsString.all_chars in_key_class r = true ->
  JsString.all_chars in_key_class s = true ->
  JsString.all_chars in_key_class (JsString.replace_first p r s) = true.
Proof.
  intros Hr. induction s as [|c s IH]; simpl; [reflexivity|].
  intros [Hc Hs]%andb_true_iff.
  destruct (Ascii.eqb c p).
  - rewrite all_chars_app, Hr, Hs. reflexivity.
  - simpl. rewrite Hc, (IH Hs). reflexivity.
Qed.

(** A string with a [p] splits at its first [p], which is the one
    [replace] rewrites. *)
Lemma replace_first_at_first (p : ascii) (r s : string) :
  JsString.includes p s = true ->
  exists pre post : string,
    s = (pre ++ String p post)%string
    /\ JsString.includes p pre = false
    /\ JsString.replace_first p r s = (pre ++ r ++ post)%string.
Proof.
  induction s as [|c s IH]; simpl; [discriminate|].
  destruct (Ascii.eqb c p) eqn:Hc.
  - intros _. apply Ascii.eqb_eq in Hc. subst c.
    exists EmptyString, s. repeat split.
  - simpl. intros Hs. destruct (IH Hs) as (pre & post & -> & Hpre & Hrep).
    exists (String c pre), post. simpl. rewrite Hc, Hpre, Hrep. repeat split.
Qed.

Lemma replace_first_absent (p : ascii) (r s : string) :
  JsString.includes p s = false -> JsString.replace_first p r s = s.
Proof.
  induction s as [|c s IH]; simpl; [reflexivity|].
  destruct (Ascii.eqb c p); simpl; [discriminate|].
  intros Hs. rewrite (IH Hs). reflexivity.
Qed.

Lemma split_at_first (sep : ascii) (a b : string) :
  JsString.includes sep a = false ->
  JsString.split sep (a ++ String sep b) = a :: JsString.split sep b.
Proof.
  induction a as [|c a IH]; simpl.
  - intros _. rewrite Ascii.eqb_refl. reflexivity.
  - destruct (Ascii.eqb c sep); simpl; [discriminate|].
    intros Ha. rewrite (IH Ha). reflexivity.
Qed.

(** ** Dates *)

Lemma digit_is_decimal (n : Z) :
  In (JsDate.digit n) ["0"; "1"; "2"; "3"; "4"; "5"; "6"; "7"; "8"; "9"]%char.
Proof.
  unfold JsDate.digit.
  destruct (n mod 10) as [|q|q]; simpl; [tauto| |tauto].
  do 4 (try destruct q as [q|q|]); simpl; tauto.
Qed.

Lemma digit_is_digit (n : Z) : is_digit (JsDate.digit n) = true.
Proof.
  pose proof (digit_is_decimal n) as H. simpl in H.
  repeat (destruct H as [<-|H]; [reflexivity|]). contradiction.
Qed.

Lemma digits_all_digits (k : nat) (n : Z) :
  JsString.all_chars is_digit (JsDate.digits k n) = true.
Proof.
  revert n. induction k as [|k IH]; intros n; simpl; [reflexivity|].
  rewrite all_chars_app, IH. simpl. rewrite digit_is_digit. reflexivity.
Qed.

Lemma digits_length (k : nat) (n : Z) : String.length (JsDate.digits k n) = k.
Proof.
  revert n. induction k as [|k IH]; intros n; simpl; [reflexivity|].
  rewrite length_append, IH. simpl. lia.
Qed.

Lemma all_chars_excludes (p : ascii -> bool) (c : ascii) (s : string) :
  p c = false -> JsString.all_chars p s = true -> JsString.includes c s = false.
Proof.
  intros Hc. induction s as [|x s IH]; simpl; [reflexivity|].
  intros [Hx Hs]%andb_true_iff. rewrite (IH Hs), orb_false_r.
  destruct (Ascii.eqb x c) eqn:E; [|reflexivity].
  apply Ascii.eqb_eq in E. congruence.
Qed.

Lemma digits_without_T (k : nat) (n : Z) :
  JsString.includes "T" (JsDate.digits k n) = false.
Proof.
  apply (all_chars_excludes is_digit); [reflexivity|apply digits_all_digits].
Qed.

Lemma date_string_without_T (t : Z) :
  JsString.includes "T" (JsDate.date_string t) = false.
Proof.
  unfold JsDate.date_string.
  destruct (JsDate.civil_from_days _) as [[y m] d].
  rewrite !includes_app, !digits_without_T. simpl. rewrite orb_false_r.
  unfold JsDate.year_string.
  destruct (_ && _); [apply digits_without_T|].
  rewrite includes_app, digits_without_T.
  destruct (y <? 0); reflexivity.
Qed.

(** The [timestamp] of [generateS3Key] is the date part of the ISO string. *)
Lemma timestamp_is_date_string (t : Z) :
  JsString.first (JsString.split "T" (JsDate.toISOString t)) = JsDate.date_string t.
Proof.
  unfold JsDate.toISOString.
  change ("T" ++ JsDate.time_string t)%string with (String "T" (JsDate.time_string t)).
  rewrite split_at_first by apply date_string_without_T. reflexivity.
Qed.

(** ** Key derivation *)

Lemma generateS3Key_stage (st : Stage) (userId propertyId : JsVal)
    (fileName : string) (w : World) :
  generateS3Key (stage_name st) userId propertyId fileName w
  = (Ok (key_prefix st userId propertyId (clock w (ticks w))
         ++ embedded_name st fileName)%string,
     set_ticks (S (ticks w)) w).
Proof.
  unfold generateS3Key. run. rewrite timestamp_is_date_string.
  f_equal. f_equal.
  destruct st; cbn; repeat (progress (rewrite ?append_assoc; simpl)); reflexivity.
Qed.


Example sanitize_sample :
  JsString.replace_outside_class "my photo (1)_#.JPG" = "my_photo__1___.JPG".
Proof. reflexivity. Qed.



Example edited_key_multi_dot :
  fst (generateS3Key "approved_edited" (JStr "u1") (JStr "42") "a.b.jpg"
         (Sample.world None))
  = Ok "approved-content/u1/property-42/edited/a_enhanced.b.jpg".
Proof. vm_compute. reflexivity. Qed.

(** ** Credentials *)

Lemma getAdminCredentials_fallback (JSON_parse : string -> Res JsVal)
    (e : Exn) (w : World) :
  (SecretId ← env_or "ADMIN_SECRET_ID" "prod/RentHabit/AdminAuth";
   response ← Secrets.send SecretId;
   lift match SecretString response with
        | Some text => JSON_parse text
        | None => Throw SyntaxError
        end) w = (Throw e, w) ->
  getAdminCredentials JSON_parse w
  = (Ok (fallback_credentials (env w)),
     logged_error "Failed to retrieve admin credentials:" e w).
Proof.
  intros Hbody. unfold getAdminCredentials, try_catch. rewrite Hbody.
  destruct w; reflexivity.
Qed.

(** C7.  [getAdminCredentials] never throws: whatever the secret store
    answers, it returns a value.  The secret it asks for is the one
    named by [ADMIN_SECRET_ID], or ["prod/RentHabit/AdminAuth"] when
    that variable is unset or empty.  When the store cannot be reached,
    has no secret under the identifier, or holds a secret without text
    or with text that [JSON.parse] rejects, the value is the fallback
    record, whose username, passwordHash and email are the values of
    [ADMIN_USERNAME], [ADMIN_PASSWORD_HASH] and [ADMIN_EMAIL], each
    replaced by its built-in default when unset or empty, and the error
    is written to the console.  When the text parses, the parsed value
    is returned as it is, whether or not it is a credentials record, and
    nothing is logged. *)
Theorem C7_getAdminCredentials_never_throws (JSON_parse : string -> Res JsVal)
    (w : World) :
  let from_env (name otherwise : string) : string :=
    match env w !! name with
    | Some value => if String.eqb value "" then otherwise else value
    | None => otherwise
    end in
  let id := from_env "ADMIN_SECRET_ID" "prod/RentHabit/AdminAuth" in
  let fallback :=
    JObj [("username", JStr (from_env "ADMIN_USERNAME" "admin"));
          ("passwordHash",
           JStr (from_env "ADMIN_PASSWORD_HASH"
                   "$2b$12$LQv3c1yqBWVHxkd0LHAkCOYz6TtxMQJqhN8/LewdhquMgGFbOvS0a"));
          ("email", JStr (from_env "ADMIN_EMAIL" "admin@renthabit.com"))] in
  let falls_back (e : Exn) :=
    getAdminCredentials JSON_parse w
    = (Ok fallback,
       set_console
         (console w ++ [ConsoleError "Failed to retrieve admin credentials:" e])
         w) in
  (exists creds w', getAdminCredentials JSON_parse w = (Ok creds, w'))
  /\ (secrets_down w = true -> falls_back (ServiceError "NetworkingError"))
  /\ (secrets_down w = false -> secrets w !! id = None ->
      falls_back (ServiceError "ResourceNotFoundException"))
  /\ (forall v, secrets_down w = false -> secrets w !! id = Some v ->
      SecretString v = None -> falls_back SyntaxError)
  /\ (forall v text e, secrets_down w = false -> secrets w !! id = Some v ->
      SecretString v = Some text -> JSON_parse text = Throw e -> falls_back e)
  /\ (forall v text creds, secrets_down w = false -> secrets w !! id = Some v ->
      SecretString v = Some text -> JSON_parse text = Ok creds ->
      getAdminCredentials JSON_parse w = (Ok creds, w))
  /\ (exists username passwordHash email : string,
        fallback
        = JObj [("username", JStr username); ("passwordHash", JStr passwordHash);
                ("email", JStr email)]
        /\ username <> "" /\ passwordHash <> "" /\ email <> "").
Proof.
  intros from_env id fallback falls_back.
  assert (Hfallback : fallback = fallback_credentials (env w)) by reflexivity.
  assert (Hid : id = env_value (env w) "ADMIN_SECRET_ID" "prod/RentHabit/AdminAuth")
    by reflexivity.
  assert (Hcatch : forall e,
            (SecretId ← env_or "ADMIN_SECRET_ID" "prod/RentHabit/AdminAuth";
             response ← Secrets.send SecretId;
             lift match SecretString response with
                  | Some text => JSON_parse text
                  | None => Throw SyntaxError
                  end) w = (Throw e, w) ->
            falls_back e).
  { intros e Hbody. unfold falls_back. rewrite Hfallback.
    exact (getAdminCredentials_fallback JSON_parse e w Hbody). }
  clearbody fallback id. subst fallback id. clear from_env.
  set (id := env_value (env w) "ADMIN_SECRET_ID" "prod/RentHabit/AdminAuth").
  assert (Hdown : secrets_down w = true -> falls_back (ServiceError "NetworkingError")).
  { intros Hd. apply Hcatch.
    unfold env_or, Secrets.send. run. rewrite Hd. reflexivity. }
  assert (Hmissing : secrets_down w = false -> secrets w !! id = None ->
                     falls_back (ServiceError "ResourceNotFoundException")).
  { intros Hd Hid. apply Hcatch.
    unfold env_or, Secrets.send. run. fold id. rewrite Hd, Hid. reflexivity. }
  assert (Hbinary : forall v, secrets_down w = false -> secrets w !! id = Some v ->
                    SecretString v = None -> falls_back SyntaxError).
  { intros v Hd Hid Hv. apply Hcatch.
    unfold env_or, Secrets.send. run. fold id. rewrite Hd, Hid, Hv. reflexivity. }
  assert (Hreject : forall v text e, secrets_down w = false ->
                    secrets w !! id = Some v -> SecretString v = Some text ->
                    JSON_parse text = Throw e -> falls_back e).
  { intros v text e Hd Hid Hv Hp. apply Hcatch.
    unfold env_or, Secrets.send. run. fold id. rewrite Hd, Hid, Hv, Hp. reflexivity. }
  assert (Hparsed : forall v text creds, secrets_down w = false ->
                    secrets w !! id = Some v -> SecretString v = Some text ->
                    JSON_parse text = Ok creds ->
                    getAdminCredentials JSON_parse w = (Ok creds, w)).
  { intros v text creds Hd Hid Hv Hp.
    unfold getAdminCredentials, try_catch, env_or, Secrets.send. run.
    fold id. rewrite Hd, Hid, Hv, Hp. reflexivity. }
  split; [|repeat split; try assumption].
  - unfold falls_back in *.
    destruct (secrets_down w) eqn:Hd; [eauto|].
    destruct (secrets w !! id) as [v|] eqn:Hid; [|eauto].
    destruct (SecretString v) as [text|] eqn:Hv; [|eauto].
    destruct (JSON_parse text) as [creds|e] eqn:Hp; eauto.
  - do 3 eexists. split; [reflexivity|].
    unfold env_value. repeat split.
    all: match goal with
         | |- context [?m !! ?k] => destruct (m !! k) as [x|]; [|discriminate]
         end.
    all: destruct (String.eqb x "") eqn:Hx; [discriminate|].
    all: apply String.eqb_neq, Hx.
Qed.

Lemma C7_getAdminCredentials_never_throws_witness :
  getAdminCredentials Sample.no_json (Scenario.world_offline_with_env None)
  = (Ok (JObj [("username", JStr "root");
               ("passwordHash",
                JStr "$2b$12$LQv3c1yqBWVHxkd0LHAkCOYz6TtxMQJqhN8/LewdhquMgGFbOvS0a");
               ("email", JStr "admin@renthabit.com")]),
     set_console
       [ConsoleError "Failed to retrieve admin credentials:"
          (ServiceError "NetworkingError")]
       (Scenario.world_offline_with_env None)).
Proof.
  pose proof (C7_getAdminCredentials_never_throws Sample.no_json
                (Scenario.world_offline_with_env None)) as (_ & Hdown & _).
  exact (Hdown eq_refl).
Defined.

(** C7 as the design document words it fails on a secret that is JSON
    without being a credentials record.  The secret text [null] parses:
    [getAdminCredentials] returns [null], which is no record (reading
    its [username] throws) and not the fallback, and it writes nothing
    to the console; the login that asked for the credentials then ends
    in the 500 answer. *)
Lemma C7_parsed_secret_is_not_checked :
  getAdminCredentials Scenario.parse_literal (Scenario.world_with_null_secret None)
  = (Ok JNull, Scenario.world_with_null_secret None)
  /\ console (snd (getAdminCredentials Scenario.parse_literal
                     (Scenario.world_with_null_secret None))) = []
  /\ Js.get JNull "username" = Throw TypeError
  /\ fst (login Scenario.parse_literal Sample.toy_verify
            [("username", JStr "admin"); ("password", JStr "secret")]
            (Scenario.world_with_null_secret (Some fresh_session)))
     = Ok (respond 500 [("error", JStr "Authentication service unavailable")]).
Proof. repeat split; vm_compute; reflexivity. Qed.

(** ** Login *)

Lemma truthy_nonempty (s : string) : s <> "" -> Js.truthy (JStr s) = true.
Proof.
  intros Hs. simpl. apply negb_true_iff, String.eqb_neq, Hs.
Qed.

(** A login attempt with two non-empty strings, against credentials that
    hold a username and a hash, is refused with the one generic answer
    unless both the username and the password are right. *)
Lemma login_refused (JSON_parse : string -> Res JsVal)
    (bcrypt_verify : string -> string -> bool)
    (body : list (string * JsVal)) (username password : string)
    (creds : JsVal) (credsUsername passwordHash : string) (w w' : World) :
  Js.assoc "username" body = JStr username ->
  Js.assoc "password" body = JStr password ->
  username <> "" ->
  password <> "" ->
  getAdminCredentials JSON_parse w = (Ok creds, w') ->
  Js.get creds "username" = Ok (JStr credsUsername) ->
  Js.get creds "passwordHash" = Ok (JStr passwordHash) ->
  String.eqb (JsString.trim (JsString.toLowerCase username))
             (JsString.trim (JsString.toLowerCase credsUsername))
  && bcrypt_verify password passwordHash = false ->
  login JSON_parse bcrypt_verify body w
  = (Ok (respond 401 [("error", JStr "Invalid credentials")]),
     set_console
       (console w' ++ [ConsoleLog "Admin login failed: " (JStr username)
                         (clock w' (ticks w'))])
       (set_ticks (S (ticks w')) w')).
Proof.
  intros Hu Hp Hune Hpne Hcreds Hcu Hph Hbad.
  unfold login, try_catch. rewrite Hu, Hp.
  rewrite (truthy_nonempty username Hune), (truthy_nonempty password Hpne).
  cbn [negb orb]. run. rewrite Hcreds, Hcu. cbn. rewrite Hph. cbn.
  rewrite Hbad. destruct w'; reflexivity.
Qed.

(** C2.  Two login attempts with non-empty fields against the same
    credentials, one with the right username and a wrong password, the
    other with a wrong username and any password, get the same answer:
    status 401 with the body [{ error: 'Invalid credentials' }]. *)
Theorem C2_login_failures_are_indistinguishable
    (JSON_parse : string -> Res JsVal) (bcrypt_verify : string -> string -> bool)
    (w w' : World) (creds : JsVal) (credsUsername passwordHash : string)
    (body1 body2 : list (string * JsVal))
    (username1 password1 username2 password2 : string) :
  getAdminCredentials JSON_parse w = (Ok creds, w') ->
  Js.get creds "username" = Ok (JStr credsUsername) ->
  Js.get creds "passwordHash" = Ok (JStr passwordHash) ->
  Js.assoc "username" body1 = JStr username1 ->
  Js.assoc "password" body1 = JStr password1 ->
  Js.assoc "username" body2 = JStr username2 ->
  Js.assoc "password" body2 = JStr password2 ->
  username1 <> "" -> password1 <> "" -> username2 <> "" -> password2 <> "" ->
  JsString.trim (JsString.toLowerCase username1)
  = JsString.trim (JsString.toLowerCase credsUsername) ->
  bcrypt_verify password1 passwordHash = false ->
  JsString.trim (JsString.toLowerCase username2)
  <> JsString.trim (JsString.toLowerCase credsUsername) ->
  fst (login JSON_parse bcrypt_verify body1 w)
  = Ok (respond 401 [("error", JStr "Invalid credentials")])
  /\ fst (login JSON_parse bcrypt_verify body2 w)
     = Ok (respond 401 [("error", JStr "Invalid credentials")])
  /\ fst (login JSON_parse bcrypt_verify body1 w)
     = fst (login JSON_parse bcrypt_verify body2 w).
Proof.
  intros Hcreds Hcu Hph Hu1 Hp1 Hu2 Hp2 Hu1ne Hp1ne Hu2ne Hp2ne Hright Hwrong Hother.
  assert (H1 : fst (login JSON_parse bcrypt_verify body1 w)
               = Ok (respond 401 [("error", JStr "Invalid credentials")])).
  { erewrite login_refused; eauto.
    rewrite Hwrong. apply andb_false_r. }
  assert (H2 : fst (login JSON_parse bcrypt_verify body2 w)
               = Ok (respond 401 [("error", JStr "Invalid credentials")])).
  { erewrite login_refused; eauto.
    apply andb_false_iff. left. apply String.eqb_neq, Hother. }
  split; [exact H1|]. split; [exact H2|]. congruence.
Qed.

Lemma C2_login_failures_are_indistinguishable_witness :
  fst (login Sample.no_json Sample.toy_verify
         [("username", JStr " Admin "); ("password", JStr "guess")]
         (Sample.world_offline (Some fresh_session)))
  = fst (login Sample.no_json Sample.toy_verify
           [("username", JStr "root"); ("password", JStr "secret")]
           (Sample.world_offline (Some fresh_session))).
Proof.
  eapply (C2_login_failures_are_indistinguishable
            Sample.no_json Sample.toy_verify
            (Sample.world_offline (Some fresh_session)) _ _ "admin" _
            _ _ " Admin " "guess" "root" "secret");
    try reflexivity; try discriminate.
Defined.

Example login_succeeds_sample :
  fst (login Sample.no_json (fun _ _ => true)
         [("username", JStr " Admin "); ("password", JStr "guess")]
         (Sample.world_offline (Some fresh_session)))
  = Ok (respond 200 [("success", JBool true);
                     ("message", JStr "Authentication successful");
                     ("redirectTo", JStr "/admin/dashboard")]).
Proof. vm_compute. reflexivity. Qed.

(** ** The object store *)

Lemma exec_failure_frame (c : S3Command) (b b' : gmap string (gmap string S3Object))
    (e : Exn) :
  S3.exec c b = (Throw e, b') -> b' = b.
Proof.
  unfold S3.exec. destruct c as [i|i|i].
  - destruct (S3.parse_CopySource _) as [[sb sk]|]; [|congruence].
    destruct (b !! copy_Bucket i); [|congruence].
    destruct (S3.get_object b sb sk); [|congruence].
    destruct (_ && _); congruence.
  - destruct (b !! put_Bucket i); congruence.
  - destruct (b !! list_Bucket i); congruence.
Qed.

Lemma get_object_insert (b : gmap string (gmap string S3Object))
    (bucket key : string) (dest : gmap string S3Object) (o : S3Object) :
  S3.get_object (<[bucket := <[key := o]> dest]> b) bucket key = Some o.
Proof.
  unfold S3.get_object. rewrite lookup_insert_eq. apply lookup_insert_eq.
Qed.

Lemma get_object_insert_other (b : gmap string (gmap string S3Object))
    (bucket key bucket' key' : string) (dest : gmap string S3Object) (o : S3Object) :
  b !! bucket = Some dest ->
  (bucket, key) <> (bucket', key') ->
  S3.get_object (<[bucket := <[key := o]> dest]> b) bucket' key'
  = S3.get_object b bucket' key'.
Proof.
  intros Hdest Hne. unfold S3.get_object.
  destruct (decide (bucket = bucket')) as [<-|Hb].
  - rewrite lookup_insert_eq, Hdest.
    apply lookup_insert_ne. congruence.
  - rewrite lookup_insert_ne by exact Hb. reflexivity.
Qed.

(** A copy changes nothing but the object under its destination key. *)
Lemma exec_copy_frame (i : CopyObjectInput) (b : gmap string (gmap string S3Object))
    (bucket key : string) :
  (copy_Bucket i, copy_Key i) <> (bucket, key) ->
  S3.get_object (snd (S3.exec (CopyObjectCommand i) b)) bucket key
  = S3.get_object b bucket key.
Proof.
  intros Hne. unfold S3.exec.
  destruct (S3.parse_CopySource _) as [[sb sk]|]; [|reflexivity].
  destruct (b !! copy_Bucket i) as [dest|] eqn:Hdest; [|reflexivity].
  destruct (S3.get_object b sb sk); [|reflexivity].
  destruct (_ && _); [reflexivity|].
  cbn [snd]. apply get_object_insert_other; assumption.
Qed.

Lemma parse_CopySource_bucket (bucket key : string) :
  JsString.includes "/" bucket = false ->
  S3.parse_CopySource (bucket ++ String "/" key) = Some (bucket, key).
Proof.
  induction bucket as [|c bucket IH]; simpl; [reflexivity|].
  destruct (Ascii.eqb c "/"); simpl; [discriminate|].
  intros Hb. rewrite (IH Hb). reflexivity.
Qed.

(** A copy of an existing media object to another key of an existing
    bucket succeeds and puts the object there. *)
Lemma exec_copy_from_media (i : CopyObjectInput)
    (b : gmap string (gmap string S3Object)) (key : string) (o : S3Object)
    (dest : gmap string S3Object) :
  copy_CopySource i = (S3_BUCKETS_media ++ "/" ++ key)%string ->
  S3.get_object b S3_BUCKETS_media key = Some o ->
  b !! copy_Bucket i = Some dest ->
  (S3_BUCKETS_media, key) <> (copy_Bucket i, copy_Key i) ->
  S3.exec (CopyObjectCommand i) b
  = (Ok S3.CopyObjectOutput, <[copy_Bucket i := <[copy_Key i := o]> dest]> b).
Proof.
  intros Hsrc Ho Hdest Hne. unfold S3.exec.
  rewrite Hsrc.
  change (S3_BUCKETS_media ++ "/" ++ key)%string
    with (S3_BUCKETS_media ++ String "/" key)%string.
  rewrite parse_CopySource_bucket by reflexivity.
  rewrite Hdest, Ho.
  destruct (String.eqb S3_BUCKETS_media (copy_Bucket i)) eqn:Hb;
    destruct (String.eqb key (copy_Key i)) eqn:Hk; try reflexivity.
  apply String.eqb_eq in Hb, Hk. congruence.
Qed.

Lemma send_calls (c : S3Command) (w : World) :
  s3_calls (snd (S3.send c w)) = (s3_calls w ++ [c])%list.
Proof.
  unfold S3.send. destruct (faults w _); [destruct w; reflexivity|].
  destruct (S3.exec c (buckets w)). destruct w; reflexivity.
Qed.

Lemma send_lost (c : S3Command) (w : World) :
  faults w (List.length (s3_calls w)) = true ->
  S3.send c w
  = (Throw (ServiceError "NetworkingError"), set_s3_calls (s3_calls w ++ [c]) w).
Proof. intros Hf. unfold S3.send. rewrite Hf. reflexivity. Qed.

Lemma send_reaches (c : S3Command) (w : World) :
  faults w (List.length (s3_calls w)) = false ->
  S3.send c w
  = (fst (S3.exec c (buckets w)),
     set_buckets (snd (S3.exec c (buckets w)))
                 (set_s3_calls (s3_calls w ++ [c]) w)).
Proof.
  intros Hf. unfold S3.send. rewrite Hf.
  destruct (S3.exec c (buckets w)). reflexivity.
Qed.

(** Whatever becomes of a copy, it leaves alone every object that is not
    under its destination key. *)
Lemma send_copy_frame (i : CopyObjectInput) (w : World) (bucket key : string) :
  (copy_Bucket i, copy_Key i) <> (bucket, key) ->
  S3.get_object (buckets (snd (S3.send (CopyObjectCommand i) w))) bucket key
  = S3.get_object (buckets w) bucket key.
Proof.
  intros Hne. unfold S3.send.
  destruct (faults w _); [destruct w; reflexivity|].
  pose proof (exec_copy_frame i (buckets w) bucket key Hne) as Hframe.
  destruct (S3.exec _ (buckets w)) as [r b']. destruct w; exact Hframe.
Qed.

(** ** The admin routes *)

Lemma admin_route_admitted (handler : M HttpResponse) (w : World) :
  gate_passes w = true ->
  admin_route handler w = handler (after_gate w).
Proof.
  unfold gate_passes, after_gate, admin_route, chain, session_middleware,
    admin_prefilter, requireAuth. run.
  destruct w as [clk n e sec down b f calls con [[auth u em lt la]|]]; cbn;
    [|discriminate].
  destruct auth; cbn; [|discriminate].
  destruct (idle_too_long (clk n) la); cbn; [discriminate|].
  destruct (idle_too_long (clk (S n)) (date_or la lt)); cbn; [discriminate|].
  reflexivity.
Qed.

(** A request the gate turns away is answered 401 before any handler
    runs, and the object store is not touched. *)
Lemma admin_route_refused (handler : M HttpResponse) (w : World) :
  gate_passes w = false ->
  exists r w',
    admin_route handler w = (Ok r, w')
    /\ status r = 401
    /\ buckets w' = buckets w
    /\ s3_calls w' = s3_calls w.
Proof.
  unfold gate_passes, admin_route, chain, session_middleware,
    admin_prefilter, requireAuth. run.
  destruct w as [clk n e sec down b f calls con [[auth u em lt la]|]]; cbn.
  - destruct auth; cbn.
    + destruct (idle_too_long (clk n) la); cbn.
      * intros _. do 2 eexists. repeat split.
      * destruct (idle_too_long (clk (S n)) (date_or la lt)); cbn; [|discriminate].
        intros _. do 2 eexists. repeat split.
    + intros _. do 2 eexists. repeat split.
  - intros _. do 2 eexists. repeat split.
Qed.

(** ** Reject *)

Lemma reject_answers (contentId : string) (body : list (string * JsVal))
    (w : World) (s : Session) :
  session w = Some s ->
  reject contentId body w
  = (Ok (respond 200 [("success", JBool true);
                      ("message", JStr "Content rejected");
                      ("contentId", JStr contentId);
                      ("rejectedBy", adminUsername s);
                      ("rejectedAt", JStr (JsDate.toISOString (clock w (ticks w))));
                      ("reason", Js.assoc "rejectionReason" body)]),
     set_ticks (S (ticks w)) w).
Proof.
  intros Hs. unfold reject, try_catch. run. rewrite Hs. reflexivity.
Qed.

Lemma after_gate_session (w : World) (s : Session) :
  session w = Some s ->
  session (after_gate w) = Some (with_lastActivity (clock w (S (ticks w))) s).
Proof. intros Hs. unfold after_gate. rewrite Hs. reflexivity. Qed.

Lemma after_gate_store (w : World) :
  buckets (after_gate w) = buckets w
  /\ s3_calls (after_gate w) = s3_calls w
  /\ faults (after_gate w) = faults w
  /\ clock (after_gate w) = clock w.
Proof. unfold after_gate. destruct (session w); repeat split. Qed.

Lemma after_gate_ticks (w : World) :
  gate_passes w = true -> ticks (after_gate w) = S (S (ticks w)).
Proof.
  unfold gate_passes, after_gate. destruct (session w); [reflexivity|discriminate].
Qed.

(** C8.  No invocation of reject sends a call to the object store:
    the list of calls and both buckets are after the request what they
    were before it.  For a session that passes the gate the answer is
    the decision record: the content id, the session's username as
    [rejectedBy], the time as [rejectedAt] and the given reason. *)
Theorem C8_reject_leaves_the_store_alone (contentId : string)
    (body : list (string * JsVal)) (w : World) :
  (exists r w',
     reject_route contentId body w = (Ok r, w')
     /\ s3_calls w' = s3_calls w
     /\ buckets w' = buckets w)
  /\ (forall s : Session,
        session w = Some s ->
        gate_passes w = true ->
        fst (reject_route contentId body w)
        = Ok (respond 200
                [("success", JBool true);
                 ("message", JStr "Content rejected");
                 ("contentId", JStr contentId);
                 ("rejectedBy", adminUsername s);
                 ("rejectedAt",
                  JStr (JsDate.toISOString (clock w (S (S (ticks w))))));
                 ("reason", Js.assoc "rejectionReason" body)])).
Proof.
  assert (Hadmitted : forall s : Session,
            session w = Some s -> gate_passes w = true ->
            reject_route contentId body w
            = (Ok (respond 200
                     [("success", JBool true);
                      ("message", JStr "Content rejected");
                      ("contentId", JStr contentId);
                      ("rejectedBy", adminUsername s);
                      ("rejectedAt",
                       JStr (JsDate.toISOString (clock w (S (S (ticks w))))));
                      ("reason", Js.assoc "rejectionReason" body)]),
               set_ticks (S (S (S (ticks w)))) (after_gate w))).
  { intros s Hs Hgate. unfold reject_route.
    rewrite (admin_route_admitted _ w Hgate).
    rewrite (reject_answers contentId body (after_gate w) _ (after_gate_session w s Hs)).
    rewrite (after_gate_ticks w Hgate).
    destruct (after_gate_store w) as (_ & _ & _ & ->). reflexivity. }
  split.
  - destruct (gate_passes w) eqn:Hgate.
    + destruct (session w) as [s|] eqn:Hs;
        [|unfold gate_passes in Hgate; rewrite Hs in Hgate; discriminate].
      do 2 eexists. split; [apply (Hadmitted s); reflexivity|].
      destruct (after_gate_store w) as (Hb & Hc & _). cbn. auto.
    + destruct (admin_route_refused (reject contentId body) w Hgate)
        as (r & w' & Hrun & _ & Hb & Hc).
      exists r, w'. auto.
  - intros s Hs Hgate. rewrite (Hadmitted s Hs Hgate). reflexivity.
Qed.

Lemma C8_reject_leaves_the_store_alone_witness :
  fst (reject_route "c-17" [("rejectionReason", JStr "blurred")]
         (Sample.world (Some Sample.admin)))
  = Ok (respond 200
          [("success", JBool true);
           ("message", JStr "Content rejected");
           ("contentId", JStr "c-17");
           ("rejectedBy", JStr "admin");
           ("rejectedAt", JStr "2026-11-02T00:00:02.000Z");
           ("reason", JStr "blurred")]).
Proof.
  pose proof (C8_reject_leaves_the_store_alone "c-17"
                [("rejectionReason", JStr "blurred")]
                (Sample.world (Some Sample.admin))) as [_ Hrecord].
  exact (Hrecord Sample.admin eq_refl eq_refl).
Defined.

(** ** Approve *)

(** The copy that approve sends for the object under [key]. *)
Lemma approve_sends_one_copy (contentId : string) (body : list (string * JsVal))
    (key : string) (w : World) (s : Session) :
  Js.assoc "s3Key" body = JStr key ->
  key <> "" ->
  session w = Some s ->
  let originalKey :=
    (key_prefix approved_original (Js.assoc "userId" body)
       (Js.assoc "propertyId" body) (clock w (ticks w))
     ++ JsString.replace_outside_class
          (JsString.pop (JsString.split "/" key)))%string in
  let command :=
    CopyObjectCommand
      (mkCopy S3_BUCKETS_media (S3_BUCKETS_media ++ "/" ++ key)%string originalKey
         [("status", JStr "approved");
          ("approvedDate", JStr (JsDate.toISOString (clock w (S (ticks w)))));
          ("adminNotes", Js.or (Js.assoc "adminNotes" body) (JStr ""));
          ("approvedBy", adminUsername s)]) in
  approve contentId body w
  = match S3.send command (set_ticks (S (S (ticks w))) w) with
    | (Ok _, w') =>
        (Ok (respond 200 [("success", JBool true);
                          ("message", JStr "Content approved successfully");
                          ("originalKey", JStr originalKey);
                          ("approvedBy", adminUsername s);
                          ("s3Bucket", JStr S3_BUCKETS_media)]), w')
    | (Throw e, w') =>
        (Ok (respond 500 [("error", JStr "Failed to approve content")]),
         logged_error "Content approval error:" e w')
    end.
Proof.
  intros Hkey Hne Hs originalKey command.
  unfold approve, try_catch. rewrite Hkey, (truthy_nonempty key Hne).
  cbn [negb].
  erewrite bind_ok by reflexivity.
  erewrite bind_ok
    by exact (generateS3Key_stage approved_original _ _ _ w).
  erewrite bind_ok by reflexivity.
  erewrite bind_ok by (apply get_session_ok; exact Hs).
  unfold mbind, M_bind, mret, M_ret.
  change (S3.send _ _) with (S3.send command (set_ticks (S (S (ticks w))) w)).
  destruct (S3.send command _) as [[out|e] w']; reflexivity.
Qed.

(** C3.  Approve, for a session that passes the gate, with
    [s3Key = "pending-uploads/u1/property-42/images/photo.jpg"],
    [userId = "u1"] and [propertyId = "42"]: the one call it sends is a
    copy inside the media bucket from that key to
    ["approved-content/u1/property-42/original/photo.jpg"]; whatever the
    outcome, the object under [s3Key] is after the request what it was
    before; the answer is either the success record with that
    [originalKey] or the 500 failure, and it is the success record, with
    the source object copied under [originalKey], when the source object
    exists and the call reaches the store. *)
Theorem C3_approve_copies_to_original_key (contentId : string)
    (body : list (string * JsVal)) (w : World) (s : Session) :
  session w = Some s ->
  gate_passes w = true ->
  Js.assoc "s3Key" body = JStr "pending-uploads/u1/property-42/images/photo.jpg" ->
  Js.assoc "userId" body = JStr "u1" ->
  Js.assoc "propertyId" body = JStr "42" ->
  let source := "pending-uploads/u1/property-42/images/photo.jpg" in
  let originalKey := "approved-content/u1/property-42/original/photo.jpg" in
  let approved :=
    respond 200 [("success", JBool true);
                 ("message", JStr "Content approved successfully");
                 ("originalKey", JStr originalKey);
                 ("approvedBy", adminUsername s);
                 ("s3Bucket", JStr "renthabit-media")] in
  exists (r : HttpResponse) (w' : World) (metadata : list (string * JsVal)),
    approve_route contentId body w = (Ok r, w')
    /\ s3_calls w'
       = (s3_calls w
          ++ [CopyObjectCommand
                (mkCopy "renthabit-media"
                   "renthabit-media/pending-uploads/u1/property-42/images/photo.jpg"
                   originalKey metadata)])%list
    /\ (forall bucket : string,
          S3.get_object (buckets w') bucket source
          = S3.get_object (buckets w) bucket source)
    /\ (r = approved
        \/ r = respond 500 [("error", JStr "Failed to approve content")])
    /\ (forall o : S3Object,
          S3.get_object (buckets w) "renthabit-media" source = Some o ->
          faults w (List.length (s3_calls w)) = false ->
          r = approved
          /\ S3.get_object (buckets w') "renthabit-media" originalKey = Some o).
Proof.
  intros Hs Hgate Hkey Huser Hprop source originalKey approved.
  unfold approve_route. rewrite (admin_route_admitted _ w Hgate).
  rewrite (approve_sends_one_copy contentId body source (after_gate w) _
             Hkey ltac:(discriminate) (after_gate_session w s Hs)).
  rewrite Huser, Hprop.
  assert (Hk : (key_prefix approved_original (JStr "u1") (JStr "42")
                  (clock (after_gate w) (ticks (after_gate w)))
                ++ JsString.replace_outside_class
                     (JsString.pop (JsString.split "/" source)))%string
               = originalKey) by reflexivity.
  rewrite Hk.
  destruct (after_gate_store w) as (Hb & Hc & Hf & _).
  match goal with
  | |- context [S3.send (CopyObjectCommand ?i) ?w0] =>
      set (input := i); set (w2 := w0)
  end.
  assert (Hb2 : buckets w2 = buckets w) by exact Hb.
  assert (Hc2 : s3_calls w2 = s3_calls w) by exact Hc.
  assert (Hf2 : faults w2 = faults w) by exact Hf.
  pose proof (send_calls (CopyObjectCommand input) w2) as Hcalls.
  rewrite Hc2 in Hcalls.
  assert (Hframe : forall bucket : string,
            S3.get_object (buckets (snd (S3.send (CopyObjectCommand input) w2)))
              bucket source
            = S3.get_object (buckets w) bucket source).
  { intros bucket. rewrite <- Hb2. apply send_copy_frame.
    cbn. intros [=]. }
  assert (Hgood : forall o : S3Object,
            S3.get_object (buckets w) "renthabit-media" source = Some o ->
            faults w (List.length (s3_calls w)) = false ->
            exists b', S3.send (CopyObjectCommand input) w2
                       = (Ok S3.CopyObjectOutput, b')
                       /\ S3.get_object (buckets b') "renthabit-media" originalKey
                          = Some o).
  { intros o Ho Hfault.
    assert (Hmedia : exists dest, buckets w !! S3_BUCKETS_media = Some dest).
    { unfold S3.get_object in Ho.
      destruct (buckets w !! "renthabit-media") as [dest|] eqn:Hd;
        [exists dest; exact Hd|discriminate]. }
    destruct Hmedia as [dest Hdest].
    rewrite send_reaches by (rewrite Hf2, Hc2; exact Hfault).
    rewrite Hb2.
    rewrite (exec_copy_from_media input (buckets w) source o dest
               eq_refl Ho Hdest ltac:(cbn; intros [=])).
    eexists. split; [reflexivity|]. cbn. apply get_object_insert. }
  destruct (S3.send (CopyObjectCommand input) w2) as [[out|e] w3] eqn:Hsend.
  - exists approved, w3, (copy_Metadata input).
    cbn [snd] in Hcalls, Hframe.
    split; [reflexivity|]. split; [exact Hcalls|]. split; [exact Hframe|].
    split; [left; reflexivity|].
    intros o Ho Hfault. split; [reflexivity|].
    destruct (Hgood o Ho Hfault) as (b' & [= _ <-] & Hput). exact Hput.
  - exists (respond 500 [("error", JStr "Failed to approve content")]),
      (logged_error "Content approval error:" e w3), (copy_Metadata input).
    cbn [snd] in Hcalls, Hframe.
    split; [reflexivity|]. split; [exact Hcalls|]. split; [exact Hframe|].
    split; [right; reflexivity|].
    intros o Ho Hfault. destruct (Hgood o Ho Hfault) as (b' & [=] & _).
Qed.

Lemma C3_approve_copies_to_original_key_witness :
  fst (approve_route "c-17"
         [("s3Key", JStr "pending-uploads/u1/property-42/images/photo.jpg");
          ("userId", JStr "u1"); ("propertyId", JStr "42")]
         (Sample.world (Some Sample.admin)))
  = Ok (respond 200 [("success", JBool true);
                     ("message", JStr "Content approved successfully");
                     ("originalKey",
                      JStr "approved-content/u1/property-42/original/photo.jpg");
                     ("approvedBy", JStr "admin");
                     ("s3Bucket", JStr "renthabit-media")]).
Proof.
  destruct (C3_approve_copies_to_original_key "c-17"
              [("s3Key", JStr "pending-uploads/u1/property-42/images/photo.jpg");
               ("userId", JStr "u1"); ("propertyId", JStr "42")]
              (Sample.world (Some Sample.admin)) Sample.admin
              eq_refl eq_refl eq_refl eq_refl eq_refl)
    as (r & w' & metadata & Hrun & _ & _ & _ & Hgood).
  rewrite Hrun. cbn [fst]. f_equal.
  apply (Hgood Sample.photo); reflexivity.
Defined.

(** ** File names and featured keys *)

Lemma split_nonempty (sep : ascii) (s : string) : JsString.split sep s <> [].
Proof.
  destruct s as [|c s]; simpl; [discriminate|].
  destruct (Ascii.eqb c sep); [discriminate|].
  destruct (JsString.split sep s); discriminate.
Qed.

Lemma split_app (sep : ascii) (a b : string) :
  JsString.split sep (a ++ String sep b)
  = (JsString.split sep a ++ JsString.split sep b)%list.
Proof.
  induction a as [|c a IH]; simpl.
  - rewrite Ascii.eqb_refl. reflexivity.
  - destruct (Ascii.eqb c sep).
    + rewrite IH. reflexivity.
    + rewrite IH.
      pose proof (split_nonempty sep a) as Hne.
      destruct (JsString.split sep a) as [|h t]; [contradiction|reflexivity].
Qed.

Lemma split_absent (sep : ascii) (s : string) :
  JsString.includes sep s = false -> JsString.split sep s = [s].
Proof.
  induction s as [|c s IH]; simpl; [reflexivity|].
  destruct (Ascii.eqb c sep); simpl; [discriminate|].
  intros Hs. rewrite (IH Hs). reflexivity.
Qed.

Lemma last_app_nonempty {A : Type} (l1 l2 : list A) (d : A) :
  l2 <> [] -> List.last (l1 ++ l2) d = List.last l2 d.
Proof.
  intros Hne. induction l1 as [|x l1 IH]; [reflexivity|].
  cbn [app]. rewrite <- IH.
  destruct (l1 ++ l2)%list eqn:E; [|reflexivity].
  apply app_eq_nil in E. destruct E as [_ E]. contradiction.
Qed.

(** The last segment of a path that ends in [/name]. *)
Lemma pop_split_suffix (dir name : string) :
  JsString.includes "/" name = false ->
  JsString.pop (JsString.split "/" (dir ++ String "/" name)) = name.
Proof.
  intros Hname. unfold JsString.pop.
  rewrite split_app, last_app_nonempty by apply split_nonempty.
  rewrite (split_absent "/" name Hname). reflexivity.
Qed.

Lemma digit_is_date_char (c : ascii) : is_digit c = true -> is_date_char c = true.
Proof. unfold is_date_char. intros ->. reflexivity. Qed.

Lemma all_chars_weaken (p q : ascii -> bool) (s : string) :
  (forall c, p c = true -> q c = true) ->
  JsString.all_chars p s = true -> JsString.all_chars q s = true.
Proof.
  intros Hpq. induction s as [|c s IH]; simpl; [reflexivity|].
  intros [Hc Hs]%andb_true_iff. rewrite (Hpq c Hc), (IH Hs). reflexivity.
Qed.

Lemma digits_date_chars (k : nat) (n : Z) :
  JsString.all_chars is_date_char (JsDate.digits k n) = true.
Proof.
  apply (all_chars_weaken is_digit); [apply digit_is_date_char|].
  apply digits_all_digits.
Qed.

Lemma date_string_chars (t : Z) :
  JsString.all_chars is_date_char (JsDate.date_string t) = true.
Proof.
  unfold JsDate.date_string.
  destruct (JsDate.civil_from_days _) as [[y m] d].
  rewrite !all_chars_app, !digits_date_chars. simpl. rewrite andb_true_r.
  unfold JsDate.year_string.
  destruct (_ && _); [apply digits_date_chars|].
  rewrite all_chars_app, digits_date_chars.
  destruct (y <? 0); reflexivity.
Qed.

(** A featured key is never the key of the object it is derived from:
    its last segment is longer than the file name it embeds. *)
Lemma featured_key_differs (key : string) (userId propertyId : JsVal) (now : Z) :
  key <> (key_prefix featured userId propertyId now
          ++ JsString.replace_outside_class
               (JsString.pop (JsString.split "/" key)))%string.
Proof.
  intros Heq.
  set (fileName := JsString.pop (JsString.split "/" key)) in *.
  set (name := (JsDate.date_string now ++ "_"
                ++ JsString.replace_outside_class fileName)%string).
  assert (Hkey : key = ("featured-showcase/curated-properties"
                        ++ String "/" name)%string).
  { rewrite Heq at 1. unfold name. cbn.
    repeat (progress (rewrite ?append_assoc; simpl)). reflexivity. }
  assert (Hname : JsString.includes "/" name = false).
  { unfold name. rewrite !includes_app.
    rewrite (all_chars_excludes is_date_char "/" _ eq_refl (date_string_chars now)).
    rewrite (all_chars_excludes in_key_class "/" _ eq_refl
               (replace_outside_class_clean fileName)).
    reflexivity. }
  assert (Hpop : fileName = name).
  { unfold fileName at 1. rewrite Hkey. apply pop_split_suffix, Hname. }
  apply (f_equal String.length) in Hpop. unfold name in Hpop.
  rewrite !length_append, replace_outside_class_length in Hpop.
  simpl in Hpop. lia.
Qed.

(** *** The date of a day number *)

Lemma DayFromYear_era (y era : Z) :
  JsDate.DayFromYear (y + era * 400) = JsDate.DayFromYear y + era * 146097.
Proof. unfold JsDate.DayFromYear. Z.div_mod_to_equations. lia. Qed.

Lemma InLeapYear_era (y era : Z) :
  JsDate.InLeapYear (y + era * 400) = JsDate.InLeapYear y.
Proof.
  unfold JsDate.InLeapYear.
  replace ((y + era * 400) mod 4) with (y mod 4) by (Z.div_mod_to_equations; lia).
  replace ((y + era * 400) mod 100) with (y mod 100) by (Z.div_mod_to_equations; lia).
  replace ((y + era * 400) mod 400) with (y mod 400) by (Z.div_mod_to_equations; lia).
  reflexivity.
Qed.

(** Closed sums and differences of the month arithmetic. *)
Ltac month_numerals :=
  repeat match goal with
  | |- context [?a + 3] =>
      match a with 0 => idtac | Zpos _ => idtac end;
      let v := eval vm_compute in (a + 3) in change (a + 3) with v
  | |- context [?a - 9] =>
      match a with Zpos _ => idtac end;
      let v := eval vm_compute in (a - 9) in change (a - 9) with v
  end.

(** Within one era of 400 years, counted from a first of March. *)
Lemma civil_within_era (doe : Z) :
  0 <= doe <= 146096 ->
  let yoe := (doe - doe / 1460 + doe / 36524 - doe / 146096) / 365 in
  let doy := doe - (365 * yoe + yoe / 4 - yoe / 100) in
  let mp := (5 * doy + 2) / 153 in
  let d := doy - (153 * mp + 2) / 5 + 1 in
  let m := if mp <? 10 then mp + 3 else mp - 9 in
  let y := yoe + (if m <=? 2 then 1 else 0) in
  JsDate.day_number y m d = doe - 719468 /\ 1 <= d <= JsDate.month_length y m.
Proof.
  intros Hdoe yoe doy mp d m y.
  assert (Hyoe : 0 <= yoe <= 399) by (subst yoe; Z.div_mod_to_equations; lia).
  assert (Hdoy : 0 <= doy <= 365) by (subst doy yoe; Z.div_mod_to_equations; lia).
  assert (Hmp : 0 <= mp <= 11) by (subst mp; Z.div_mod_to_equations; lia).
  unfold JsDate.day_number, JsDate.DayFromYear, JsDate.days_before_month,
    JsDate.month_length, JsDate.InLeapYear.
  assert (Hcase : mp = 0 \/ mp = 1 \/ mp = 2 \/ mp = 3 \/ mp = 4 \/ mp = 5
                  \/ mp = 6 \/ mp = 7 \/ mp = 8 \/ mp = 9 \/ mp = 10 \/ mp = 11)
    by lia.
  subst y m d.
  destruct Hcase as [H|[H|[H|[H|[H|[H|[H|[H|[H|[H|[H|H]]]]]]]]]]]; rewrite H;
    cbn -[Z.div Z.modulo Z.mul Z.add Z.sub Z.eqb];
    month_numerals;
    cbn -[Z.div Z.modulo Z.mul Z.add Z.sub Z.eqb].
  all: try (destruct (_ mod 4 =? 0) eqn:E4;
            [apply Z.eqb_eq in E4|apply Z.eqb_neq in E4];
            (destruct (_ mod 100 =? 0) eqn:E100;
             [apply Z.eqb_eq in E100|apply Z.eqb_neq in E100]);
            (destruct (_ mod 400 =? 0) eqn:E400;
             [apply Z.eqb_eq in E400|apply Z.eqb_neq in E400]);
            cbn [negb andb orb]).
  all: subst mp doy yoe; Z.div_mod_to_equations; lia.
Qed.

(** [civil_from_days] gives the date of the day number: a month, a day
    of that month, and a year in which that date has this day number. *)
Lemma civil_from_days_correct (days : Z) :
  let '(y, m, d) := JsDate.civil_from_days days in
  JsDate.day_number y m d = days
  /\ 1 <= m <= 12
  /\ 1 <= d <= JsDate.month_length y m.
Proof.
  unfold JsDate.civil_from_days.
  set (z := days + 719468). set (era := z / 146097).
  set (doe := z - era * 146097).
  assert (Hdoe : 0 <= doe <= 146096)
    by (subst doe era; Z.div_mod_to_equations; lia).
  pose proof (civil_within_era doe Hdoe) as H. cbv zeta in H |- *.
  set (yoe := (doe - doe / 1460 + doe / 36524 - doe / 146096) / 365) in *.
  set (doy := doe - (365 * yoe + yoe / 4 - yoe / 100)) in *.
  set (mp := (5 * doy + 2) / 153) in *.
  set (m := if mp <? 10 then mp + 3 else mp - 9) in *.
  replace (yoe + era * 400 + (if m <=? 2 then 1 else 0))
    with (yoe + (if m <=? 2 then 1 else 0) + era * 400) by lia.
  unfold JsDate.day_number, JsDate.month_length in *. rewrite DayFromYear_era.
  unfold JsDate.days_before_month in *. rewrite !InLeapYear_era.
  destruct H as [H1 H2]. split; [subst doe z; lia|]. split; [|exact H2].
  subst m. destruct (mp <? 10) eqn:E; [apply Z.ltb_lt in E|apply Z.ltb_ge in E];
    subst mp doy yoe; Z.div_mod_to_equations; lia.
Qed.

Lemma civil_from_days_in_four_digit_years (days : Z) :
  -719528 <= days <= 2932896 ->
  let '(y, m, d) := JsDate.civil_from_days days in
  0 <= y <= 9999 /\ 1 <= m <= 12 /\ 1 <= d <= 31.
Proof.
  intros Hdays. unfold JsDate.civil_from_days.
  destruct (_ <? 10) eqn:E1;
    [apply Z.ltb_lt in E1|apply Z.ltb_ge in E1];
    (destruct (_ <=? 2) eqn:E2;
     [apply Z.leb_le in E2|apply Z.leb_gt in E2]).
  all: Z.div_mod_to_equations; lia.
Qed.

(** From 0000-01-01T00:00:00.000Z to 9999-12-31T23:59:59.999Z the date
    part of the ISO string has the shape [YYYY-MM-DD]. *)
Lemma date_string_shape (t : Z) :
  -62167219200000 <= t <= 253402300799999 ->
  is_iso_date (JsDate.date_string t) = true.
Proof.
  intros Ht. unfold JsDate.date_string.
  assert (Hdays : -719528 <= t / JsDate.msPerDay <= 2932896).
  { unfold JsDate.msPerDay. Z.div_mod_to_equations. lia. }
  pose proof (civil_from_days_in_four_digit_years _ Hdays) as Hciv.
  destruct (JsDate.civil_from_days _) as [[y m] d].
  destruct Hciv as (Hy & _ & _).
  unfold JsDate.year_string.
  replace ((0 <=? y) && (y <=? 9999)) with true
    by (symmetry; apply andb_true_iff; split; apply Z.leb_le; lia).
  cbn. rewrite !digit_is_digit. reflexivity.
Qed.

(** In those years the date part spells, in four, two and two digits,
    the year, month and day of the UTC date of [t]: the date whose day
    number is [t / msPerDay]. *)
Lemma date_string_utc_date (t : Z) :
  -62167219200000 <= t <= 253402300799999 ->
  exists y m d : Z,
    JsDate.date_string t
    = (JsDate.digits 4 y ++ "-" ++ JsDate.digits 2 m ++ "-"
       ++ JsDate.digits 2 d)%string
    /\ 0 <= y <= 9999
    /\ 1 <= m <= 12
    /\ 1 <= d <= JsDate.month_length y m
    /\ JsDate.day_number y m d = t / JsDate.msPerDay
    /\ is_iso_date (JsDate.date_string t) = true.
Proof.
  intros Ht.
  pose proof (date_string_shape t Ht) as Hshape.
  unfold JsDate.date_string in *.
  assert (Hdays : -719528 <= t / JsDate.msPerDay <= 2932896).
  { unfold JsDate.msPerDay. Z.div_mod_to_equations. lia. }
  pose proof (civil_from_days_in_four_digit_years _ Hdays) as Hrange.
  pose proof (civil_from_days_correct (t / JsDate.msPerDay)) as Hdate.
  destruct (JsDate.civil_from_days _) as [[y m] d].
  destruct Hrange as (Hy & _ & _). destruct Hdate as (Hnumber & Hm & Hd).
  exists y, m, d. unfold JsDate.year_string in *.
  replace ((0 <=? y) && (y <=? 9999)) with true in *
    by (symmetry; apply andb_true_iff; split; apply Z.leb_le; lia).
  auto 10.
Qed.

(** ** Feature *)

Lemma send_keeps (c : S3Command) (w : World) :
  clock (snd (S3.send c w)) = clock w
  /\ ticks (snd (S3.send c w)) = ticks w
  /\ session (snd (S3.send c w)) = session w
  /\ faults (snd (S3.send c w)) = faults w.
Proof.
  unfold S3.send. destruct (faults w _); [repeat split|].
  destruct (S3.exec c (buckets w)). repeat split.
Qed.

(** The two copies of feature, in their order, and its three answers. *)
Lemma feature_sends_two_copies (contentId : string) (body : list (string * JsVal))
    (key priorityText : string) (w : World) (s : Session) :
  Js.assoc "s3Key" body = JStr key ->
  key <> "" ->
  session w = Some s ->
  Js.toString (Js.default_to (JNum 1) (Js.assoc "priority" body)) = Ok priorityText ->
  let fileName := JsString.pop (JsString.split "/" key) in
  let featuredKey :=
    (key_prefix featured (Js.assoc "userId" body) (Js.assoc "propertyId" body)
       (clock w (ticks w))
     ++ JsString.replace_outside_class fileName)%string in
  let publicKey :=
    ("assets/properties/" ++ Js.to_string (Js.assoc "propertyId" body) ++ "/"
     ++ fileName)%string in
  let first_copy :=
    CopyObjectCommand
      (mkCopy S3_BUCKETS_media (S3_BUCKETS_media ++ "/" ++ key)%string featuredKey
         [("status", JStr "featured");
          ("featuredDate", JStr (JsDate.toISOString (clock w (S (ticks w)))));
          ("position", Js.default_to (JStr "gallery") (Js.assoc "position" body));
          ("priority", JStr priorityText);
          ("featuredBy", adminUsername s)]) in
  let second_copy :=
    CopyObjectCommand
      (mkCopy S3_BUCKETS_web (S3_BUCKETS_media ++ "/" ++ key)%string publicKey
         [("source", JStr "featured");
          ("featuredDate",
           JStr (JsDate.toISOString (clock w (S (S (ticks w))))))]) in
  let failed :=
    respond 500 [("error", JStr "Failed to feature content")] in
  feature contentId body w
  = match S3.send first_copy (set_ticks (S (S (ticks w))) w) with
    | (Throw e, w1) => (Ok failed, logged_error "Content featuring error:" e w1)
    | (Ok _, w1) =>
        match S3.send second_copy (set_ticks (S (S (S (ticks w)))) w1) with
        | (Throw e, w2) => (Ok failed, logged_error "Content featuring error:" e w2)
        | (Ok _, w2) =>
            (Ok (respond 200 [("success", JBool true);
                              ("message", JStr "Content featured successfully");
                              ("featuredKey", JStr featuredKey);
                              ("publicKey", JStr publicKey);
                              ("featuredBy", adminUsername s);
                              ("buckets", S3_BUCKETS)]), w2)
        end
    end.
Proof.
  intros Hkey Hne Hs Hprio fileName featuredKey publicKey first_copy second_copy failed.
  unfold feature, try_catch. rewrite Hkey, (truthy_nonempty key Hne).
  cbn [negb].
  erewrite bind_ok by reflexivity.
  erewrite bind_ok by exact (generateS3Key_stage featured _ _ _ w).
  erewrite bind_ok by reflexivity.
  erewrite bind_ok by (unfold lift; rewrite Hprio; reflexivity).
  erewrite bind_ok by (apply get_session_ok; exact Hs).
  change (S3.send _ ≫= _)
    with (S3.send first_copy ≫= fun _ : S3.Output =>
            publicDate ← new_Date;
            S3.send
              (CopyObjectCommand
                 (mkCopy S3_BUCKETS_web (S3_BUCKETS_media ++ "/" ++ key)%string
                    publicKey
                    [("source", JStr "featured");
                     ("featuredDate", JStr (JsDate.toISOString publicDate))]));;
            s' ← get_session;
            mret (respond 200 [("success", JBool true);
                               ("message", JStr "Content featured successfully");
                               ("featuredKey", JStr featuredKey);
                               ("publicKey", JStr publicKey);
                               ("featuredBy", adminUsername s');
                               ("buckets", S3_BUCKETS)])).
  change (set_ticks _ (set_ticks _ w)) with (set_ticks (S (S (ticks w))) w).
  pose proof (send_keeps first_copy (set_ticks (S (S (ticks w))) w))
    as (Hclock & Hticks & Hsession & _).
  destruct (S3.send first_copy _) as [[out|e] w1] eqn:Hfirst.
  - cbn [snd] in Hclock, Hticks, Hsession.
    erewrite bind_ok by exact Hfirst.
    erewrite bind_ok by reflexivity.
    rewrite Hclock, Hticks. cbn [clock ticks set_ticks].
    change (S3.send _ ≫= _)
      with (S3.send second_copy ≫= fun _ : S3.Output =>
              s' ← get_session;
              mret (respond 200 [("success", JBool true);
                                 ("message", JStr "Content featured successfully");
                                 ("featuredKey", JStr featuredKey);
                                 ("publicKey", JStr publicKey);
                                 ("featuredBy", adminUsername s');
                                 ("buckets", S3_BUCKETS)])).
    pose proof (send_keeps second_copy (set_ticks (S (S (S (ticks w)))) w1))
      as (_ & _ & Hsession2 & _).
    destruct (S3.send second_copy _) as [[out2|e] w2] eqn:Hsecond.
    + cbn [snd] in Hsession2.
      erewrite bind_ok by exact Hsecond.
      erewrite bind_ok
        by (apply get_session_ok; rewrite Hsession2; cbn; rewrite Hsession; exact Hs).
      reflexivity.
    + erewrite bind_throw by exact Hsecond. reflexivity.
  - erewrite bind_throw by exact Hfirst. reflexivity.
Qed.

Lemma send_copy_lands (i : CopyObjectInput) (w : World) (key : string)
    (o : S3Object) (dest : gmap string S3Object) :
  copy_CopySource i = (S3_BUCKETS_media ++ "/" ++ key)%string ->
  S3.get_object (buckets w) S3_BUCKETS_media key = Some o ->
  buckets w !! copy_Bucket i = Some dest ->
  (S3_BUCKETS_media, key) <> (copy_Bucket i, copy_Key i) ->
  faults w (List.length (s3_calls w)) = false ->
  S3.send (CopyObjectCommand i) w
  = (Ok S3.CopyObjectOutput,
     set_buckets (<[copy_Bucket i := <[copy_Key i := o]> dest]> (buckets w))
                 (set_s3_calls (s3_calls w ++ [CopyObjectCommand i]) w)).
Proof.
  intros Hsrc Ho Hdest Hne Hfault.
  rewrite (send_reaches _ w Hfault).
  rewrite (exec_copy_from_media i (buckets w) key o dest Hsrc Ho Hdest Hne).
  reflexivity.
Qed.

Lemma send_copy_without_bucket (i : CopyObjectInput) (w : World) (key : string) :
  copy_CopySource i = (S3_BUCKETS_media ++ "/" ++ key)%string ->
  buckets w !! copy_Bucket i = None ->
  faults w (List.length (s3_calls w)) = false ->
  S3.send (CopyObjectCommand i) w
  = (Throw (ServiceError "NoSuchBucket"),
     set_buckets (buckets w)
                 (set_s3_calls (s3_calls w ++ [CopyObjectCommand i]) w)).
Proof.
  intros Hsrc Hdest Hfault.
  rewrite (send_reaches _ w Hfault). unfold S3.exec.
  rewrite Hsrc.
  change (S3_BUCKETS_media ++ "/" ++ key)%string
    with (S3_BUCKETS_media ++ String "/" key)%string.
  rewrite parse_CopySource_bucket by reflexivity.
  rewrite Hdest. reflexivity.
Qed.

Lemma priority_text (v : JsVal) :
  v <> JNull ->
  Js.hides_toString v = false ->
  exists text : string, Js.toString (Js.default_to (JNum 1) v) = Ok text.
Proof.
  intros Hv Hh. destruct v; try contradiction; try (eexists; reflexivity).
  unfold Js.toString. cbn [Js.default_to]. rewrite Hh. eexists. reflexivity.
Qed.

Lemma media_object_bucket (b : gmap string (gmap string S3Object))
    (key : string) (o : S3Object) :
  S3.get_object b S3_BUCKETS_media key = Some o ->
  exists objects, b !! S3_BUCKETS_media = Some objects.
Proof.
  unfold S3.get_object.
  destruct (b !! S3_BUCKETS_media) as [objects|]; [eauto|discriminate].
Qed.

(** Feature behind the gate, for the object under [key]: the calls it
    sends and what becomes of the two buckets. *)
Lemma feature_route_outcomes (contentId : string) (body : list (string * JsVal))
    (key : string) (w : World) (s : Session) :
  session w = Some s ->
  gate_passes w = true ->
  Js.assoc "s3Key" body = JStr key ->
  key <> "" ->
  Js.assoc "priority" body <> JNull ->
  Js.hides_toString (Js.assoc "priority" body) = false ->
  let fileName := JsString.pop (JsString.split "/" key) in
  let featuredKey :=
    (key_prefix featured (Js.assoc "userId" body) (Js.assoc "propertyId" body)
       (clock w (S (S (ticks w))))
     ++ JsString.replace_outside_class fileName)%string in
  let publicKey :=
    ("assets/properties/" ++ Js.to_string (Js.assoc "propertyId" body) ++ "/"
     ++ fileName)%string in
  let featured_record :=
    respond 200 [("success", JBool true);
                 ("message", JStr "Content featured successfully");
                 ("featuredKey", JStr featuredKey);
                 ("publicKey", JStr publicKey);
                 ("featuredBy", adminUsername s);
                 ("buckets", S3_BUCKETS)] in
  let failed := respond 500 [("error", JStr "Failed to feature content")] in
  let n := List.length (s3_calls w) in
  exists metadata1 metadata2 : list (string * JsVal),
    let first_copy :=
      CopyObjectCommand
        (mkCopy S3_BUCKETS_media (S3_BUCKETS_media ++ "/" ++ key)%string
           featuredKey metadata1) in
    let second_copy :=
      CopyObjectCommand
        (mkCopy S3_BUCKETS_web (S3_BUCKETS_media ++ "/" ++ key)%string
           publicKey metadata2) in
    (exists r w',
       feature_route contentId body w = (Ok r, w')
       /\ (r = featured_record \/ r = failed)
       /\ (s3_calls w' = (s3_calls w ++ [first_copy])%list
           \/ s3_calls w' = (s3_calls w ++ [first_copy; second_copy])%list))
    /\ (forall o : S3Object,
          S3.get_object (buckets w) S3_BUCKETS_media key = Some o ->
          faults w n = false ->
          (faults w (S n) = true \/ buckets w !! S3_BUCKETS_web = None) ->
          exists w',
            feature_route contentId body w = (Ok failed, w')
            /\ s3_calls w' = (s3_calls w ++ [first_copy; second_copy])%list
            /\ S3.get_object (buckets w') S3_BUCKETS_media featuredKey = Some o
            /\ buckets w' !! S3_BUCKETS_web = buckets w !! S3_BUCKETS_web)
    /\ (forall (o : S3Object) (public : gmap string S3Object),
          S3.get_object (buckets w) S3_BUCKETS_media key = Some o ->
          buckets w !! S3_BUCKETS_web = Some public ->
          faults w n = false ->
          faults w (S n) = false ->
          exists w',
            feature_route contentId body w = (Ok featured_record, w')
            /\ s3_calls w' = (s3_calls w ++ [first_copy; second_copy])%list
            /\ S3.get_object (buckets w') S3_BUCKETS_media featuredKey = Some o
            /\ S3.get_object (buckets w') S3_BUCKETS_web publicKey = Some o).
Proof.
  intros Hs Hgate Hkey Hne Hprio Hcallable fileName featuredKey publicKey
    featured_record failed n.
  destruct (priority_text _ Hprio Hcallable) as [text Htext].
  destruct (after_gate_store w) as (Hb & Hc & Hf & Hclk).
  pose proof (after_gate_ticks w Hgate) as Htk.
  pose proof (feature_sends_two_copies contentId body key text (after_gate w) _
                Hkey Hne (after_gate_session w s Hs) Htext) as Hrun.
  cbn zeta in Hrun. rewrite Hclk, Htk in Hrun.
  change (adminUsername (with_lastActivity _ s)) with (adminUsername s) in Hrun.
  fold fileName featuredKey publicKey in Hrun.
  match type of Hrun with
  | context [S3.send (CopyObjectCommand (mkCopy S3_BUCKETS_media _ _ ?m1)) ?w0] =>
      match type of Hrun with
      | context [S3.send (CopyObjectCommand (mkCopy S3_BUCKETS_web _ _ ?m2))] =>
          exists m1, m2; set (w2 := w0) in *
      end
  end.
  intros first_copy second_copy. fold first_copy second_copy in Hrun.
  unfold feature_route. rewrite (admin_route_admitted _ w Hgate), Hrun. clear Hrun.
  assert (Hb2 : buckets w2 = buckets w) by exact Hb.
  assert (Hc2 : s3_calls w2 = s3_calls w) by exact Hc.
  assert (Hf2 : faults w2 = faults w) by exact Hf.
  (* the first copy, when the source is there and the call gets through *)
  assert (Hfirst : forall o : S3Object,
            S3.get_object (buckets w) S3_BUCKETS_media key = Some o ->
            faults w n = false ->
            exists objects,
              buckets w !! S3_BUCKETS_media = Some objects
              /\ S3.send first_copy w2
                 = (Ok S3.CopyObjectOutput,
                    set_buckets
                      (<[S3_BUCKETS_media := <[featuredKey := o]> objects]> (buckets w))
                      (set_s3_calls (s3_calls w ++ [first_copy]) w2))).
  { intros o Ho Hfault.
    destruct (media_object_bucket _ _ _ Ho) as [objects Hobjects].
    exists objects. split; [exact Hobjects|].
    unfold first_copy.
    match goal with
    | |- S3.send (CopyObjectCommand ?i) _ = _ =>
        rewrite (send_copy_lands i w2 key o objects eq_refl)
    end; rewrite ?Hb2, ?Hc2, ?Hf2; try assumption; [reflexivity|].
    intros Heq. apply (f_equal snd) in Heq.
    exact (featured_key_differs key (Js.assoc "userId" body)
             (Js.assoc "propertyId" body) (clock w (S (S (ticks w)))) Heq). }
  split; [|split].
  - pose proof (send_calls first_copy w2) as Hcalls1. rewrite Hc2 in Hcalls1.
    destruct (S3.send first_copy w2) as [[out|e] w3]; cbn [snd] in Hcalls1.
    + pose proof (send_calls second_copy (set_ticks (S (S (S (S (S (ticks w)))))) w3))
        as Hcalls2.
      change (s3_calls (set_ticks _ w3)) with (s3_calls w3) in Hcalls2.
      rewrite Hcalls1, <- app_assoc in Hcalls2. cbn [app] in Hcalls2.
      destruct (S3.send second_copy _) as [[out2|e] w4]; cbn [snd] in Hcalls2;
        do 2 eexists; (split; [reflexivity|]); auto.
    + do 2 eexists. split; [reflexivity|]. auto.
  - intros o Ho Hfault1 Hsecond.
    destruct (Hfirst o Ho Hfault1) as (objects & Hobjects & ->).
    set (w3 := set_ticks _ _).
    assert (Hcalls3 : s3_calls w3 = (s3_calls w ++ [first_copy])%list) by reflexivity.
    assert (Hfault3 : faults w3 (List.length (s3_calls w3)) = faults w (S n)).
    { rewrite Hcalls3, length_app. cbn [List.length]. unfold n.
      replace (length (s3_calls w) + 1)%nat with (S (length (s3_calls w))) by lia.
      change (faults w3) with (faults w2). rewrite Hf2. reflexivity. }
    assert (Hweb3 : buckets w3 !! S3_BUCKETS_web = buckets w !! S3_BUCKETS_web).
    { change (buckets w3)
        with (<[S3_BUCKETS_media := <[featuredKey := o]> objects]> (buckets w)).
      apply lookup_insert_ne. discriminate. }
    assert (Hfeatured3 : S3.get_object (buckets w3) S3_BUCKETS_media featuredKey
                         = Some o).
    { change (buckets w3)
        with (<[S3_BUCKETS_media := <[featuredKey := o]> objects]> (buckets w)).
      apply get_object_insert. }
    destruct (faults w (S n)) eqn:Hfault2.
    + rewrite (send_lost second_copy w3 Hfault3).
      eexists. split; [reflexivity|].
      cbn [s3_calls buckets logged_error set_console set_buckets set_s3_calls].
      rewrite Hcalls3, <- app_assoc.
      split; [reflexivity|]. split; [exact Hfeatured3|exact Hweb3].
    + destruct Hsecond as [Habs|Hnoweb]; [discriminate|].
      unfold second_copy.
      match goal with
      | |- context [S3.send (CopyObjectCommand ?i) _] =>
          rewrite (send_copy_without_bucket i w3 key eq_refl);
            [|cbn [copy_Bucket]; rewrite Hweb3; exact Hnoweb|exact Hfault3]
      end.
      eexists. split; [reflexivity|].
      cbn [s3_calls buckets logged_error set_console set_buckets set_s3_calls].
      rewrite Hcalls3, <- app_assoc.
      split; [reflexivity|]. split; [exact Hfeatured3|exact Hweb3].
  - intros o public Ho Hweb Hfault1 Hfault2.
    destruct (Hfirst o Ho Hfault1) as (objects & Hobjects & ->).
    set (w3 := set_ticks _ _).
    assert (Hcalls3 : s3_calls w3 = (s3_calls w ++ [first_copy])%list) by reflexivity.
    assert (Hfault3 : faults w3 (List.length (s3_calls w3)) = false).
    { rewrite Hcalls3, length_app. cbn [List.length].
      replace (length (s3_calls w) + 1)%nat with (S (length (s3_calls w))) by lia.
      change (faults w3) with (faults w2). rewrite Hf2. exact Hfault2. }
    assert (Hbuckets3 : buckets w3
              = <[S3_BUCKETS_media := <[featuredKey := o]> objects]> (buckets w))
      by reflexivity.
    assert (Hweb3 : buckets w3 !! S3_BUCKETS_web = Some public).
    { rewrite Hbuckets3, lookup_insert_ne by discriminate. exact Hweb. }
    assert (Hsource3 : S3.get_object (buckets w3) S3_BUCKETS_media key = Some o).
    { rewrite Hbuckets3, get_object_insert_other; [exact Ho|exact Hobjects|].
      intros Heq. apply (f_equal snd) in Heq.
      exact (featured_key_differs key (Js.assoc "userId" body)
               (Js.assoc "propertyId" body) (clock w (S (S (ticks w))))
               (eq_sym Heq)). }
    unfold second_copy.
    match goal with
    | |- context [S3.send (CopyObjectCommand ?i) _] =>
        rewrite (send_copy_lands i w3 key o public eq_refl Hsource3 Hweb3
                   ltac:(cbn; intros [=]) Hfault3)
    end.
    eexists. split; [reflexivity|]. cbn [s3_calls buckets set_buckets set_s3_calls
                                         copy_Bucket copy_Key].
    rewrite Hcalls3, <- app_assoc. split; [reflexivity|].
    split; [|apply get_object_insert].
    rewrite get_object_insert_other; [| exact Hweb3 | intros [=]].
    rewrite Hbuckets3. apply get_object_insert.
Qed.

(** C4.  Feature, for a session that passes the gate, with
    [s3Key = "pending-uploads/u1/property-42/images/photo.jpg"],
    [userId = "u1"] and [propertyId = "42"] (and a priority whose
    [toString] can be called: any but [null] and an object that hides
    [toString]): the destination in the media bucket is
    ["featured-showcase/curated-properties/"], the date part of the ISO
    string of the current time, then ["_photo.jpg"]; for a time in the
    years 0000 to 9999 that date part is the UTC date of the time, as
    [YYYY-MM-DD]; the
    destination in the public bucket is
    ["assets/properties/42/photo.jpg"]; the calls are the copy to the
    first and then the copy to the second; and when the source object
    and the public bucket exist and both calls get through, the answer
    carries both keys and both bucket names and both objects are
    written. *)
Theorem C4_feature_derives_both_keys (contentId : string)
    (body : list (string * JsVal)) (w : World) (s : Session) :
  session w = Some s ->
  gate_passes w = true ->
  Js.assoc "s3Key" body = JStr "pending-uploads/u1/property-42/images/photo.jpg" ->
  Js.assoc "userId" body = JStr "u1" ->
  Js.assoc "propertyId" body = JStr "42" ->
  Js.assoc "priority" body <> JNull ->
  Js.hides_toString (Js.assoc "priority" body) = false ->
  let now := clock w (S (S (ticks w))) in
  let source := "pending-uploads/u1/property-42/images/photo.jpg" in
  let featuredKey :=
    ("featured-showcase/curated-properties/" ++ JsDate.date_string now
     ++ "_photo.jpg")%string in
  let publicKey := "assets/properties/42/photo.jpg" in
  let featured_record :=
    respond 200 [("success", JBool true);
                 ("message", JStr "Content featured successfully");
                 ("featuredKey", JStr featuredKey);
                 ("publicKey", JStr publicKey);
                 ("featuredBy", adminUsername s);
                 ("buckets", JObj [("media", JStr "renthabit-media");
                                   ("web", JStr "renthabit-web-prod")])] in
  let failed := respond 500 [("error", JStr "Failed to feature content")] in
  let n := List.length (s3_calls w) in
  (-62167219200000 <= now <= 253402300799999 ->
   exists y m d : Z,
     JsDate.date_string now
     = (JsDate.digits 4 y ++ "-" ++ JsDate.digits 2 m ++ "-"
        ++ JsDate.digits 2 d)%string
     /\ 0 <= y <= 9999
     /\ 1 <= m <= 12
     /\ 1 <= d <= JsDate.month_length y m
     /\ JsDate.day_number y m d = now / JsDate.msPerDay
     /\ is_iso_date (JsDate.date_string now) = true)
  /\ exists metadata1 metadata2 : list (string * JsVal),
       let first_copy :=
         CopyObjectCommand
           (mkCopy "renthabit-media"
              "renthabit-media/pending-uploads/u1/property-42/images/photo.jpg"
              featuredKey metadata1) in
       let second_copy :=
         CopyObjectCommand
           (mkCopy "renthabit-web-prod"
              "renthabit-media/pending-uploads/u1/property-42/images/photo.jpg"
              publicKey metadata2) in
       (exists r w',
          feature_route contentId body w = (Ok r, w')
          /\ (r = featured_record \/ r = failed)
          /\ (s3_calls w' = (s3_calls w ++ [first_copy])%list
              \/ s3_calls w' = (s3_calls w ++ [first_copy; second_copy])%list))
       /\ (forall (o : S3Object) (public : gmap string S3Object),
             S3.get_object (buckets w) "renthabit-media" source = Some o ->
             buckets w !! "renthabit-web-prod" = Some public ->
             faults w n = false ->
             faults w (S n) = false ->
             exists w',
               feature_route contentId body w = (Ok featured_record, w')
               /\ s3_calls w' = (s3_calls w ++ [first_copy; second_copy])%list
               /\ S3.get_object (buckets w') "renthabit-media" featuredKey = Some o
               /\ S3.get_object (buckets w') "renthabit-web-prod" publicKey = Some o).
Proof.
  intros Hs Hgate Hkey Huser Hprop Hprio Hcallable now source featuredKey publicKey
    featured_record failed n.
  split; [apply date_string_utc_date|].
  pose proof (feature_route_outcomes contentId body source w s
                Hs Hgate Hkey ltac:(discriminate) Hprio Hcallable) as Hrun.
  cbn zeta in Hrun. rewrite Huser, Hprop in Hrun.
  assert (Hk : (key_prefix featured (JStr "u1") (JStr "42") now
                ++ JsString.replace_outside_class
                     (JsString.pop (JsString.split "/" source)))%string
               = featuredKey).
  { unfold featuredKey. cbn.
    repeat (progress (rewrite ?append_assoc; simpl)). reflexivity. }
  fold now in Hrun. rewrite Hk in Hrun.
  destruct Hrun as (metadata1 & metadata2 & Hany & _ & Hgood).
  exists metadata1, metadata2. split; [exact Hany|exact Hgood].
Qed.

Lemma C4_feature_derives_both_keys_witness :
  fst (feature_route "c-17"
         [("s3Key", JStr "pending-uploads/u1/property-42/images/photo.jpg");
          ("userId", JStr "u1"); ("propertyId", JStr "42")]
         (Sample.world (Some Sample.admin)))
  = Ok (respond 200
          [("success", JBool true);
           ("message", JStr "Content featured successfully");
           ("featuredKey",
            JStr "featured-showcase/curated-properties/2026-11-02_photo.jpg");
           ("publicKey", JStr "assets/properties/42/photo.jpg");
           ("featuredBy", JStr "admin");
           ("buckets", JObj [("media", JStr "renthabit-media");
                             ("web", JStr "renthabit-web-prod")])]).
Proof.
  destruct (C4_feature_derives_both_keys "c-17"
              [("s3Key", JStr "pending-uploads/u1/property-42/images/photo.jpg");
               ("userId", JStr "u1"); ("propertyId", JStr "42")]
              (Sample.world (Some Sample.admin)) Sample.admin
              eq_refl eq_refl eq_refl eq_refl eq_refl ltac:(discriminate) eq_refl)
    as (_ & metadata1 & metadata2 & _ & Hgood).
  destruct (Hgood Sample.photo ∅ eq_refl eq_refl eq_refl eq_refl)
    as (w' & Hrun & _).
  rewrite Hrun. reflexivity.
Defined.



(** A priority that hides [toString] stops feature before its first
    copy, like a [null] one. *)
Example priority_that_hides_toString :
  let run :=
    feature "c-17"
      [("s3Key", JStr Sample.photo_key);
       ("priority", JObj [("toString", JStr "x")])]
      (Sample.world (Some Sample.admin)) in
  fst run = Ok (respond 500 [("error", JStr "Failed to feature content")])
  /\ s3_calls (snd run) = []
  /\ console (snd run) = [ConsoleError "Content featuring error:" TypeError].
Proof. cbv zeta. split; [|split]; vm_compute; reflexivity. Qed.

Example printable_values :
  Js.printable (JNum (10 ^ 21 - 1)) = true
  /\ Js.printable (JNum (10 ^ 21)) = false
  /\ Js.printable (JObj [("id", JNum 7)]) = true
  /\ Js.printable (JObj [("id", JNum 7); ("toString", JNull)]) = false
  /\ Js.to_string (JNum (-42)) = "-42".
Proof. repeat split; vm_compute; reflexivity. Qed.

Example date_shape_needs_four_digit_year :
  is_iso_date (JsDate.date_string 253402300799999) = true
  /\ is_iso_date (JsDate.date_string 253402300800000) = false.
Proof. split; vm_compute; reflexivity. Qed.

(** ** After an expiry *)

(** Once the gate has destroyed the session, the status query of the
    same client starts from a new empty session. *)
Lemma status_after_destroy (w : World) :
  fst (status_route (set_session None w))
  = Ok (respond 200 [("authenticated", JBool false)]).
Proof. reflexivity. Qed.

Example expired_session_then_status :
  let w := Sample.world (Some (mkSession true (JStr "admin") JUndefined
                                 (Some 0) (Some 0))) in
  fst (requireAuth w)
  = Ok (Respond (respond 401 [("error", JStr "Session expired");
                              ("redirectTo", JStr "/admin/login")]))
  /\ fst (status_route (snd (requireAuth w)))
     = Ok (respond 200 [("authenticated", JBool false)]).
Proof. split; vm_compute; reflexivity. Qed.

Example unknown_stage_uses_pending_template :
  fst (generateS3Key "archived" (JStr "u1") (JNum 42) "photo.jpg" (Sample.world None))
  = Ok "pending-uploads/u1/property-42/images/photo.jpg".
Proof. vm_compute. reflexivity. Qed.

(** * Further properties of the router *)

(** ** Login *)

(** Fetching the credentials returns a value and touches nothing but
    the console. *)
Lemma getAdminCredentials_returns (JSON_parse : string -> Res JsVal) (w : World) :
  exists (creds : JsVal) (lines : list LogEntry),
    getAdminCredentials JSON_parse w = (Ok creds, set_console lines w).
Proof.
  unfold getAdminCredentials, try_catch, env_or, Secrets.send, console_error. run.
  destruct (secrets_down w); [do 2 eexists; reflexivity|].
  destruct (secrets w !! _) as [v|]; [|do 2 eexists; reflexivity].
  destruct (SecretString v) as [text|]; [|do 2 eexists; reflexivity].
  destruct (JSON_parse text) as [creds|e]; [|do 2 eexists; reflexivity].
  exists creds, (console w). destruct w; reflexivity.
Qed.

(** A login without a username or without a password, or with an empty
    one, is answered 400 before anything else happens: the credentials
    are not fetched, nothing is logged and the session is not touched. *)
Theorem login_requires_both_fields (JSON_parse : string -> Res JsVal)
    (bcrypt_verify : string -> string -> bool)
    (body : list (string * JsVal)) (w : World) :
  Js.truthy (Js.assoc "username" body) = false
  \/ Js.truthy (Js.assoc "password" body) = false ->
  login JSON_parse bcrypt_verify body w
  = (Ok (respond 400 [("error", JStr "Username and password required")]), w).
Proof.
  intros Hmissing. unfold login, try_catch.
  replace (negb (Js.truthy (Js.assoc "username" body))
           || negb (Js.truthy (Js.assoc "password" body))) with true.
  - reflexivity.
  - symmetry. apply orb_true_iff.
    destruct Hmissing as [-> | ->]; [left|right]; reflexivity.
Qed.

Lemma login_requires_both_fields_witness :
  login Sample.no_json Sample.toy_verify
    [("username", JStr "admin"); ("password", JStr "")]
    (Sample.world_offline (Some fresh_session))
  = (Ok (respond 400 [("error", JStr "Username and password required")]),
     Sample.world_offline (Some fresh_session)).
Proof.
  apply login_requires_both_fields. right. reflexivity.
Defined.

(** The [catch] of login: whatever is thrown after the credentials were
    fetched ends in the 500 answer, with the session as it was. *)
Ltac login_fails :=
  eexists _, _; split; [reflexivity|];
  split; [reflexivity|]; split; [reflexivity|];
  right; split; [cbn; tauto|reflexivity].

(** Login always answers, and with one of four statuses; it never calls
    the object store; it leaves the session as it was unless it answers
    200, and then the session is authenticated, with [loginTime] and
    [lastActivity] the two clock readings it took. *)
Theorem login_always_answers (JSON_parse : string -> Res JsVal)
    (bcrypt_verify : string -> string -> bool)
    (body : list (string * JsVal)) (w : World) :
  exists (r : HttpResponse) (w' : World),
    login JSON_parse bcrypt_verify body w = (Ok r, w')
    /\ buckets w' = buckets w
    /\ s3_calls w' = s3_calls w
    /\ ((status r = 200
         /\ exists s' : Session,
              session w' = Some s'
              /\ adminAuthenticated s' = true
              /\ loginTime s' = Some (clock w (ticks w))
              /\ lastActivity s' = Some (clock w (S (ticks w))))
        \/ (In (status r) [400; 401; 500] /\ session w' = session w)).
Proof.
  destruct (getAdminCredentials_returns JSON_parse w) as (creds & lines & Hcreds).
  unfold login, try_catch.
  destruct (negb _ || negb _); [login_fails|].
  erewrite bind_ok by exact Hcreds.
  destruct (lower_trim (Js.assoc "username" body)) as [given|e] eqn:Egiven;
    [erewrite bind_ok by reflexivity
    |erewrite bind_throw by reflexivity;
     login_fails].
  destruct (Js.get creds "username") as [credsUsername|e] eqn:Ecu;
    [erewrite bind_ok by reflexivity
    |erewrite bind_throw by reflexivity;
     login_fails].
  destruct (lower_trim credsUsername) as [expected|e] eqn:Eexpected;
    [erewrite bind_ok by reflexivity
    |erewrite bind_throw by reflexivity;
     login_fails].
  destruct (Js.get creds "passwordHash") as [passwordHash|e] eqn:Ehash;
    [erewrite bind_ok by reflexivity
    |erewrite bind_throw by reflexivity;
     login_fails].
  destruct (bcrypt_compare bcrypt_verify (Js.assoc "password" body) passwordHash)
    as [validPassword|e] eqn:Evalid;
    [erewrite bind_ok by reflexivity
    |erewrite bind_throw by reflexivity;
     login_fails].
  destruct (String.eqb given expected && validPassword).
  - destruct (session w) as [s0|] eqn:Hs.
    + erewrite bind_ok by (apply get_session_ok; exact Hs).
      destruct (Js.get creds "email") as [credsEmail|e] eqn:Eemail;
        [erewrite bind_ok by reflexivity
        |erewrite bind_throw by reflexivity;
         rewrite <- Hs; login_fails].
      eexists _, _. split; [reflexivity|].
      split; [reflexivity|]. split; [reflexivity|].
      left. split; [reflexivity|]. eexists. repeat split.
    + erewrite bind_throw by (unfold get_session; cbn; rewrite Hs; reflexivity).
      rewrite <- Hs. login_fails.
  - login_fails.
Qed.

(** The run of a login that is accepted. *)
Lemma login_accepted (JSON_parse : string -> Res JsVal)
    (bcrypt_verify : string -> string -> bool)
    (body : list (string * JsVal)) (username password : string)
    (creds : JsVal) (credsUsername passwordHash : string)
    (w w' : World) (s0 : Session) :
  Js.assoc "username" body = JStr username ->
  Js.assoc "password" body = JStr password ->
  username <> "" ->
  password <> "" ->
  getAdminCredentials JSON_parse w = (Ok creds, w') ->
  Js.get creds "username" = Ok (JStr credsUsername) ->
  Js.get creds "passwordHash" = Ok (JStr passwordHash) ->
  JsString.trim (JsString.toLowerCase username)
  = JsString.trim (JsString.toLowerCase credsUsername) ->
  bcrypt_verify password passwordHash = true ->
  session w' = Some s0 ->
  exists credsEmail : JsVal,
    Js.get creds "email" = Ok credsEmail
    /\ login JSON_parse bcrypt_verify body w
       = (Ok (respond 200 [("success", JBool true);
                           ("message", JStr "Authentication successful");
                           ("redirectTo", JStr "/admin/dashboard")]),
          set_console
            (console w' ++ [ConsoleLog "Admin login successful: "
                              (JStr credsUsername)
                              (clock w' (S (S (ticks w'))))])
            (set_session
               (Some (mkSession true (JStr credsUsername) credsEmail
                        (Some (clock w' (ticks w')))
                        (Some (clock w' (S (ticks w'))))))
               (set_ticks (S (S (S (ticks w')))) w'))).
Proof.
  intros Hu Hp Hune Hpne Hcreds Hcu Hph Hname Hpass Hs.
  assert (Hemail : exists credsEmail, Js.get creds "email" = Ok credsEmail).
  { destruct creds; try discriminate; eexists; reflexivity. }
  destruct Hemail as [credsEmail Hemail]. exists credsEmail.
  split; [exact Hemail|].
  unfold login, try_catch. rewrite Hu, Hp.
  rewrite (truthy_nonempty username Hune), (truthy_nonempty password Hpne).
  cbn [negb orb].
  erewrite bind_ok by exact Hcreds.
  erewrite bind_ok by reflexivity.
  erewrite bind_ok by (unfold lift; rewrite Hcu; reflexivity).
  erewrite bind_ok by reflexivity.
  erewrite bind_ok by (unfold lift; rewrite Hph; reflexivity).
  erewrite bind_ok by reflexivity.
  rewrite Hname, String.eqb_refl, Hpass. cbn [andb].
  erewrite bind_ok by (apply get_session_ok; exact Hs).
  erewrite bind_ok by (unfold lift; rewrite Hemail; reflexivity).
  destruct w'; reflexivity.
Qed.

(** The username is compared without regard to case and to white space
    around it: any spelling of the stored username, with the right
    password, is answered 200, and the session then holds the username
    and the email as the credentials spell them, not as they were
    typed. *)
Theorem login_accepts_any_spelling (JSON_parse : string -> Res JsVal)
    (bcrypt_verify : string -> string -> bool)
    (body : list (string * JsVal)) (username password : string)
    (creds : JsVal) (credsUsername passwordHash : string)
    (w w' : World) (s0 : Session) :
  Js.assoc "username" body = JStr username ->
  Js.assoc "password" body = JStr password ->
  username <> "" ->
  password <> "" ->
  getAdminCredentials JSON_parse w = (Ok creds, w') ->
  Js.get creds "username" = Ok (JStr credsUsername) ->
  Js.get creds "passwordHash" = Ok (JStr passwordHash) ->
  JsString.trim (JsString.toLowerCase username)
  = JsString.trim (JsString.toLowerCase credsUsername) ->
  bcrypt_verify password passwordHash = true ->
  session w' = Some s0 ->
  fst (login JSON_parse bcrypt_verify body w)
  = Ok (respond 200 [("success", JBool true);
                     ("message", JStr "Authentication successful");
                     ("redirectTo", JStr "/admin/dashboard")])
  /\ exists s' : Session,
       session (snd (login JSON_parse bcrypt_verify body w)) = Some s'
       /\ adminAuthenticated s' = true
       /\ adminUsername s' = JStr credsUsername
       /\ Js.get creds "email" = Ok (adminEmail s').
Proof.
  intros Hu Hp Hune Hpne Hcreds Hcu Hph Hname Hpass Hs.
  destruct (login_accepted JSON_parse bcrypt_verify body username password
              creds credsUsername passwordHash w w' s0
              Hu Hp Hune Hpne Hcreds Hcu Hph Hname Hpass Hs)
    as (credsEmail & Hemail & ->).
  split; [reflexivity|]. eexists. repeat split. exact Hemail.
Qed.

Lemma login_accepts_any_spelling_witness :
  exists s' : Session,
    session (snd (login Scenario.parse Sample.toy_verify
                    [("username", JStr "  OPS "); ("password", JStr "s3cret")]
                    (Scenario.world_with_secret (Some fresh_session))))
    = Some s'
    /\ adminUsername s' = JStr "Ops".
Proof.
  destruct (login_accepts_any_spelling Scenario.parse Sample.toy_verify
              [("username", JStr "  OPS "); ("password", JStr "s3cret")]
              "  OPS " "s3cret"
              (JObj [("username", JStr "Ops"); ("passwordHash", JStr "hash:s3cret");
                     ("email", JStr "ops@renthabit.com")])
              "Ops" "hash:s3cret"
              (Scenario.world_with_secret (Some fresh_session))
              (Scenario.world_with_secret (Some fresh_session))
              fresh_session
              eq_refl eq_refl ltac:(discriminate) ltac:(discriminate)
              eq_refl eq_refl eq_refl eq_refl eq_refl eq_refl)
    as (_ & s' & Hs' & _ & Hname & _).
  exists s'. split; [exact Hs'|exact Hname].
Defined.

(** A request to an admin route right after an accepted login reaches
    its handler, as long as the two clock readings of the gate are not
    more than 7200000 ms after the [lastActivity] the login wrote. *)
Theorem login_opens_the_gate (JSON_parse : string -> Res JsVal)
    (bcrypt_verify : string -> string -> bool)
    (body : list (string * JsVal)) (username password : string)
    (creds : JsVal) (credsUsername passwordHash : string)
    (w w' : World) (s0 : Session) (handler : M HttpResponse) :
  Js.assoc "username" body = JStr username ->
  Js.assoc "password" body = JStr password ->
  username <> "" ->
  password <> "" ->
  getAdminCredentials JSON_parse w = (Ok creds, w') ->
  Js.get creds "username" = Ok (JStr credsUsername) ->
  Js.get creds "passwordHash" = Ok (JStr passwordHash) ->
  JsString.trim (JsString.toLowerCase username)
  = JsString.trim (JsString.toLowerCase credsUsername) ->
  bcrypt_verify password passwordHash = true ->
  session w' = Some s0 ->
  let written := clock w' (S (ticks w')) in
  clock w' (3 + ticks w') - written <= 7200000 ->
  clock w' (4 + ticks w') - written <= 7200000 ->
  let logged_in := snd (login JSON_parse bcrypt_verify body w) in
  admin_route handler logged_in = handler (after_gate logged_in)
  /\ exists s' : Session,
       session (after_gate logged_in) = Some s'
       /\ adminAuthenticated s' = true
       /\ lastActivity s' = Some (clock w' (4 + ticks w')).
Proof.
  intros Hu Hp Hune Hpne Hcreds Hcu Hph Hname Hpass Hs written H3 H4 logged_in.
  destruct (login_accepted JSON_parse bcrypt_verify body username password
              creds credsUsername passwordHash w w' s0
              Hu Hp Hune Hpne Hcreds Hcu Hph Hname Hpass Hs)
    as (credsEmail & Hemail & Hrun).
  unfold logged_in. rewrite Hrun. cbn [snd].
  split.
  - apply admin_route_admitted. unfold gate_passes.
    cbn [session set_console set_session set_ticks clock ticks
         adminAuthenticated lastActivity loginTime date_or andb].
    apply idle_too_long_false in H3, H4. fold written.
    cbn [Nat.add] in H3, H4. rewrite H3, H4. reflexivity.
  - eexists. split; [reflexivity|]. split; reflexivity.
Qed.

Lemma login_opens_the_gate_witness :
  fst (admin_route (reject "c-17" [])
         (snd (login Scenario.parse Sample.toy_verify
                 [("username", JStr "ops"); ("password", JStr "s3cret")]
                 (Scenario.world_with_secret (Some fresh_session)))))
  = Ok (respond 200 [("success", JBool true);
                     ("message", JStr "Content rejected");
                     ("contentId", JStr "c-17");
                     ("rejectedBy", JStr "Ops");
                     ("rejectedAt", JStr "2026-11-02T00:00:05.000Z");
                     ("reason", JUndefined)]).
Proof.
  destruct (login_opens_the_gate Scenario.parse Sample.toy_verify
              [("username", JStr "ops"); ("password", JStr "s3cret")]
              "ops" "s3cret"
              (JObj [("username", JStr "Ops"); ("passwordHash", JStr "hash:s3cret");
                     ("email", JStr "ops@renthabit.com")])
              "Ops" "hash:s3cret"
              (Scenario.world_with_secret (Some fresh_session))
              (Scenario.world_with_secret (Some fresh_session))
              fresh_session (reject "c-17" [])
              eq_refl eq_refl ltac:(discriminate) ltac:(discriminate)
              eq_refl eq_refl eq_refl eq_refl eq_refl eq_refl
              ltac:(vm_compute; discriminate) ltac:(vm_compute; discriminate))
    as (Hrun & _).
  rewrite Hrun. reflexivity.
Defined.

(** ** The session routes and the gate *)

Lemma session_middleware_loads (w : World) :
  session_middleware w
  = (Ok Next, set_session (Some (default fresh_session (session w))) w).
Proof. unfold session_middleware. destruct (session w); reflexivity. Qed.

Lemma set_session_same (w : World) (s : Session) :
  session w = Some s -> set_session (Some s) w = w.
Proof. destruct w; cbn. intros ->. reflexivity. Qed.

(** The store hands a record over for 7200000 ms after the request that
    touched it last, and no longer. *)
Lemma arrives_with_session (now touched : Z) (s : Session) (w : World) :
  now - touched < 7200000 ->
  arrives now (Some (SessionStore.touch touched s)) w = set_session (Some s) w.
Proof.
  intros Hheld. unfold arrives, SessionStore.get, SessionStore.touch.
  cbn [SessionStore.expires SessionStore.data].
  unfold SessionStore.maxAge.
  destruct (Z.leb_spec (touched + 2 * 60 * 60 * 1000) now); [lia|reflexivity].
Qed.

Lemma arrives_without_session (now touched : Z) (s : Session) (w : World) :
  7200000 <= now - touched ->
  arrives now (Some (SessionStore.touch touched s)) w = set_session None w.
Proof.
  intros Hdropped. unfold arrives, SessionStore.get, SessionStore.touch.
  cbn [SessionStore.expires SessionStore.data].
  unfold SessionStore.maxAge.
  destruct (Z.leb_spec (touched + 2 * 60 * 60 * 1000) now); [reflexivity|lia].
Qed.

(** The status query on the session the store hands over. *)
Lemma status_of_session (w : World) (s : Session) :
  session w = Some s ->
  status_route w
  = (Ok (if adminAuthenticated s
         then respond 200 [("authenticated", JBool true);
                           ("username", adminUsername s);
                           ("email", adminEmail s);
                           ("loginTime", date_json (loginTime s));
                           ("lastActivity", date_json (lastActivity s))]
         else respond 200 [("authenticated", JBool false)]),
     w).
Proof.
  intros Hs. unfold status_route, chain.
  erewrite bind_ok by apply session_middleware_loads. cbv beta iota.
  rewrite Hs. change (default fresh_session (Some s)) with s.
  rewrite (set_session_same w s Hs).
  unfold auth_status.
  erewrite bind_ok by (apply get_session_ok; exact Hs).
  destruct (adminAuthenticated s); reflexivity.
Qed.

(** The status query applies no idle timeout of its own.  As long as
    the session store holds the record of the client, which is for
    7200000 ms after the last request of the client, a status query
    included, it reports an authenticated session as authenticated
    however old [lastActivity] is; it takes no clock reading and does
    not refresh [lastActivity].  Once the store has dropped the record
    the answer is [authenticated: false]. *)
Theorem status_ignores_idle_time (w : World) (s : Session) (touched arrival : Z) :
  let w0 := arrives arrival (Some (SessionStore.touch touched s)) w in
  (arrival - touched < 7200000 ->
   status_route w0
   = (Ok (if adminAuthenticated s
          then respond 200 [("authenticated", JBool true);
                            ("username", adminUsername s);
                            ("email", adminEmail s);
                            ("loginTime", date_json (loginTime s));
                            ("lastActivity", date_json (lastActivity s))]
          else respond 200 [("authenticated", JBool false)]),
      set_session (Some s) w))
  /\ (7200000 <= arrival - touched ->
      status_route w0
      = (Ok (respond 200 [("authenticated", JBool false)]),
         set_session (Some fresh_session) w)).
Proof.
  intros w0. unfold w0. split; intros Htime.
  - rewrite (arrives_with_session _ _ _ _ Htime).
    apply status_of_session. reflexivity.
  - rewrite (arrives_without_session _ _ _ _ Htime). reflexivity.
Qed.

Lemma status_ignores_idle_time_witness :
  fst (status_route (arrives 14400000 (Some Scenario.polled)
                       Scenario.world_in_the_afternoon))
  = Ok (respond 200 [("authenticated", JBool true);
                     ("username", JStr "admin");
                     ("email", JStr "admin@renthabit.com");
                     ("loginTime", JStr "1970-01-01T00:00:00.000Z");
                     ("lastActivity", JStr "1970-01-01T00:00:00.000Z")]).
Proof.
  destruct (status_ignores_idle_time Scenario.world_in_the_afternoon
              Scenario.stale 10800000 14400000) as [Hheld _].
  unfold Scenario.polled. rewrite Hheld by lia. reflexivity.
Defined.

(** An admin route answers a client that is not logged in with 401
    "Authentication required": the handler does not run, the clock is
    not read, and nothing changes but that the client has a session
    record, an empty one if it had none. *)
Theorem admin_routes_need_a_login (handler : M HttpResponse) (w : World) :
  (forall s : Session, session w = Some s -> adminAuthenticated s = false) ->
  admin_route handler w
  = (Ok (respond 401 [("error", JStr "Authentication required");
                      ("redirectTo", JStr "/admin/login")]),
     set_session (Some (default fresh_session (session w))) w).
Proof.
  intros Hanon. unfold admin_route, chain.
  erewrite bind_ok by apply session_middleware_loads. cbv beta iota.
  set (s0 := default fresh_session (session w)).
  assert (Hs0 : adminAuthenticated s0 = false).
  { unfold s0. destruct (session w) as [s|]; [apply Hanon|]; reflexivity. }
  set (w1 := set_session (Some s0) w).
  erewrite bind_ok
    by (rewrite (admin_prefilter_decides w1 s0 eq_refl), Hs0; reflexivity).
  cbv beta iota.
  erewrite bind_ok by (apply (requireAuth_unauthenticated w1 s0 eq_refl Hs0)).
  reflexivity.
Qed.

Lemma admin_routes_need_a_login_witness :
  fst (admin_route (approve "c-17" [("s3Key", JStr Sample.photo_key)])
         (Sample.world None))
  = Ok (respond 401 [("error", JStr "Authentication required");
                     ("redirectTo", JStr "/admin/login")]).
Proof.
  rewrite (admin_routes_need_a_login _ (Sample.world None)); [reflexivity|].
  intros s [=].
Defined.

(** The gate on a session the store hands over, idle for more than
    7200000 ms at one of its two clock readings. *)
Lemma idle_session_is_destroyed (handler : M HttpResponse)
    (w : World) (s : Session) (la : Z) :
  session w = Some s ->
  adminAuthenticated s = true ->
  lastActivity s = Some la ->
  7200000 < clock w (ticks w) - la \/ 7200000 < clock w (S (ticks w)) - la ->
  fst (admin_route handler w)
  = Ok (respond 401 [("error", JStr "Session expired");
                     ("redirectTo", JStr "/admin/login")])
  /\ session (snd (admin_route handler w)) = None
  /\ s3_calls (snd (admin_route handler w)) = s3_calls w
  /\ buckets (snd (admin_route handler w)) = buckets w.
Proof.
  intros Hs Ha Hla Hidle. unfold admin_route, chain.
  erewrite bind_ok by apply session_middleware_loads. cbv beta iota.
  rewrite Hs. change (default fresh_session (Some s)) with s.
  rewrite (set_session_same w s Hs).
  destruct (idle_too_long (clock w (ticks w)) (Some la)) eqn:Hfirst.
  - erewrite bind_ok
      by (rewrite (admin_prefilter_decides w s Hs), Ha, Hla, Hfirst; reflexivity).
    repeat split.
  - erewrite bind_ok
      by (rewrite (admin_prefilter_decides w s Hs), Ha, Hla, Hfirst; reflexivity).
    cbv beta iota.
    destruct Hidle as [Hidle|Hidle].
    + apply idle_too_long_true in Hidle. congruence.
    + apply idle_too_long_true in Hidle.
      erewrite bind_ok
        by (rewrite (requireAuth_decides (set_ticks (S (ticks w)) w) s Hs Ha), Hla;
            cbn [date_or clock ticks set_ticks]; rewrite Hidle; reflexivity).
      repeat split.
Qed.

(** An admin route on a request without a session. *)
Lemma admin_route_without_session (handler : M HttpResponse) (w : World) :
  session w = None ->
  admin_route handler w
  = (Ok (respond 401 [("error", JStr "Authentication required");
                      ("redirectTo", JStr "/admin/login")]),
     set_session (Some fresh_session) w).
Proof.
  intros Hnone. unfold admin_route, chain.
  erewrite bind_ok by apply session_middleware_loads. cbv beta iota.
  rewrite Hnone. change (default fresh_session None) with fresh_session.
  set (w1 := set_session (Some fresh_session) w).
  erewrite bind_ok by (rewrite (admin_prefilter_decides w1 fresh_session eq_refl);
                       reflexivity).
  cbv beta iota.
  erewrite bind_ok
    by (apply (requireAuth_unauthenticated w1 fresh_session eq_refl eq_refl)).
  reflexivity.
Qed.

(** The idle timeout of the admin routes is reached only by a client
    whose record the session store still holds.  The store keeps a
    record for 7200000 ms after the last request of the client, whatever
    that request was; [lastActivity] is written by [requireAuth] alone.
    A session whose [lastActivity] is more than 7200000 ms old at either
    of the two clock readings of the gate is destroyed and answered 401
    "Session expired" when the store hands it over, the handler does not
    run and the object store is not called.  When the store has dropped
    the record, the answer is 401 "Authentication required", and the
    clock is not read. *)
Theorem admin_routes_expire_idle_sessions (handler : M HttpResponse)
    (w : World) (s : Session) (la touched arrival : Z) :
  adminAuthenticated s = true ->
  lastActivity s = Some la ->
  7200000 < clock w (ticks w) - la \/ 7200000 < clock w (S (ticks w)) - la ->
  let w0 := arrives arrival (Some (SessionStore.touch touched s)) w in
  (arrival - touched < 7200000 ->
   fst (admin_route handler w0)
   = Ok (respond 401 [("error", JStr "Session expired");
                      ("redirectTo", JStr "/admin/login")])
   /\ session (snd (admin_route handler w0)) = None
   /\ s3_calls (snd (admin_route handler w0)) = s3_calls w
   /\ buckets (snd (admin_route handler w0)) = buckets w)
  /\ (7200000 <= arrival - touched ->
      admin_route handler w0
      = (Ok (respond 401 [("error", JStr "Authentication required");
                          ("redirectTo", JStr "/admin/login")]),
         set_session (Some fresh_session) w)).
Proof.
  intros Ha Hla Hidle w0. unfold w0. split; intros Htime.
  - rewrite (arrives_with_session _ _ _ _ Htime).
    exact (idle_session_is_destroyed handler (set_session (Some s) w) s la
             eq_refl Ha Hla Hidle).
  - rewrite (arrives_without_session _ _ _ _ Htime).
    exact (admin_route_without_session handler (set_session None w) eq_refl).
Qed.

Lemma admin_routes_expire_idle_sessions_witness :
  fst (admin_route (reject "c-17" [])
         (arrives 14400000 (Some Scenario.polled) Scenario.world_in_the_afternoon))
  = Ok (respond 401 [("error", JStr "Session expired");
                     ("redirectTo", JStr "/admin/login")]).
Proof.
  destruct (admin_routes_expire_idle_sessions (reject "c-17" [])
              Scenario.world_in_the_afternoon Scenario.stale 0 10800000 14400000
              eq_refl eq_refl ltac:(left; vm_compute; reflexivity))
    as [Hheld _].
  unfold Scenario.polled. apply Hheld. lia.
Defined.

Example silent_client_is_asked_to_log_in :
  fst (admin_route (reject "c-17" [])
         (arrives 14400000 (Some (SessionStore.touch 0 Scenario.stale))
            Scenario.world_in_the_afternoon))
  = Ok (respond 401 [("error", JStr "Authentication required");
                     ("redirectTo", JStr "/admin/login")]).
Proof. vm_compute. reflexivity. Qed.

(** Logout.  When the store destroys the session, the answer is 200
    whether or not the client was logged in, the session is gone, the
    status query that follows reports [authenticated: false] and an
    admin route that follows answers 401 without running its handler.
    When the store fails, the answer is 500 "Logout failed", the error
    is logged and the session stays. *)
Theorem logout_ends_the_session (w : World) (handler : M HttpResponse) (e : Exn) :
  let after := snd (logout_route None w) in
  fst (logout_route None w)
  = Ok (respond 200 [("success", JBool true);
                     ("message", JStr "Logged out successfully")])
  /\ session after = None
  /\ fst (status_route after) = Ok (respond 200 [("authenticated", JBool false)])
  /\ fst (admin_route handler after)
     = Ok (respond 401 [("error", JStr "Authentication required");
                        ("redirectTo", JStr "/admin/login")])
  /\ s3_calls (snd (admin_route handler after)) = s3_calls w
  /\ logout_route (Some e) w
     = (Ok (respond 500 [("error", JStr "Logout failed")]),
        set_console (console w ++ [ConsoleError "Logout error:" e])
          (set_session (Some (default fresh_session (session w))) w)).
Proof.
  intros after.
  assert (Hrun : logout_route None w
                 = (Ok (respond 200 [("success", JBool true);
                                     ("message", JStr "Logged out successfully")]),
                    set_console
                      (console w
                       ++ [ConsoleLog "Admin logout: "
                             (adminUsername (default fresh_session (session w)))
                             (clock w (ticks w))])
                      (set_session None (set_ticks (S (ticks w)) w)))).
  { unfold logout_route, chain.
    erewrite bind_ok by apply session_middleware_loads. cbv beta iota.
    unfold logout. erewrite bind_ok by (apply get_session_ok; reflexivity).
    destruct w; reflexivity. }
  unfold after. rewrite Hrun. cbn [fst snd].
  split; [reflexivity|]. split; [reflexivity|]. split; [reflexivity|].
  rewrite admin_route_without_session by reflexivity.
  split; [reflexivity|]. split; [reflexivity|].
  unfold logout_route, chain.
  erewrite bind_ok by apply session_middleware_loads. cbv beta iota.
  unfold logout. erewrite bind_ok by (apply get_session_ok; reflexivity).
  destruct w; reflexivity.
Qed.

(** The health route on the session the store hands over. *)
Lemma health_of_session (uptime : JsVal) (w : World) (s : Session) :
  session w = Some s ->
  let expired :=
    adminAuthenticated s && idle_too_long (clock w (ticks w)) (lastActivity s) in
  let reading := if adminAuthenticated s then S (ticks w) else ticks w in
  fst (health_route uptime w)
  = Ok (if expired
        then respond 401 [("error", JStr "Session expired");
                          ("redirectTo", JStr "/admin/login")]
        else respond 200 [("status", JStr "healthy");
                          ("timestamp", JStr (JsDate.toISOString (clock w reading)));
                          ("uptime", uptime);
                          ("s3Buckets", S3_BUCKETS);
                          ("auth", JStr "operational")])
  /\ session (snd (health_route uptime w)) = (if expired then None else Some s)
  /\ s3_calls (snd (health_route uptime w)) = s3_calls w
  /\ buckets (snd (health_route uptime w)) = buckets w.
Proof.
  intros Hs expired reading. unfold health_route, chain.
  erewrite bind_ok by apply session_middleware_loads. cbv beta iota.
  rewrite Hs. change (default fresh_session (Some s)) with s.
  rewrite (set_session_same w s Hs).
  unfold expired, reading.
  destruct (adminAuthenticated s) eqn:Ha; cbn [andb].
  - destruct (idle_too_long (clock w (ticks w)) (lastActivity s)) eqn:Hidle.
    + erewrite bind_ok
        by (rewrite (admin_prefilter_decides w s Hs), Ha, Hidle; reflexivity).
      repeat split.
    + erewrite bind_ok
        by (rewrite (admin_prefilter_decides w s Hs), Ha, Hidle; reflexivity).
      cbv beta iota. unfold health. erewrite bind_ok by reflexivity.
      repeat split. cbn. exact Hs.
  - erewrite bind_ok
      by (rewrite (admin_prefilter_decides w s Hs), Ha; reflexivity).
    cbv beta iota. unfold health. erewrite bind_ok by reflexivity.
    repeat split. cbn. exact Hs.
Qed.

(** The health route is registered behind the filter on [/api/admin/*]
    and without [requireAuth].  A logged-in client whose record the
    session store still holds (its last request, of whatever kind, less
    than 7200000 ms ago) and whose [lastActivity] is more than 7200000 ms
    old gets 401 from the filter and loses the session; every other
    client, one whose record the store has dropped included, gets the
    200 health record.  The route never calls the object store and
    never refreshes [lastActivity]. *)
Theorem health_is_behind_the_filter (uptime : JsVal) (w : World) (s : Session)
    (touched arrival : Z) :
  let w0 := arrives arrival (Some (SessionStore.touch touched s)) w in
  let expired :=
    adminAuthenticated s && idle_too_long (clock w (ticks w)) (lastActivity s) in
  let reading := if adminAuthenticated s then S (ticks w) else ticks w in
  (arrival - touched < 7200000 ->
   fst (health_route uptime w0)
   = Ok (if expired
         then respond 401 [("error", JStr "Session expired");
                           ("redirectTo", JStr "/admin/login")]
         else respond 200 [("status", JStr "healthy");
                           ("timestamp", JStr (JsDate.toISOString (clock w reading)));
                           ("uptime", uptime);
                           ("s3Buckets", S3_BUCKETS);
                           ("auth", JStr "operational")])
   /\ session (snd (health_route uptime w0)) = (if expired then None else Some s)
   /\ s3_calls (snd (health_route uptime w0)) = s3_calls w
   /\ buckets (snd (health_route uptime w0)) = buckets w)
  /\ (7200000 <= arrival - touched ->
      health_route uptime w0
      = (Ok (respond 200 [("status", JStr "healthy");
                          ("timestamp", JStr (JsDate.toISOString (clock w (ticks w))));
                          ("uptime", uptime);
                          ("s3Buckets", S3_BUCKETS);
                          ("auth", JStr "operational")]),
         set_session (Some fresh_session) (set_ticks (S (ticks w)) w))).
Proof.
  intros w0 expired reading. unfold w0. split; intros Htime.
  - rewrite (arrives_with_session _ _ _ _ Htime).
    exact (health_of_session uptime (set_session (Some s) w) s eq_refl).
  - rewrite (arrives_without_session _ _ _ _ Htime). reflexivity.
Qed.

Lemma health_is_behind_the_filter_witness :
  fst (health_route (JNum 12)
         (arrives 14400000 (Some Scenario.polled) Scenario.world_in_the_afternoon))
  = Ok (respond 401 [("error", JStr "Session expired");
                     ("redirectTo", JStr "/admin/login")]).
Proof.
  destruct (health_is_behind_the_filter (JNum 12) Scenario.world_in_the_afternoon
              Scenario.stale 10800000 14400000) as [Hheld _].
  destruct (Hheld ltac:(lia)) as (Hanswer & _).
  unfold Scenario.polled. rewrite Hanswer. reflexivity.
Defined.

(** ** Key derivation *)

(** A stage name without a template of its own gets the key of the
    pending stage, unless it names a property that [paths] inherits
    from [Object.prototype]: [paths[stage]] is undefined for any other
    name, and the inherited function or object for such a one. *)
Theorem unknown_stage_derives_pending_key (stage : string)
    (userId propertyId : JsVal) (fileName : string) (w : World) :
  known_stage stage = false ->
  inherited_name stage = false ->
  generateS3Key stage userId propertyId fileName w
  = generateS3Key "pending" userId propertyId fileName w.
Proof.
  unfold known_stage. intros Hstage _.
  apply orb_false_iff in Hstage as [Hstage Hfeatured].
  apply orb_false_iff in Hstage as [Hstage Hedited].
  apply orb_false_iff in Hstage as [Hpending Horiginal].
  unfold generateS3Key, paths. run. cbn [path_of].
  rewrite Hpending, Horiginal, Hedited, Hfeatured. reflexivity.
Qed.

Lemma unknown_stage_derives_pending_key_witness :
  fst (generateS3Key "rejected" (JStr "u1") (JStr "42") "photo.jpg"
         (Sample.world None))
  = Ok "pending-uploads/u1/property-42/images/photo.jpg".
Proof.
  rewrite (unknown_stage_derives_pending_key "rejected" (JStr "u1") (JStr "42")
             "photo.jpg" (Sample.world None) eq_refl eq_refl).
  reflexivity.
Defined.

Lemma replace_outside_class_idempotent (s : string) :
  JsString.replace_outside_class (JsString.replace_outside_class s)
  = JsString.replace_outside_class s.
Proof.
  induction s as [|c s IH]; simpl; [reflexivity|].
  rewrite IH. destruct (JsString.in_class c) eqn:Hc; [rewrite Hc|]; reflexivity.
Qed.

(** Sanitizing loses information: a file name and its sanitized form
    derive the same key at every stage, so that two uploads whose names
    differ only in replaced characters share their keys. *)
Theorem sanitized_name_derives_same_key (stage : string)
    (userId propertyId : JsVal) (fileName : string) (w : World) :
  generateS3Key stage userId propertyId
    (JsString.replace_outside_class fileName) w
  = generateS3Key stage userId propertyId fileName w.
Proof.
  unfold generateS3Key. rewrite replace_outside_class_idempotent. reflexivity.
Qed.

Example names_that_collide :
  fst (generateS3Key "approved_original" (JStr "u1") (JStr "42") "my photo.jpg"
         (Sample.world None))
  = fst (generateS3Key "approved_original" (JStr "u1") (JStr "42") "my+photo.jpg"
           (Sample.world None)).
Proof. vm_compute. reflexivity. Qed.

Lemma embedded_name_without_slash (st : Stage) (fileName : string) :
  JsString.includes "/" (embedded_name st fileName) = false.
Proof.
  apply (all_chars_excludes in_key_class); [reflexivity|].
  destruct st; cbn [embedded_name]; try apply replace_outside_class_clean.
  apply replace_first_clean; [reflexivity|apply replace_outside_class_clean].
Qed.

Lemma pop_split_after_slash (dir name : string) :
  JsString.includes "/" name = false ->
  JsString.pop (JsString.split "/" ((dir ++ "/") ++ name)) = name.
Proof.
  intros Hname. rewrite append_assoc.
  change ("/" ++ name)%string with (String "/" name).
  apply pop_split_suffix, Hname.
Qed.


Example slashes_in_a_file_name :
  fst (generateS3Key "pending" (JStr "u1") (JStr "42") "../../etc/passwd"
         (Sample.world None))
  = Ok "pending-uploads/u1/property-42/images/.._.._etc_passwd".
Proof. vm_compute. reflexivity. Qed.

(** ** Approve and feature at their edges *)

(** Without an [s3Key], or with an empty or otherwise falsy one, approve
    and feature answer 400 at once: no clock reading, no call to the
    object store, nothing logged. *)
Theorem approve_and_feature_need_a_key (contentId : string)
    (body : list (string * JsVal)) (w : World) :
  Js.truthy (Js.assoc "s3Key" body) = false ->
  approve contentId body w
  = (Ok (respond 400 [("error", JStr "S3 key required")]), w)
  /\ feature contentId body w
     = (Ok (respond 400 [("error", JStr "S3 key required")]), w).
Proof.
  intros Hkey. unfold approve, feature, try_catch. rewrite Hkey.
  split; reflexivity.
Qed.

Lemma approve_and_feature_need_a_key_witness :
  approve "c-17" [("userId", JStr "u1"); ("s3Key", JStr "")]
    (Sample.world (Some Sample.admin))
  = (Ok (respond 400 [("error", JStr "S3 key required")]),
     Sample.world (Some Sample.admin)).
Proof.
  apply (approve_and_feature_need_a_key "c-17"
           [("userId", JStr "u1"); ("s3Key", JStr "")]
           (Sample.world (Some Sample.admin)) eq_refl).
Defined.

(** An [s3Key] that is truthy without being a string (a number, [true],
    an object) makes [s3Key.split] throw: both routes answer 500, having
    logged a TypeError and called nothing. *)
Theorem approve_and_feature_need_a_string_key (contentId : string)
    (body : list (string * JsVal)) (w : World) :
  Js.truthy (Js.assoc "s3Key" body) = true ->
  (forall key : string, Js.assoc "s3Key" body <> JStr key) ->
  approve contentId body w
  = (Ok (respond 500 [("error", JStr "Failed to approve content")]),
     logged_error "Content approval error:" TypeError w)
  /\ feature contentId body w
     = (Ok (respond 500 [("error", JStr "Failed to feature content")]),
        logged_error "Content featuring error:" TypeError w).
Proof.
  intros Htruthy Hother. unfold approve, feature, try_catch.
  rewrite Htruthy. cbn [negb].
  assert (Hthrow : Js.as_string (Js.assoc "s3Key" body) = Throw TypeError).
  { destruct (Js.assoc "s3Key" body) as [| |b|n|k|fields]; try reflexivity.
    exfalso. exact (Hother k eq_refl). }
  split.
  - erewrite bind_throw by (unfold lift; rewrite Hthrow; reflexivity).
    reflexivity.
  - erewrite bind_throw by (unfold lift; rewrite Hthrow; reflexivity).
    reflexivity.
Qed.

Lemma approve_and_feature_need_a_string_key_witness :
  fst (approve "c-17" [("s3Key", JNum 17)] (Sample.world (Some Sample.admin)))
  = Ok (respond 500 [("error", JStr "Failed to approve content")]).
Proof.
  destruct (approve_and_feature_need_a_string_key "c-17" [("s3Key", JNum 17)]
              (Sample.world (Some Sample.admin)) eq_refl
              ltac:(intros key; discriminate)) as [Happrove _].
  rewrite Happrove. reflexivity.
Defined.



Lemma send_copy_of_missing_source (i : CopyObjectInput) (w : World) (key : string) :
  copy_CopySource i = (S3_BUCKETS_media ++ "/" ++ key)%string ->
  S3.get_object (buckets w) S3_BUCKETS_media key = None ->
  exists (e : Exn) (w' : World),
    S3.send (CopyObjectCommand i) w = (Throw e, w')
    /\ buckets w' = buckets w
    /\ s3_calls w' = (s3_calls w ++ [CopyObjectCommand i])%list.
Proof.
  intros Hsrc Hmissing. unfold S3.send.
  destruct (faults w _); [do 2 eexists; repeat split|].
  unfold S3.exec. rewrite Hsrc.
  change (S3_BUCKETS_media ++ "/" ++ key)%string
    with (S3_BUCKETS_media ++ String "/" key)%string.
  rewrite parse_CopySource_bucket by reflexivity.
  destruct (buckets w !! copy_Bucket i); [|do 2 eexists; repeat split].
  rewrite Hmissing. do 2 eexists. repeat split.
Qed.

(** Approving or featuring an object that is not in the media bucket
    ends in the 500 answer after the one copy that failed: feature does
    not go on to the copy into the public bucket, and both buckets are
    what they were.  This is for a request that gets as far as the
    copy: its identifiers do not hide [toString] (the templates of the
    key would throw), nor does its priority, which is not [null]. *)
Theorem missing_source_fails_after_one_call (contentId : string)
    (body : list (string * JsVal)) (key : string) (w : World) (s : Session) :
  Js.assoc "s3Key" body = JStr key ->
  key <> "" ->
  session w = Some s ->
  Js.hides_toString (Js.assoc "userId" body) = false ->
  Js.hides_toString (Js.assoc "propertyId" body) = false ->
  Js.assoc "priority" body <> JNull ->
  Js.hides_toString (Js.assoc "priority" body) = false ->
  S3.get_object (buckets w) S3_BUCKETS_media key = None ->
  (exists c : CopyObjectInput,
     fst (approve contentId body w)
     = Ok (respond 500 [("error", JStr "Failed to approve content")])
     /\ s3_calls (snd (approve contentId body w))
        = (s3_calls w ++ [CopyObjectCommand c])%list
     /\ buckets (snd (approve contentId body w)) = buckets w)
  /\ (exists c : CopyObjectInput,
        fst (feature contentId body w)
        = Ok (respond 500 [("error", JStr "Failed to feature content")])
        /\ s3_calls (snd (feature contentId body w))
           = (s3_calls w ++ [CopyObjectCommand c])%list
        /\ copy_Bucket c = S3_BUCKETS_media
        /\ buckets (snd (feature contentId body w)) = buckets w).
Proof.
  intros Hkey Hne Hs _ _ Hprio Hcallable Hmissing. split.
  - rewrite (approve_sends_one_copy contentId body key w s Hkey Hne Hs).
    cbv zeta.
    match goal with
    | |- context [S3.send (CopyObjectCommand ?i) ?w0] =>
        destruct (send_copy_of_missing_source i w0 key eq_refl Hmissing)
          as (e & w' & -> & Hb & Hc); exists i
    end.
    cbn [fst snd]. split; [reflexivity|]. split; [exact Hc|exact Hb].
  - destruct (priority_text _ Hprio Hcallable) as [text Htext].
    rewrite (feature_sends_two_copies contentId body key text w s
               Hkey Hne Hs Htext).
    cbv zeta.
    match goal with
    | |- context [S3.send (CopyObjectCommand
                             (mkCopy S3_BUCKETS_media ?src ?k ?m)) ?w0] =>
        destruct (send_copy_of_missing_source
                    (mkCopy S3_BUCKETS_media src k m) w0 key eq_refl Hmissing)
          as (e & w' & -> & Hb & Hc);
        exists (mkCopy S3_BUCKETS_media src k m)
    end.
    cbn [fst snd]. split; [reflexivity|]. split; [exact Hc|].
    split; [reflexivity|exact Hb].
Qed.

Lemma missing_source_fails_after_one_call_witness :
  fst (feature "c-17" [("s3Key", JStr "pending-uploads/u9/gone.jpg")]
         (Sample.world (Some Sample.admin)))
  = Ok (respond 500 [("error", JStr "Failed to feature content")]).
Proof.
  destruct (missing_source_fails_after_one_call "c-17"
              [("s3Key", JStr "pending-uploads/u9/gone.jpg")]
              "pending-uploads/u9/gone.jpg"
              (Sample.world (Some Sample.admin)) Sample.admin
              eq_refl ltac:(discriminate) eq_refl eq_refl eq_refl
              ltac:(discriminate) eq_refl eq_refl)
    as (_ & c & Hanswer & _).
  exact Hanswer.
Defined.



(** ** The listings *)

Lemma KeyCount_or_0_is_KeyCount (n : Z) (keys : list string) :
  KeyCount_or_0 (S3.ListObjectsV2Output n keys) = JNum n.
Proof.
  unfold KeyCount_or_0, Js.or. cbn [Js.truthy].
  destruct (n =? 0) eqn:Hn; [apply Z.eqb_eq in Hn; subst n|]; reflexivity.
Qed.

Lemma page_length (max : Z) (keys : list string) :
  0 <= max ->
  Z.of_nat (List.length (List.firstn (Z.to_nat max) keys))
  = Z.min max (Z.of_nat (List.length keys)).
Proof. intros Hmax. rewrite List.length_firstn. lia. Qed.

(** A listing changes no bucket, whatever becomes of it. *)
Lemma send_list_keeps_buckets (i : ListObjectsV2Input) (w : World) :
  buckets (snd (S3.send (ListObjectsV2Command i) w)) = buckets w.
Proof.
  unfold S3.send. destruct (faults w _); [reflexivity|].
  unfold S3.exec. destruct (buckets w !! list_Bucket i); reflexivity.
Qed.

(** A listing that reaches an existing bucket gives the first [MaxKeys]
    keys under the prefix and their number. *)
Lemma send_list_page (bucket prefix : string) (max : Z) (w : World)
    (objects : gmap string S3Object) :
  buckets w !! bucket = Some objects ->
  faults w (List.length (s3_calls w)) = false ->
  let page := List.firstn (Z.to_nat max) (keys_under (buckets w) bucket prefix) in
  S3.send (ListObjectsV2Command (mkList bucket prefix max)) w
  = (Ok (S3.ListObjectsV2Output (Z.of_nat (List.length page)) page),
     set_buckets (buckets w)
       (set_s3_calls
          (s3_calls w ++ [ListObjectsV2Command (mkList bucket prefix max)]) w)).
Proof.
  intros Hbucket Hfault page. rewrite (send_reaches _ w Hfault).
  unfold page, keys_under, S3.exec. cbn [list_Bucket list_Prefix list_MaxKeys].
  rewrite Hbucket. reflexivity.
Qed.

Lemma list_writes_nothing (i : ListObjectsV2Input) :
  written_key (ListObjectsV2Command i) = None.
Proof. reflexivity. Qed.

(** The dashboard only reads: it sends at most three calls, all of them
    listings of the media bucket, and changes no bucket, whether it
    answers 200 or, after the first listing that fails, 500. *)
Theorem dashboard_only_reads (w : World) :
  exists (r : HttpResponse) (w' : World) (calls : list S3Command),
    dashboard w = (Ok r, w')
    /\ (status r = 200
        \/ r = respond 500 [("error", JStr "Failed to load dashboard")])
    /\ buckets w' = buckets w
    /\ s3_calls w' = (s3_calls w ++ calls)%list
    /\ (List.length calls <= 3)%nat
    /\ Forall (fun c => written_key c = None) calls.
Proof.
  unfold dashboard, try_catch.
  set (l1 := mkList S3_BUCKETS_media "pending-uploads/" 1000).
  set (l2 := mkList S3_BUCKETS_media "approved-content/" 1000).
  set (l3 := mkList S3_BUCKETS_media "featured-showcase/" 1000).
  pose proof (send_list_keeps_buckets l1 w) as Hb1.
  pose proof (send_calls (ListObjectsV2Command l1) w) as Hc1.
  destruct (S3.send (ListObjectsV2Command l1) w) as [[o1|e] w1] eqn:H1;
    cbn [snd] in Hb1, Hc1;
    [erewrite bind_ok by exact H1
    |erewrite bind_throw by exact H1;
     exists (respond 500 [("error", JStr "Failed to load dashboard")]),
       (logged_error "Dashboard error:" e w1), [ListObjectsV2Command l1];
     repeat split; auto].
  pose proof (send_list_keeps_buckets l2 w1) as Hb2.
  pose proof (send_calls (ListObjectsV2Command l2) w1) as Hc2.
  destruct (S3.send (ListObjectsV2Command l2) w1) as [[o2|e] w2] eqn:H2;
    cbn [snd] in Hb2, Hc2;
    [erewrite bind_ok by exact H2
    |erewrite bind_throw by exact H2;
     exists (respond 500 [("error", JStr "Failed to load dashboard")]),
       (logged_error "Dashboard error:" e w2),
       [ListObjectsV2Command l1; ListObjectsV2Command l2];
     repeat split; auto;
     [cbn; congruence | cbn; rewrite Hc2, Hc1, <- app_assoc; reflexivity]].
  pose proof (send_list_keeps_buckets l3 w2) as Hb3.
  pose proof (send_calls (ListObjectsV2Command l3) w2) as Hc3.
  assert (Hcalls : (s3_calls w2 ++ [ListObjectsV2Command l3]
                    = s3_calls w ++ [ListObjectsV2Command l1; ListObjectsV2Command l2;
                                     ListObjectsV2Command l3])%list).
  { rewrite Hc2, Hc1, <- !app_assoc. reflexivity. }
  destruct (S3.send (ListObjectsV2Command l3) w2) as [[o3|e] w3] eqn:H3;
    cbn [snd] in Hb3, Hc3;
    [erewrite bind_ok by exact H3
    |erewrite bind_throw by exact H3;
     exists (respond 500 [("error", JStr "Failed to load dashboard")]),
       (logged_error "Dashboard error:" e w3),
       [ListObjectsV2Command l1; ListObjectsV2Command l2; ListObjectsV2Command l3];
     repeat split; auto;
     [cbn; congruence | cbn; congruence]].
  destruct (session w3) as [s|] eqn:Hs.
  - erewrite bind_ok by (apply get_session_ok; exact Hs).
    eexists _, w3,
      [ListObjectsV2Command l1; ListObjectsV2Command l2; ListObjectsV2Command l3].
    split; [reflexivity|]. split; [left; reflexivity|].
    split; [congruence|]. split; [congruence|]. split; [cbn; lia|].
    repeat constructor.
  - erewrite bind_throw by (unfold get_session; rewrite Hs; reflexivity).
    exists (respond 500 [("error", JStr "Failed to load dashboard")]),
      (logged_error "Dashboard error:" TypeError w3),
      [ListObjectsV2Command l1; ListObjectsV2Command l2; ListObjectsV2Command l3].
    split; [reflexivity|]. split; [right; reflexivity|].
    split; [cbn; congruence|]. split; [cbn; congruence|]. split; [cbn; lia|].
    repeat constructor.
Qed.

(** The counts of the dashboard are the numbers of keys under the three
    lifecycle prefixes, each cut off at 1000: a folder with more objects
    than that is reported as 1000. *)
Theorem dashboard_counts_are_capped (w : World) (s : Session)
    (objects : gmap string S3Object) :
  session w = Some s ->
  buckets w !! S3_BUCKETS_media = Some objects ->
  faults w (List.length (s3_calls w)) = false ->
  faults w (S (List.length (s3_calls w))) = false ->
  faults w (S (S (List.length (s3_calls w)))) = false ->
  let count prefix :=
    JNum (Z.min 1000
            (Z.of_nat (List.length (keys_under (buckets w) S3_BUCKETS_media prefix)))) in
  fst (dashboard w)
  = Ok (respond 200
          [("message", JStr "Admin dashboard data");
           ("user", JObj [("username", adminUsername s);
                          ("email", adminEmail s)]);
           ("stats", JObj [("pendingUploads", count "pending-uploads/");
                           ("approvedContent", count "approved-content/");
                           ("featuredContent", count "featured-showcase/");
                           ("s3Buckets", S3_BUCKETS)])]).
Proof.
  intros Hs Hmedia Hf1 Hf2 Hf3 count.
  unfold dashboard, try_catch.
  erewrite bind_ok by exact (send_list_page _ _ _ w objects Hmedia Hf1).
  set (w1 := set_buckets _ _).
  assert (Hf2' : faults w1 (List.length (s3_calls w1)) = false).
  { change (s3_calls w1) with (s3_calls w ++ [ListObjectsV2Command
              (mkList S3_BUCKETS_media "pending-uploads/" 1000)])%list.
    rewrite length_app. cbn [List.length].
    replace (length (s3_calls w) + 1)%nat with (S (length (s3_calls w))) by lia.
    exact Hf2. }
  erewrite bind_ok by exact (send_list_page _ _ _ w1 objects Hmedia Hf2').
  set (w2 := set_buckets _ _).
  assert (Hf3' : faults w2 (List.length (s3_calls w2)) = false).
  { change (s3_calls w2) with (s3_calls w1 ++ [ListObjectsV2Command
              (mkList S3_BUCKETS_media "approved-content/" 1000)])%list.
    change (s3_calls w1) with (s3_calls w ++ [ListObjectsV2Command
              (mkList S3_BUCKETS_media "pending-uploads/" 1000)])%list.
    rewrite !length_app. cbn [List.length].
    replace (length (s3_calls w) + 1 + 1)%nat
      with (S (S (length (s3_calls w)))) by lia.
    exact Hf3. }
  erewrite bind_ok by exact (send_list_page _ _ _ w2 objects Hmedia Hf3').
  erewrite bind_ok by (apply get_session_ok; exact Hs).
  cbn [fst mret M_ret]. unfold mret, M_ret. cbn [fst].
  rewrite !KeyCount_or_0_is_KeyCount, !page_length by lia.
  reflexivity.
Qed.

Lemma dashboard_counts_are_capped_witness :
  fst (dashboard (Scenario.world (Some Sample.admin)))
  = Ok (respond 200
          [("message", JStr "Admin dashboard data");
           ("user", JObj [("username", JStr "admin");
                          ("email", JStr "admin@renthabit.com")]);
           ("stats", JObj [("pendingUploads", JNum 2);
                           ("approvedContent", JNum 1);
                           ("featuredContent", JNum 0);
                           ("s3Buckets", S3_BUCKETS)])]).
Proof.
  rewrite (dashboard_counts_are_capped (Scenario.world (Some Sample.admin))
             Sample.admin Scenario.media eq_refl eq_refl eq_refl eq_refl eq_refl).
  vm_compute. reflexivity.
Defined.



Example content_of_a_user_without_status :
  s3_calls (snd (content [("userId", JStr "u1"); ("contentType", JStr "image")]
                   (Scenario.world (Some Sample.admin))))
  = [ListObjectsV2Command (mkList "renthabit-media" "" 100)].
Proof. vm_compute. reflexivity. Qed.

Lemma In_firstn {A : Type} (n : nat) (l : list A) (x : A) :
  In x (List.firstn n l) -> In x l.
Proof.
  revert l. induction n as [|n IH]; intros [|a l]; cbn; try tauto.
  intros [->|Hx]; [left; reflexivity|right; apply IH, Hx].
Qed.

(** ** The order of a listing *)

Lemma leb_trans (a b c : string) :
  String.leb a b = true -> String.leb b c = true -> String.leb a c = true.
Proof.
  intros Hab Hbc. apply Is_true_true.
  change (String.le a c). transitivity b; apply Is_true_true; assumption.
Qed.

Lemma leb_ltb (a b : string) :
  String.leb a b = true -> a <> b -> String.ltb a b = true.
Proof.
  unfold String.leb, String.ltb. intros Hle Hne.
  destruct (String.compare a b) eqn:Hc; try reflexivity; try discriminate.
  exfalso. apply Hne, String.compare_eq_iff, Hc.
Qed.

Lemma ltb_leb (a b : string) : String.ltb a b = true -> String.leb a b = true.
Proof.
  unfold String.leb, String.ltb. destruct (String.compare a b); congruence.
Qed.

Lemma insert_key_In (k x : string) (l : list string) :
  In x (S3.insert_key k l) <-> x = k \/ In x l.
Proof.
  induction l as [|a l IH]; cbn; [intuition|].
  destruct (String.leb k a); cbn; [intuition|].
  rewrite IH. intuition.
Qed.

Lemma sort_keys_In (x : string) (l : list string) :
  In x (S3.sort_keys l) <-> In x l.
Proof.
  induction l as [|a l IH]; cbn; [tauto|].
  rewrite insert_key_In, IH. intuition.
Qed.

(** [below k l]: the key [k] comes before every key of [l]. *)
Lemma insert_key_increasing (k : string) (l : list string) :
  ~ In k l ->
  StronglySorted (fun a b => String.ltb a b = true) l ->
  StronglySorted (fun a b => String.ltb a b = true) (S3.insert_key k l).
Proof.
  intros Hk Hl. induction Hl as [|a l Hl IH Ha]; cbn.
  - repeat constructor.
  - destruct (String.leb k a) eqn:Hka.
    + assert (Hlt : String.ltb k a = true).
      { apply leb_ltb; [exact Hka|]. intros ->. apply Hk. left. reflexivity. }
      constructor; [constructor; assumption|].
      constructor; [exact Hlt|].
      apply List.Forall_forall. intros x Hx.
      rewrite List.Forall_forall in Ha.
      apply leb_ltb.
      * apply (leb_trans k a x); [exact Hka|apply ltb_leb, Ha, Hx].
      * intros ->. apply Hk. right. exact Hx.
    + constructor; [apply IH; intros Hin; apply Hk; right; exact Hin|].
      apply List.Forall_forall. intros x Hx. apply insert_key_In in Hx.
      destruct Hx as [->|Hx]; [|rewrite List.Forall_forall in Ha; apply Ha, Hx].
      apply leb_ltb.
      * destruct (String.leb_total a k) as [H|H]; [exact H|congruence].
      * intros ->. apply Hk. left. reflexivity.
Qed.

Lemma sort_keys_increasing (l : list string) :
  List.NoDup l ->
  StronglySorted (fun a b => String.ltb a b = true) (S3.sort_keys l).
Proof.
  induction 1 as [|a l Ha Hl IH]; cbn; [constructor|].
  apply insert_key_increasing; [|exact IH].
  rewrite sort_keys_In. exact Ha.
Qed.

Lemma filter_increasing (f : string -> bool) (l : list string) :
  StronglySorted (fun a b => String.ltb a b = true) l ->
  StronglySorted (fun a b => String.ltb a b = true) (List.filter f l).
Proof.
  induction 1 as [|a l Hl IH Ha]; cbn; [constructor|].
  destruct (f a); [|exact IH].
  constructor; [exact IH|].
  apply List.Forall_forall. intros x Hx. apply List.filter_In in Hx.
  rewrite List.Forall_forall in Ha. apply Ha, Hx.
Qed.

Lemma increasing_page (n : nat) (l : list string) :
  StronglySorted (fun a b => String.ltb a b = true) l ->
  increasing (List.firstn n l) = true
  /\ (forall k k' : string,
        In k (List.firstn n l) -> In k' l -> ~ In k' (List.firstn n l) ->
        String.ltb k k' = true).
Proof.
  intros Hl. revert n. induction Hl as [|a l Hl IH Ha]; intros n.
  - destruct n; cbn; split; try reflexivity; intros k k' [].
  - destruct n as [|n]; [cbn; split; [reflexivity|intros k k' []]|].
    destruct (IH n) as [Hinc Hrest]. cbn [List.firstn]. split.
    + destruct n as [|n]; [reflexivity|]. destruct l as [|b l]; [reflexivity|].
      cbn [List.firstn increasing] in *. rewrite Hinc, andb_true_r.
      rewrite List.Forall_forall in Ha. apply Ha. left. reflexivity.
    + intros k k' [<-|Hk] [->|Hk'] Hout.
      * exfalso. apply Hout. left. reflexivity.
      * rewrite List.Forall_forall in Ha. apply Ha, Hk'.
      * exfalso. apply Hout. left. reflexivity.
      * apply Hrest; [exact Hk|exact Hk'|]. intros Hin. apply Hout. right. exact Hin.
Qed.

Lemma keys_under_increasing (b : gmap string (gmap string S3Object))
    (bucket prefix : string) :
  StronglySorted (fun a b => String.ltb a b = true) (keys_under b bucket prefix).
Proof.
  unfold keys_under. destruct (b !! bucket) as [objects|]; [|constructor].
  apply filter_increasing, sort_keys_increasing.
  apply NoDup_ListNoDup, NoDup_fst_map_to_list.
Qed.

Lemma keys_under_spec (b : gmap string (gmap string S3Object))
    (bucket prefix k : string) :
  In k (keys_under b bucket prefix)
  <-> (exists o, S3.get_object b bucket k = Some o) /\ String.prefix prefix k = true.
Proof.
  unfold keys_under, S3.get_object.
  destruct (b !! bucket) as [objects|]; [|cbn; split; [tauto|intros [[o [=]] _]]].
  rewrite List.filter_In, sort_keys_In, List.in_map_iff.
  split.
  - intros [[[k' o] [<- Hin]] Hp]. split; [|exact Hp].
    exists o. apply elem_of_map_to_list, list_elem_of_In, Hin.
  - intros [[o Ho] Hp]. split; [|exact Hp].
    exists (k, o). split; [reflexivity|].
    apply list_elem_of_In, elem_of_map_to_list, Ho.
Qed.



Example listing_in_key_order :
  keys_under Scenario.store "renthabit-media" ""
  = ["approved-content/u1/property-42/original/photo.jpg"; "notes.txt";
     "pending-uploads/u1/property-42/images/photo.jpg";
     "pending-uploads/u2/property-7/images/door.png"].
Proof. vm_compute. reflexivity. Qed.

Example key_order_is_by_code_unit :
  S3.sort_keys ["b"; "aa"; "a"; "0"; "B"; "a/b"; "a-b"]
  = ["0"; "B"; "a"; "a-b"; "a/b"; "aa"; "b"].
Proof. vm_compute. reflexivity. Qed.

(** ** The bucket set-up *)

Lemma exec_put_frame (i : PutObjectInput) (b : gmap string (gmap string S3Object))
    (bucket key : string) :
  (put_Bucket i, put_Key i) <> (bucket, key) ->
  S3.get_object (snd (S3.exec (PutObjectCommand i) b)) bucket key
  = S3.get_object b bucket key.
Proof.
  intros Hne. unfold S3.exec.
  destruct (b !! put_Bucket i) as [dest|] eqn:Hdest; [|reflexivity].
  cbn [snd]. apply get_object_insert_other; assumption.
Qed.

(** One round of the loop: it never throws, sends one put for the
    marker of the folder, and leaves every other object alone. *)
Lemma setup_folder_round (folder : string) (w : World) (s : Session) :
  session w = Some s ->
  exists (w' : World) (i : PutObjectInput),
    setup_folder folder w = (Ok tt, w')
    /\ put_Bucket i = S3_BUCKETS_media
    /\ put_Key i = (folder ++ ".keep")%string
    /\ put_Body i = ""
    /\ s3_calls w' = (s3_calls w ++ [PutObjectCommand i])%list
    /\ session w' = Some s
    /\ faults w' = faults w
    /\ (forall bucket key : string,
          (S3_BUCKETS_media, (folder ++ ".keep")%string) <> (bucket, key) ->
          S3.get_object (buckets w') bucket key
          = S3.get_object (buckets w) bucket key)
    /\ (forall objects : gmap string S3Object,
          buckets w !! S3_BUCKETS_media = Some objects ->
          faults w (List.length (s3_calls w)) = false ->
          buckets w'
          = <[S3_BUCKETS_media :=
                <[(folder ++ ".keep")%string :=
                    mkObject "" (S3.metadata_strings (put_Metadata i))]> objects]>
              (buckets w)).
Proof.
  intros Hs. unfold setup_folder, try_catch.
  erewrite bind_ok by (apply get_session_ok; exact Hs).
  erewrite bind_ok by reflexivity.
  match goal with
  | |- context [(S3.send (PutObjectCommand ?i0) ≫= _) ?w0] =>
      set (i := i0); set (w1 := w0)
  end.
  pose proof (send_calls (PutObjectCommand i) w1) as Hcalls.
  pose proof (send_keeps (PutObjectCommand i) w1) as (_ & _ & Hsession & Hfaults).
  assert (Hframe : forall bucket key : string,
            (S3_BUCKETS_media, (folder ++ ".keep")%string) <> (bucket, key) ->
            S3.get_object (buckets (snd (S3.send (PutObjectCommand i) w1))) bucket key
            = S3.get_object (buckets w) bucket key).
  { intros bucket key Hne. unfold S3.send.
    destruct (faults w1 _); [reflexivity|].
    pose proof (exec_put_frame i (buckets w1) bucket key Hne) as Hput.
    destruct (S3.exec _ (buckets w1)) as [r b']. exact Hput. }
  assert (Hwritten : forall objects : gmap string S3Object,
            buckets w !! S3_BUCKETS_media = Some objects ->
            faults w (List.length (s3_calls w)) = false ->
            S3.send (PutObjectCommand i) w1
            = (Ok S3.PutObjectOutput,
               set_buckets
                 (<[S3_BUCKETS_media :=
                      <[(folder ++ ".keep")%string :=
                          mkObject "" (S3.metadata_strings (put_Metadata i))]>
                        objects]> (buckets w))
                 (set_s3_calls (s3_calls w1 ++ [PutObjectCommand i]) w1))).
  { intros objects Hobjects Hfault.
    rewrite (send_reaches _ w1 Hfault). unfold S3.exec.
    change (buckets w1 !! put_Bucket i) with (buckets w !! S3_BUCKETS_media).
    rewrite Hobjects. reflexivity. }
  destruct (S3.send (PutObjectCommand i) w1) as [[out|e] w2] eqn:Hsend;
    cbn [snd] in Hcalls, Hsession, Hfaults, Hframe.
  - erewrite bind_ok by exact Hsend.
    exists w2, i. split; [reflexivity|].
    split; [reflexivity|]. split; [reflexivity|]. split; [reflexivity|].
    split; [exact Hcalls|]. split; [rewrite Hsession; exact Hs|].
    split; [exact Hfaults|]. split; [exact Hframe|].
    intros objects Hobjects Hfault.
    specialize (Hwritten objects Hobjects Hfault).
    injection Hwritten as _ ->. reflexivity.
  - erewrite bind_throw by exact Hsend.
    exists (logged_error ("Folder " ++ folder ++ " setup:") e w2), i.
    split; [reflexivity|].
    split; [reflexivity|]. split; [reflexivity|]. split; [reflexivity|].
    split; [exact Hcalls|]. split; [cbn; rewrite Hsession; exact Hs|].
    split; [exact Hfaults|]. split; [exact Hframe|].
    intros objects Hobjects Hfault.
    specialize (Hwritten objects Hobjects Hfault). discriminate Hwritten.
Qed.

(** The whole loop over a list of folders. *)
Lemma setup_folders_rounds (l : list string) :
  forall (w : World) (s : Session),
    session w = Some s ->
    exists w' : World,
      setup_folders l w = (Ok tt, w')
      /\ session w' = Some s
      /\ List.map written_key (s3_calls w')
         = (List.map written_key (s3_calls w)
            ++ List.map (fun folder => Some (S3_BUCKETS_media, (folder ++ ".keep")%string)) l)%list
      /\ (forall bucket key : string,
            (bucket <> S3_BUCKETS_media
             \/ ~ In key (List.map (fun folder => (folder ++ ".keep")%string) l)) ->
            S3.get_object (buckets w') bucket key
            = S3.get_object (buckets w) bucket key)
      /\ (forall objects : gmap string S3Object,
            buckets w !! S3_BUCKETS_media = Some objects ->
            (forall k : nat, (k < List.length l)%nat ->
                             faults w (List.length (s3_calls w) + k) = false) ->
            forall key : string,
              In key (List.map (fun folder => (folder ++ ".keep")%string) l) ->
              exists metadata : list (string * string),
                S3.get_object (buckets w') S3_BUCKETS_media key
                = Some (mkObject "" metadata)).
Proof.
  induction l as [|folder rest IH]; intros w s Hs.
  - exists w. cbn. rewrite app_nil_r. repeat split; tauto.
  - cbn [setup_folders].
    destruct (setup_folder_round folder w s Hs)
      as (w1 & i & Hround & Hbucket & Hkey & Hbody & Hcalls1 & Hs1 & Hfaults1
          & Hframe1 & Hwritten1).
    destruct (IH w1 s Hs1) as (w' & Hrest & Hs' & Hcalls' & Hframe' & Hmarkers').
    exists w'. split; [erewrite bind_ok by exact Hround; exact Hrest|].
    split; [exact Hs'|]. split; [|split].
    + rewrite Hcalls', Hcalls1, map_app, <- app_assoc. cbn [List.map app written_key].
      rewrite Hbucket, Hkey. reflexivity.
    + intros bucket key Hother. rewrite Hframe'.
      * apply Hframe1. intros [= <- <-]. cbn [List.map In] in Hother.
        destruct Hother as [Hb|Hk]; [congruence|tauto].
      * cbn [List.map In] in Hother. tauto.
    + intros objects Hobjects Hfaults key Hin.
      assert (Hfirst : faults w (List.length (s3_calls w)) = false).
      { rewrite <- (Nat.add_0_r (length (s3_calls w))). apply Hfaults. cbn. lia. }
      pose proof (Hwritten1 objects Hobjects Hfirst) as Hb1.
      assert (Hobjects1 : buckets w1 !! S3_BUCKETS_media
                = Some (<[(folder ++ ".keep")%string :=
                            mkObject "" (S3.metadata_strings (put_Metadata i))]>
                          objects)).
      { rewrite Hb1. apply lookup_insert_eq. }
      assert (Hfaults' : forall k : nat, (k < List.length rest)%nat ->
                faults w1 (List.length (s3_calls w1) + k) = false).
      { intros k Hk. rewrite Hfaults1, Hcalls1, length_app. cbn [List.length].
        replace (length (s3_calls w) + 1 + k)%nat
          with (length (s3_calls w) + S k)%nat by lia.
        apply Hfaults. cbn. lia. }
      destruct (in_dec string_dec key
                  (List.map (fun folder => (folder ++ ".keep")%string) rest))
        as [Hlater|Hnot].
      * exact (Hmarkers' _ Hobjects1 Hfaults' key Hlater).
      * cbn [List.map In] in Hin. destruct Hin as [<-|Hin]; [|contradiction].
        rewrite Hframe' by (right; exact Hnot).
        rewrite Hb1. eexists. apply get_object_insert.
Qed.

(** The bucket set-up reports success whatever becomes of its puts.  It
    sends one put for each of the five markers, in the order of the
    folders, also after a put that failed, and it touches no object but
    the markers. *)
Theorem init_s3_reports_success_anyway (w : World) (s : Session) :
  session w = Some s ->
  fst (init_s3 w)
  = Ok (mkArrayResponse 200
          [("success", Scalar (JBool true));
           ("message", Scalar (JStr "S3 bucket structure initialized"));
           ("bucket", Scalar (JStr "renthabit-media"));
           ("folders",
            Array [JStr "pending-uploads/"; JStr "approved-content/";
                   JStr "featured-showcase/"; JStr "thumbnails/";
                   JStr "processed/"])])
  /\ List.map written_key (s3_calls (snd (init_s3 w)))
     = (List.map written_key (s3_calls w)
        ++ List.map (fun key => Some ("renthabit-media", key)) marker_keys)%list
  /\ (forall bucket key : string,
        bucket <> "renthabit-media" \/ ~ In key marker_keys ->
        S3.get_object (buckets (snd (init_s3 w))) bucket key
        = S3.get_object (buckets w) bucket key).
Proof.
  intros Hs. unfold init_s3, try_catch.
  destruct (setup_folders_rounds folders w s Hs)
    as (w' & Hrun & _ & Hcalls & Hframe & _).
  erewrite bind_ok by exact Hrun.
  unfold mret, M_ret. cbn [fst snd].
  split; [reflexivity|]. split.
  - rewrite Hcalls. unfold marker_keys. rewrite List.map_map. reflexivity.
  - exact Hframe.
Qed.

Lemma init_s3_reports_success_anyway_witness :
  array_status
    (match fst (init_s3 (Scenario.world_cut_off (Some Sample.admin))) with
     | Ok r => r
     | Throw _ => mkArrayResponse 0 []
     end) = 200
  /\ List.length (s3_calls (snd (init_s3 (Scenario.world_cut_off (Some Sample.admin)))))
     = 5%nat.
Proof.
  destruct (init_s3_reports_success_anyway
              (Scenario.world_cut_off (Some Sample.admin)) Sample.admin eq_refl)
    as (Hanswer & Hcalls & _).
  rewrite Hanswer. split; [reflexivity|].
  apply (f_equal (@List.length _)) in Hcalls.
  rewrite List.length_map in Hcalls. exact Hcalls.
Defined.

(** When the media bucket exists and the five calls get through, each
    marker key holds an empty object afterwards: the set-up can be run
    again on its own result, and on a bucket that has objects, without
    changing anything but the markers. *)
Theorem init_s3_writes_empty_markers (w : World) (s : Session)
    (objects : gmap string S3Object) :
  session w = Some s ->
  buckets w !! S3_BUCKETS_media = Some objects ->
  (forall k : nat, (k < 5)%nat ->
                   faults w (List.length (s3_calls w) + k) = false) ->
  forall key : string,
    In key marker_keys ->
    exists metadata : list (string * string),
      S3.get_object (buckets (snd (init_s3 w))) S3_BUCKETS_media key
      = Some (mkObject "" metadata).
Proof.
  intros Hs Hobjects Hfaults key Hin. unfold init_s3, try_catch.
  destruct (setup_folders_rounds folders w s Hs)
    as (w' & Hrun & _ & _ & _ & Hmarkers).
  erewrite bind_ok by exact Hrun.
  unfold mret, M_ret. cbn [snd].
  exact (Hmarkers objects Hobjects Hfaults key Hin).
Qed.

Lemma init_s3_writes_empty_markers_witness :
  exists metadata : list (string * string),
    S3.get_object (buckets (snd (init_s3 (Scenario.world (Some Sample.admin)))))
      "renthabit-media" "thumbnails/.keep"
    = Some (mkObject "" metadata).
Proof.
  apply (init_s3_writes_empty_markers (Scenario.world (Some Sample.admin))
           Sample.admin Scenario.media eq_refl eq_refl).
  - intros k Hk. reflexivity.
  - cbn. tauto.
Defined.

(** ** More on the gate *)

Lemma gate_history_all_allowed (skips : list nat) :
  forall (w : World) (s : Session) (la : Z),
    session w = Some s ->
    adminAuthenticated s = true ->
    lastActivity s = Some la ->
    match skips with
    | [] => True
    | skip :: _ => clock w (ticks w + skip) - la <= 7200000
    end ->
    (forall (i skip : nat), In skip skips ->
                            clock w (i + 1 + skip) - clock w i <= 7200000) ->
    List.length (gate_history skips w) = List.length skips.
Proof.
  induction skips as [|skip rest IH]; intros w s la Hs Ha Hla Hfirst Hgap;
    [reflexivity|].
  cbn [gate_history].
  rewrite (requireAuth_decides (later skip w) s) by (destruct w; assumption).
  replace (clock (later skip w) (ticks (later skip w)))
    with (clock w (ticks w + skip)) by (destruct w; reflexivity).
  rewrite Hla. cbn [date_or].
  apply idle_too_long_false in Hfirst. rewrite Hfirst.
  cbn [session set_session lastActivity with_lastActivity List.length].
  f_equal.
  eapply IH; [reflexivity|exact Ha|reflexivity| |].
  - destruct rest as [|next rest']; [exact I|].
    destruct w as [clk n e sec down b f calls con se]; cbn. cbn in Hgap.
    replace (S (n + skip + next))%nat with (n + skip + 1 + next)%nat by lia.
    apply Hgap. right. left. reflexivity.
  - intros i k Hk. destruct w as [clk n e sec down b f calls con se]; cbn.
    apply Hgap. right. exact Hk.
Qed.

(** The timeout is an idle timeout and nothing more: a session whose
    requests follow one another by at most 7200000 ms passes
    [requireAuth] every time, however long ago the login was. *)
Theorem active_sessions_stay_alive (skips : list nat) (w : World) (s : Session)
    (la : Z) :
  session w = Some s ->
  adminAuthenticated s = true ->
  lastActivity s = Some la ->
  (forall skip : nat, In skip skips -> clock w (ticks w + skip) - la <= 7200000) ->
  (forall (i skip : nat), In skip skips ->
                          clock w (i + 1 + skip) - clock w i <= 7200000) ->
  List.length (gate_history skips w) = List.length skips.
Proof.
  intros Hs Ha Hla Hfirst Hgap.
  apply (gate_history_all_allowed skips w s la Hs Ha Hla); [|exact Hgap].
  destruct skips as [|skip rest]; [exact I|]. apply Hfirst. left. reflexivity.
Qed.

Lemma active_sessions_stay_alive_witness :
  List.length
    (gate_history [0; 0; 0; 0; 0]%nat
       (Scenario.world_by_the_hour (Some Scenario.stale)))
  = 5%nat.
Proof.
  apply (active_sessions_stay_alive [0; 0; 0; 0; 0]%nat
           (Scenario.world_by_the_hour (Some Scenario.stale)) Scenario.stale 0
           eq_refl eq_refl eq_refl).
  - intros skip Hskip. cbn in Hskip.
    assert (skip = 0%nat) as -> by intuition congruence. vm_compute. discriminate.
  - intros i skip Hskip. cbn in Hskip.
    assert (skip = 0%nat) as -> by intuition congruence.
    unfold Scenario.world_by_the_hour, Scenario.hourly. cbn [clock]. lia.
Defined.

Example five_hours_after_login :
  gate_history [0; 0; 0; 0; 0]%nat
    (Scenario.world_by_the_hour (Some Scenario.stale))
  = [0; 3600000; 7200000; 10800000; 14400000].
Proof. vm_compute. reflexivity. Qed.

(** The listing and the set-up are behind the same gate as the other
    admin routes: a request that passes it reaches the handler in the
    world the gate leaves, and one that does not is answered 401
    without a call to the object store. *)
Lemma chain_array_admitted (handler : M ArrayResponse) (w : World) :
  gate_passes w = true ->
  chain_array [session_middleware; admin_prefilter; requireAuth] handler w
  = handler (after_gate w).
Proof.
  unfold gate_passes, after_gate, chain_array, session_middleware,
    admin_prefilter, requireAuth. run.
  destruct w as [clk n e sec down b f calls con [[auth u em lt la]|]]; cbn;
    [|discriminate].
  destruct auth; cbn; [|discriminate].
  destruct (idle_too_long (clk n) la); cbn; [discriminate|].
  destruct (idle_too_long (clk (S n)) (date_or la lt)); cbn; [discriminate|].
  reflexivity.
Qed.

Lemma chain_array_refused (handler : M ArrayResponse) (w : World) :
  gate_passes w = false ->
  exists r w',
    chain_array [session_middleware; admin_prefilter; requireAuth] handler w
    = (Ok r, w')
    /\ array_status r = 401
    /\ buckets w' = buckets w
    /\ s3_calls w' = s3_calls w.
Proof.
  unfold gate_passes, chain_array, session_middleware,
    admin_prefilter, requireAuth. run.
  destruct w as [clk n e sec down b f calls con [[auth u em lt la]|]]; cbn.
  - destruct auth; cbn.
    + destruct (idle_too_long (clk n) la); cbn.
      * intros _. do 2 eexists. repeat split.
      * destruct (idle_too_long (clk (S n)) (date_or la lt)); cbn; [|discriminate].
        intros _. do 2 eexists. repeat split.
    + intros _. do 2 eexists. repeat split.
  - intros _. do 2 eexists. repeat split.
Qed.

Theorem listing_routes_are_gated (query : list (string * JsVal)) (w : World) :
  (gate_passes w = true ->
   content_route query w = content query (after_gate w)
   /\ init_s3_route w = init_s3 (after_gate w)
   /\ dashboard_route w = dashboard (after_gate w))
  /\ (gate_passes w = false ->
      (exists r w', content_route query w = (Ok r, w')
                    /\ array_status r = 401 /\ s3_calls w' = s3_calls w)
      /\ (exists r w', init_s3_route w = (Ok r, w')
                       /\ array_status r = 401 /\ s3_calls w' = s3_calls w)
      /\ (exists r w', dashboard_route w = (Ok r, w')
                       /\ status r = 401 /\ s3_calls w' = s3_calls w)).
Proof.
  split; intros Hgate.
  - split; [apply chain_array_admitted, Hgate|].
    split; [apply chain_array_admitted, Hgate|].
    exact (admin_route_admitted dashboard w Hgate).
  - split; [|split].
    + destruct (chain_array_refused (content query) w Hgate)
        as (r & w' & Hrun & Hstatus & _ & Hcalls). exists r, w'. auto.
    + destruct (chain_array_refused init_s3 w Hgate)
        as (r & w' & Hrun & Hstatus & _ & Hcalls). exists r, w'. auto.
    + destruct (admin_route_refused dashboard w Hgate)
        as (r & w' & Hrun & Hstatus & _ & Hcalls). exists r, w'. auto.
Qed.

Lemma listing_routes_are_gated_witness :
  s3_calls (snd (init_s3_route (Scenario.world None))) = [].
Proof.
  destruct (listing_routes_are_gated [] (Scenario.world None)) as [_ Hrefused].
  destruct (Hrefused eq_refl) as (_ & (r & w' & Hrun & _ & Hcalls) & _).
  rewrite Hrun. exact Hcalls.
Defined.

(** ** Featured keys from one day to the next *)

Lemma append_inj_same_length (a a' b b' : string) :
  String.length a = String.length a' ->
  (a ++ b)%string = (a' ++ b')%string -> a = a' /\ b = b'.
Proof.
  revert a'. induction a as [|c a IH]; intros [|c' a']; simpl;
    try discriminate; [auto|].
  intros [= Hlen] [= -> Heq]. destruct (IH a' Hlen Heq) as [-> ->]. auto.
Qed.

Lemma append_inj_prefix (p a b : string) :
  (p ++ a)%string = (p ++ b)%string -> a = b.
Proof.
  intros Heq. exact (proj2 (append_inj_same_length p p a b eq_refl Heq)).
Qed.

Lemma digit_value (n : Z) :
  Z.of_N (N_of_ascii (JsDate.digit n)) - 48 = n mod 10.
Proof.
  unfold JsDate.digit.
  pose proof (Z.mod_pos_bound n 10 ltac:(lia)) as Hbound.
  destruct (n mod 10) as [|q|q]; [reflexivity| |lia].
  do 4 (try destruct q as [q|q|]); try reflexivity; lia.
Qed.

Lemma digits_inj (k : nat) :
  forall a b : Z,
    0 <= a < 10 ^ Z.of_nat k ->
    0 <= b < 10 ^ Z.of_nat k ->
    JsDate.digits k a = JsDate.digits k b -> a = b.
Proof.
  induction k as [|k IH]; intros a b Ha Hb Heq.
  - cbn in Ha, Hb. lia.
  - cbn [JsDate.digits] in Heq.
    apply append_inj_same_length in Heq; [|rewrite !digits_length; reflexivity].
    destruct Heq as [Hhigh [= Hlow]].
    apply (f_equal (fun c => Z.of_N (N_of_ascii c) - 48)) in Hlow.
    rewrite !digit_value in Hlow.
    rewrite Nat2Z.inj_succ, Z.pow_succ_r in Ha, Hb by lia.
    assert (Hdiv : a / 10 = b / 10).
    { apply IH; [| |exact Hhigh]; Z.div_mod_to_equations; lia. }
    Z.div_mod_to_equations. lia.
Qed.

(** In the years 0000 to 9999 two times have the same date part exactly
    when they fall on the same UTC day. *)
Lemma date_string_tells_the_day (t1 t2 : Z) :
  -62167219200000 <= t1 <= 253402300799999 ->
  -62167219200000 <= t2 <= 253402300799999 ->
  JsDate.date_string t1 = JsDate.date_string t2 <->
  t1 / JsDate.msPerDay = t2 / JsDate.msPerDay.
Proof.
  intros H1 H2. split.
  - intros Heq.
    destruct (date_string_utc_date t1 H1)
      as (y1 & m1 & d1 & Hs1 & Hy1 & Hm1 & Hd1 & Hn1 & _).
    destruct (date_string_utc_date t2 H2)
      as (y2 & m2 & d2 & Hs2 & Hy2 & Hm2 & Hd2 & Hn2 & _).
    rewrite Hs1, Hs2 in Heq.
    apply append_inj_same_length in Heq; [|rewrite !digits_length; reflexivity].
    destruct Heq as [Hy Heq].
    apply (append_inj_prefix "-") in Heq.
    apply append_inj_same_length in Heq; [|rewrite !digits_length; reflexivity].
    destruct Heq as [Hm Heq].
    apply (append_inj_prefix "-") in Heq.
    assert (Hdmax1 : d1 <= 31)
      by (unfold JsDate.month_length in Hd1;
          repeat match type of Hd1 with
                 | context [match ?x with _ => _ end] => destruct x
                 end; lia).
    assert (Hdmax2 : d2 <= 31)
      by (unfold JsDate.month_length in Hd2;
          repeat match type of Hd2 with
                 | context [match ?x with _ => _ end] => destruct x
                 end; lia).
    apply (digits_inj 4) in Hy; [|cbn; lia|cbn; lia].
    apply (digits_inj 2) in Hm; [|cbn; lia|cbn; lia].
    apply (digits_inj 2) in Heq; [|cbn; lia|cbn; lia].
    congruence.
  - intros Hday. unfold JsDate.date_string. rewrite Hday. reflexivity.
Qed.


